(** * A shallow embedding of [main.go]: the PAN-OS VM stack declared to Pulumi

    The program is one function, the closure passed to [pulumi.Run].  It reads
    the readme, loads three configuration objects and declares, in program
    order, a resource group, the network security groups, the route tables, a
    virtual network, the subnets, the public IP addresses, the network
    interfaces, a random string and the virtual machine.

    The embedding keeps the structure of the source: the configuration structs
    are records with the source's field names, every [New...] call appends a
    declaration to the trace of the run and returns a handle, the five
    [map[string]*T] indices are [gmap string Handle], and the closure is a
    computation in a state monad with Go's two ways of not finishing: a
    returned [error] and a run-time panic.

    The configuration loader is outside the program: the three objects that
    [cfg.RequireObject] decodes are inputs of the closure, as are the stack
    name, the result of reading the readme and the answer of the host runtime
    to each declaration. *)

From stdpp Require Import base strings gmap list.
From Stdlib Require Import Ascii.

(* ===================================================================== *)
(** ** Configuration structs (main.go, lines 15-99) *)
(* ===================================================================== *)

Module Image.
Record t := { Offer : string; Publisher : string; Sku : string; Version : string }.
End Image.

Module NIC.
Record t := {
  EnableAcceleratedNetworking : bool;
  EnableIPForwarding : bool;
  Name : string;
  PipName : string;
  SnetName : string }.
End NIC.

Module NICMAP.
Record t := { Nic0 : string; Nic1 : string; Nic2 : string }.
End NICMAP.

Module Rule.
Record t := {
  Access : string;
  DestinationAddressPrefix : string;
  DestinationPortRange : string;
  Direction : string;
  Name : string;
  Priority : Z;
  Protocol : string;
  SourceAddressPrefix : string;
  SourcePortRange : string }.
End Rule.

Module NSG.
Record t := { Name : string; Rules : list Rule.t }.
End NSG.

Module PIP.
Record t := { Name : string }.
End PIP.

Module Route.
Record t := {
  AddressPrefix : string;
  Name : string;
  NextHopIpAddress : string;
  NextHopType : string }.
End Route.

Module RT.
Record t := {
  Name : string;
  DisableBgpRoutePropagation : bool;
  Routes : list Route.t }.
End RT.

Module SNET.
Record t := {
  AddressPrefix : string;
  Name : string;
  NSGName : string;
  RTName : string }.
End SNET.

Module Tags.
Record t := { Automation : string; Solution : string }.
End Tags.

Module VM.
Record t := {
  AdminPassword : string;
  AdminUsername : string;
  ComputerName : string;
  Image : Image.t;
  NicMap : NICMAP.t;
  StorageAccountType : string;
  VmSize : string }.
End VM.

Module VNET.
Record t := {
  AddressSpace : string;
  NIC : list NIC.t;
  NSG : list NSG.t;
  PIP : list PIP.t;
  RT : list RT.t;
  SNET : list SNET.t }.
End VNET.

(* ===================================================================== *)
(** ** Resource handles and the argument structs of the provider SDKs *)
(* ===================================================================== *)

(** A [New...] call returns a pointer to a fresh resource object.  The handle
    is the position of the declaration in the trace of the run, so two
    declarations never share a handle.  A field of the SDK that receives an
    output of another resource ([resourceGroup.Name], [x.ID()]) holds the
    handle of that resource. *)
Definition Handle := nat.

(** Argument of [pulumi.Sprintf]: a plain string or the [Result] output of a
    random string resource. *)
Inductive SprintfArg :=
| ArgString (s : string)
| ArgResult (h : Handle).

(** A string output built by [pulumi.Sprintf format args...]. *)
Record StringOutput := Sprintf { format : string; args : list SprintfArg }.

Module ResourceGroupArgs.
Record t := { Tags : gmap string string }.
End ResourceGroupArgs.

Module SecurityRuleTypeArgs.
Record t := {
  Access : string;
  DestinationAddressPrefix : string;
  DestinationPortRange : string;
  Direction : string;
  Name : string;
  Priority : Z;
  Protocol : string;
  SourceAddressPrefix : string;
  SourcePortRange : string }.
End SecurityRuleTypeArgs.

Module NetworkSecurityGroupArgs.
Record t := {
  ResourceGroupName : Handle;
  SecurityRules : list SecurityRuleTypeArgs.t;
  Tags : gmap string string }.
End NetworkSecurityGroupArgs.

Module RouteTypeArgs.
Record t := {
  AddressPrefix : string;
  Name : string;
  NextHopType : string;
  NextHopIpAddress : string }.
End RouteTypeArgs.

Module RouteTableArgs.
Record t := {
  DisableBgpRoutePropagation : bool;
  ResourceGroupName : Handle;
  Routes : list RouteTypeArgs.t;
  Tags : gmap string string }.
End RouteTableArgs.

Module VirtualNetworkArgs.
Record t := {
  AddressPrefixes : list string;
  ResourceGroupName : Handle;
  Tags : gmap string string }.
End VirtualNetworkArgs.

Module SubnetArgs.
Record t := {
  AddressPrefix : string;
  NetworkSecurityGroup : Handle;
  ResourceGroupName : Handle;
  RouteTable : Handle;
  VirtualNetworkName : Handle }.
End SubnetArgs.

Module PublicIPAddressArgs.
Record t := {
  PublicIPAllocationMethod : string;
  ResourceGroupName : Handle;
  SkuName : string;
  SkuTier : string;
  Tags : gmap string string }.
End PublicIPAddressArgs.

Module NetworkInterfaceIPConfigurationArgs.
Record t := {
  Name : string;
  Subnet : Handle;
  PublicIPAddress : option Handle }.
End NetworkInterfaceIPConfigurationArgs.

Module NetworkInterfaceArgs.
Record t := {
  EnableAcceleratedNetworking : bool;
  EnableIPForwarding : bool;
  NicType : string;
  IpConfigurations : list NetworkInterfaceIPConfigurationArgs.t;
  ResourceGroupName : Handle;
  Tags : gmap string string }.
End NetworkInterfaceArgs.

Module RandomStringArgs.
Record t := {
  Length : Z;
  Lower : bool;
  MinLower : Z;
  MinNumeric : Z;
  Numeric : bool;
  Special : bool;
  Upper : bool }.
End RandomStringArgs.

Module NetworkInterfaceReferenceArgs.
Record t := { Id : Handle; Primary : bool }.
End NetworkInterfaceReferenceArgs.

Module OSProfileArgs.
Record t := {
  AdminPassword : string;
  AdminUsername : string;
  AllowExtensionOperations : bool;
  ComputerName : string;
  DisablePasswordAuthentication : bool;
  EnableVMAgentPlatformUpdates : bool;
  ProvisionVMAgent : bool }.
End OSProfileArgs.

Module PlanArgs.
Record t := { Name : string; Product : string; Publisher : string }.
End PlanArgs.

Module ImageReferenceArgs.
Record t := { Offer : string; Publisher : string; Sku : string; Version : string }.
End ImageReferenceArgs.

Inductive CachingTypes := CachingTypesNone | CachingTypesReadOnly | CachingTypesReadWrite.

Module OSDiskArgs.
Record t := {
  Caching : CachingTypes;
  CreateOption : string;
  DeleteOption : string;
  DiskSizeGB : Z;
  StorageAccountType : string;
  Name : StringOutput }.
End OSDiskArgs.

Module VirtualMachineArgs.
Record t := {
  VmSize : string;
  NetworkInterfaces : list NetworkInterfaceReferenceArgs.t;
  OsProfile : OSProfileArgs.t;
  Plan : PlanArgs.t;
  ResourceGroupName : Handle;
  ImageReference : ImageReferenceArgs.t;
  OsDisk : OSDiskArgs.t;
  Tags : gmap string string }.
End VirtualMachineArgs.

(** What was declared: one constructor per [New...] function of the SDKs. *)
Inductive Resource :=
| ResourceGroup (a : ResourceGroupArgs.t)
| NetworkSecurityGroup (a : NetworkSecurityGroupArgs.t)
| RouteTable (a : RouteTableArgs.t)
| VirtualNetwork (a : VirtualNetworkArgs.t)
| Subnet (a : SubnetArgs.t)
| PublicIPAddress (a : PublicIPAddressArgs.t)
| NetworkInterface (a : NetworkInterfaceArgs.t)
| RandomString (a : RandomStringArgs.t)
| VirtualMachine (a : VirtualMachineArgs.t).

(** A declaration as the host runtime receives it: the name given as second
    argument of [New...], the arguments, and the resource options
    [pulumi.DependsOn] and [pulumi.Parent]. *)
Record Declaration := {
  name : string;
  resource : Resource;
  DependsOn : list Handle;
  Parent : option Handle }.

Inductive Kind :=
| KResourceGroup | KNetworkSecurityGroup | KRouteTable | KVirtualNetwork
| KSubnet | KPublicIPAddress | KNetworkInterface | KRandomString
| KVirtualMachine.

Global Instance Kind_eq_dec : EqDecision Kind.
Proof. solve_decision. Defined.

Definition kind_of (r : Resource) : Kind :=
  match r with
  | ResourceGroup _ => KResourceGroup
  | NetworkSecurityGroup _ => KNetworkSecurityGroup
  | RouteTable _ => KRouteTable
  | VirtualNetwork _ => KVirtualNetwork
  | Subnet _ => KSubnet
  | PublicIPAddress _ => KPublicIPAddress
  | NetworkInterface _ => KNetworkInterface
  | RandomString _ => KRandomString
  | VirtualMachine _ => KVirtualMachine
  end.

Definition kind (d : Declaration) : Kind := kind_of (resource d).

(* ===================================================================== *)
(** ** Errors, panics and the monad of a run *)
(* ===================================================================== *)

(** A Go [error]: a message, or an error wrapped by [fmt.Errorf] with [%w]. *)
Inductive error :=
| errorString (msg : string)
| wrapError (msg : string) (err : error).

Definition Error (e : error) : string :=
  match e with errorString m => m | wrapError m _ => m end.

(** [fmt.Errorf (prefix ++ "%w") err] *)
Definition Errorf_w (prefix : string) (err : error) : error :=
  wrapError (prefix +:+ Error err) err.

(** Run-time panics the closure can raise. The only one is the selector or
    method call through a nil pointer: [m[k]] on a missing key is the nil
    [*T], and [.ID()] on it dereferences nil. *)
Inductive panic := NilPointerDereference.

Inductive Result (A : Type) :=
| Ok (a : A)
| Err (e : error)
| Panic (p : panic).
Arguments Ok {A} a.
Arguments Err {A} e.
Arguments Panic {A} p.

(** The part of the [pulumi.Context] the closure writes to. *)
Record RunState := {
  declared : list Declaration;
  exports : gmap string string }.

Definition initial : RunState := {| declared := []; exports := ∅ |}.

Definition M (A : Type) : Type := RunState -> Result A * RunState.

Definition ret {A} (a : A) : M A := fun s => (Ok a, s).

Definition bind {A B} (m : M A) (f : A -> M B) : M B :=
  fun s =>
    match m s with
    | (Ok a, s') => f a s'
    | (Err e, s') => (Err e, s')
    | (Panic p, s') => (Panic p, s')
    end.

Definition fail {A} (e : error) : M A := fun s => (Err e, s).
Definition raise {A} (p : panic) : M A := fun s => (Panic p, s).

Declare Scope run_scope.
Delimit Scope run_scope with run.
Notation "x <- m ;; k" := (bind m (fun x => k))
  (at level 100, m at next level, k at level 200, right associativity) : run_scope.
Local Open Scope run_scope.

(** [for _, x := range l { body }] with the loop variables threaded through
    [acc]; a [return err] or a panic in the body leaves the loop. *)
Fixpoint for_range {A S} (l : list A) (body : A -> S -> M S) (acc : S) : M S :=
  match l with
  | [] => ret acc
  | x :: l' => acc' <- body x acc ;; for_range l' body acc'
  end.

(** [p.ID()] for [p] the result of a map lookup: the nil pointer of a missing
    key panics. *)
Definition ID (p : option Handle) : M Handle :=
  match p with
  | Some h => ret h
  | None => raise NilPointerDereference
  end.

(** The values of a map in the order of a [range] over it.  Go leaves that
    order unspecified; it only reaches [DependsOn] lists. *)
Definition range_values (m : gmap string Handle) : list Handle :=
  (map_to_list m).*2.

(** The host runtime, as far as the closure can observe it. *)
Record Host := {
  Stack : string;
  ReadFile : string -> string + error;
  RegisterResource : list Declaration -> Declaration -> option error }.

(** [fmt.Sprintf] restricted to the verb [%s]. *)
Fixpoint sprintf_s (fmt : string) (args : list string) : string :=
  match fmt with
  | EmptyString => EmptyString
  | String "%" (String "s" rest) =>
      match args with
      | a :: args' => a +:+ sprintf_s rest args'
      | [] => "%!s(MISSING)" +:+ sprintf_s rest []
      end
  | String c rest => String c (sprintf_s rest args)
  end.

(* ===================================================================== *)
(** ** The closure passed to [pulumi.Run] (main.go, lines 101-450) *)
(* ===================================================================== *)

Section Run.
Variable host : Host.
(** The three objects [cfg.RequireObject] fills in. *)
Variable tags : Tags.t.
Variable vnet : VNET.t.
Variable vm : VM.t.

(** [ctx.Export key value] *)
Definition Export (key value : string) : M unit :=
  fun s => (Ok tt, {| declared := declared s; exports := <[key := value]> (exports s) |}).

(** The common part of every [New...]: the host runtime either returns an
    error, and nothing is registered, or registers the declaration and
    returns a fresh handle. *)
Definition declare (d : Declaration) : M Handle :=
  fun s =>
    match RegisterResource host (declared s) d with
    | Some err => (Err err, s)
    | None =>
        (Ok (length (declared s)),
         {| declared := declared s ++ [d]; exports := exports s |})
    end.

Definition NewResourceGroup nm a deps parent : M Handle :=
  declare {| name := nm; resource := ResourceGroup a; DependsOn := deps; Parent := parent |}.
Definition NewNetworkSecurityGroup nm a deps parent : M Handle :=
  declare {| name := nm; resource := NetworkSecurityGroup a; DependsOn := deps; Parent := parent |}.
Definition NewRouteTable nm a deps parent : M Handle :=
  declare {| name := nm; resource := RouteTable a; DependsOn := deps; Parent := parent |}.
Definition NewVirtualNetwork nm a deps parent : M Handle :=
  declare {| name := nm; resource := VirtualNetwork a; DependsOn := deps; Parent := parent |}.
Definition NewSubnet nm a deps parent : M Handle :=
  declare {| name := nm; resource := Subnet a; DependsOn := deps; Parent := parent |}.
Definition NewPublicIPAddress nm a deps parent : M Handle :=
  declare {| name := nm; resource := PublicIPAddress a; DependsOn := deps; Parent := parent |}.
Definition NewNetworkInterface nm a deps parent : M Handle :=
  declare {| name := nm; resource := NetworkInterface a; DependsOn := deps; Parent := parent |}.
Definition NewRandomString nm a deps parent : M Handle :=
  declare {| name := nm; resource := RandomString a; DependsOn := deps; Parent := parent |}.
Definition NewVirtualMachine nm a deps parent : M Handle :=
  declare {| name := nm; resource := VirtualMachine a; DependsOn := deps; Parent := parent |}.

(** lines 127-130 *)
Definition requiredTags : gmap string string :=
  <["automation" := Tags.Automation tags]> (<["solution" := Tags.Solution tags]> ∅).

(** line 133 *)
Definition nameSuffix : string := "panos-vm-" +:+ Stack host +:+ "-".

(** lines 147-159 *)
Definition securityRule (rule : Rule.t) : SecurityRuleTypeArgs.t :=
  {| SecurityRuleTypeArgs.Access := Rule.Access rule;
     SecurityRuleTypeArgs.DestinationAddressPrefix := Rule.DestinationAddressPrefix rule;
     SecurityRuleTypeArgs.DestinationPortRange := Rule.DestinationPortRange rule;
     SecurityRuleTypeArgs.Direction := Rule.Direction rule;
     SecurityRuleTypeArgs.Name := Rule.Name rule;
     SecurityRuleTypeArgs.Priority := Rule.Priority rule;
     SecurityRuleTypeArgs.Protocol := Rule.Protocol rule;
     SecurityRuleTypeArgs.SourceAddressPrefix := Rule.SourceAddressPrefix rule;
     SecurityRuleTypeArgs.SourcePortRange := Rule.SourcePortRange rule |}.

(** lines 145-173, the body of the loop over [vnet.NSG] *)
Definition nsg_body (resourceGroup : Handle) (nsg : NSG.t)
    (nsgMap : gmap string Handle) : M (gmap string Handle) :=
  let securityRules := map securityRule (NSG.Rules nsg) in
  nsgResource <-
    NewNetworkSecurityGroup ("nsg-" +:+ NSG.Name nsg +:+ "-" +:+ nameSuffix)
      {| NetworkSecurityGroupArgs.ResourceGroupName := resourceGroup;
         NetworkSecurityGroupArgs.SecurityRules := securityRules;
         NetworkSecurityGroupArgs.Tags := requiredTags |}
      [resourceGroup] (Some resourceGroup) ;;
  ret (<[NSG.Name nsg := nsgResource]> nsgMap).

(** lines 188-195 *)
Definition routeArgs (route : Route.t) : RouteTypeArgs.t :=
  {| RouteTypeArgs.AddressPrefix := Route.AddressPrefix route;
     RouteTypeArgs.Name := Route.Name route;
     RouteTypeArgs.NextHopType := Route.NextHopType route;
     RouteTypeArgs.NextHopIpAddress := Route.NextHopIpAddress route |}.

(** lines 186-216, the body of the loop over [vnet.RT] *)
Definition rt_body (resourceGroup : Handle) (nsgMap : gmap string Handle)
    (rt : RT.t) (rtMap : gmap string Handle) : M (gmap string Handle) :=
  let routes := map routeArgs (RT.Routes rt) in
  let routeTableDependencies := [resourceGroup] ++ range_values nsgMap in
  rtResource <-
    NewRouteTable ("rt-" +:+ RT.Name rt +:+ "-" +:+ nameSuffix)
      {| RouteTableArgs.DisableBgpRoutePropagation := RT.DisableBgpRoutePropagation rt;
         RouteTableArgs.ResourceGroupName := resourceGroup;
         RouteTableArgs.Routes := routes;
         RouteTableArgs.Tags := requiredTags |}
      routeTableDependencies (Some resourceGroup) ;;
  ret (<[RT.Name rt := rtResource]> rtMap).

(** lines 256-276, the body of the loop over [vnet.SNET]; the loop
    variables are [snetMap] and [snetResources] *)
Definition snet_body (resourceGroup virtualNetwork : Handle)
    (nsgMap rtMap : gmap string Handle) (virtualNetworkDependencies : list Handle)
    (snet : SNET.t) (acc : gmap string Handle * list Handle)
    : M (gmap string Handle * list Handle) :=
  let '(snetMap, snetResources) := acc in
  nsgId <- ID (nsgMap !! SNET.NSGName snet) ;;
  rtId <- ID (rtMap !! SNET.RTName snet) ;;
  snetResource <-
    NewSubnet ("snet-" +:+ SNET.Name snet)
      {| SubnetArgs.AddressPrefix := SNET.AddressPrefix snet;
         SubnetArgs.NetworkSecurityGroup := nsgId;
         SubnetArgs.ResourceGroupName := resourceGroup;
         SubnetArgs.RouteTable := rtId;
         SubnetArgs.VirtualNetworkName := virtualNetwork |}
      virtualNetworkDependencies (Some virtualNetwork) ;;
  ret (<[SNET.Name snet := snetResource]> snetMap, snetResources ++ [snetResource]).

(** lines 290-308, the body of the loop over [vnet.PIP] *)
Definition pip_body (resourceGroup : Handle) (snetResources : list Handle)
    (pip : PIP.t) (acc : gmap string Handle * list Handle)
    : M (gmap string Handle * list Handle) :=
  let '(pipMap, pipResources) := acc in
  pipResource <-
    NewPublicIPAddress ("pip-" +:+ PIP.Name pip +:+ "-" +:+ nameSuffix)
      {| PublicIPAddressArgs.PublicIPAllocationMethod := "Static";
         PublicIPAddressArgs.ResourceGroupName := resourceGroup;
         PublicIPAddressArgs.SkuName := "Standard";
         PublicIPAddressArgs.SkuTier := "Regional";
         PublicIPAddressArgs.Tags := requiredTags |}
      snetResources (Some resourceGroup) ;;
  ret (<[PIP.Name pip := pipResource]> pipMap, pipResources ++ [pipResource]).

(** lines 322-355, the body of the loop over [vnet.NIC] *)
Definition nic_body (resourceGroup : Handle) (snetMap pipMap : gmap string Handle)
    (pipResources : list Handle)
    (nic : NIC.t) (acc : gmap string Handle * list Handle)
    : M (gmap string Handle * list Handle) :=
  let '(nicMap, nicResources) := acc in
  snetId <- ID (snetMap !! NIC.SnetName nic) ;;
  let ipConfigArgs :=
    {| NetworkInterfaceIPConfigurationArgs.Name := "ipconfig";
       NetworkInterfaceIPConfigurationArgs.Subnet := snetId;
       NetworkInterfaceIPConfigurationArgs.PublicIPAddress := None |} in
  (* Check if pipMap contains the nic.PipName *)
  let ipConfigArgs :=
    match pipMap !! NIC.PipName nic with
    | Some pip =>
        {| NetworkInterfaceIPConfigurationArgs.Name :=
             NetworkInterfaceIPConfigurationArgs.Name ipConfigArgs;
           NetworkInterfaceIPConfigurationArgs.Subnet :=
             NetworkInterfaceIPConfigurationArgs.Subnet ipConfigArgs;
           NetworkInterfaceIPConfigurationArgs.PublicIPAddress := Some pip |}
    | None => ipConfigArgs
    end in
  nicResource <-
    NewNetworkInterface ("nic-" +:+ NIC.Name nic +:+ "-" +:+ nameSuffix)
      {| NetworkInterfaceArgs.EnableAcceleratedNetworking := NIC.EnableAcceleratedNetworking nic;
         NetworkInterfaceArgs.EnableIPForwarding := NIC.EnableIPForwarding nic;
         NetworkInterfaceArgs.NicType := "Standard";
         NetworkInterfaceArgs.IpConfigurations := [ipConfigArgs];
         NetworkInterfaceArgs.ResourceGroupName := resourceGroup;
         NetworkInterfaceArgs.Tags := requiredTags |}
      pipResources (Some resourceGroup) ;;
  ret (<[NIC.Name nic := nicResource]> nicMap, nicResources ++ [nicResource]).

(** lines 367-375 *)
Definition randomOsDiskIdArgs : RandomStringArgs.t :=
  {| RandomStringArgs.Length := 8%Z;
     RandomStringArgs.Lower := true;
     RandomStringArgs.MinLower := 4%Z;
     RandomStringArgs.MinNumeric := 4%Z;
     RandomStringArgs.Numeric := true;
     RandomStringArgs.Special := false;
     RandomStringArgs.Upper := false |}.

(** lines 383-442: the argument struct of the virtual machine, once the
    three [nicMap[...].ID()] have been evaluated *)
Definition virtualMachineArgs (resourceGroup nic0 nic1 nic2 randomOsDiskId : Handle)
    : VirtualMachineArgs.t :=
  {| VirtualMachineArgs.VmSize := VM.VmSize vm;
     VirtualMachineArgs.NetworkInterfaces :=
       [ {| NetworkInterfaceReferenceArgs.Id := nic0;
            NetworkInterfaceReferenceArgs.Primary := true |};
         {| NetworkInterfaceReferenceArgs.Id := nic1;
            NetworkInterfaceReferenceArgs.Primary := false |};
         {| NetworkInterfaceReferenceArgs.Id := nic2;
            NetworkInterfaceReferenceArgs.Primary := false |} ];
     VirtualMachineArgs.OsProfile :=
       {| OSProfileArgs.AdminPassword := VM.AdminPassword vm;
          OSProfileArgs.AdminUsername := VM.AdminUsername vm;
          OSProfileArgs.AllowExtensionOperations := true;
          OSProfileArgs.ComputerName := VM.ComputerName vm;
          OSProfileArgs.DisablePasswordAuthentication := false;
          OSProfileArgs.EnableVMAgentPlatformUpdates := true;
          OSProfileArgs.ProvisionVMAgent := true |};
     VirtualMachineArgs.Plan :=
       {| PlanArgs.Name := Image.Sku (VM.Image vm);
          PlanArgs.Product := Image.Offer (VM.Image vm);
          PlanArgs.Publisher := Image.Publisher (VM.Image vm) |};
     VirtualMachineArgs.ResourceGroupName := resourceGroup;
     VirtualMachineArgs.ImageReference :=
       {| ImageReferenceArgs.Offer := Image.Offer (VM.Image vm);
          ImageReferenceArgs.Publisher := Image.Publisher (VM.Image vm);
          ImageReferenceArgs.Sku := Image.Sku (VM.Image vm);
          ImageReferenceArgs.Version := Image.Version (VM.Image vm) |};
     VirtualMachineArgs.OsDisk :=
       {| OSDiskArgs.Caching := CachingTypesReadWrite;
          OSDiskArgs.CreateOption := "FromImage";
          OSDiskArgs.DeleteOption := "Delete";
          OSDiskArgs.DiskSizeGB := 127%Z;
          OSDiskArgs.StorageAccountType := VM.StorageAccountType vm;
          OSDiskArgs.Name :=
            Sprintf "os-%s%s" [ArgString nameSuffix; ArgResult randomOsDiskId] |};
     VirtualMachineArgs.Tags := requiredTags |}.

Definition main : M unit :=
  (* Export the project's readme. *)
  match ReadFile host "./README.md" with
  | inr err => fail (Errorf_w "failed to read readme: " err)
  | inl readmeBytes =>
  _ <- Export "readme" readmeBytes ;;
  (* Create an Azure Resource Group *)
  resourceGroup <-
    NewResourceGroup ("rg-" +:+ nameSuffix)
      {| ResourceGroupArgs.Tags := requiredTags |} [] None ;;
  (* Create Network Security Groups and Security Rules. *)
  nsgMap <- for_range (VNET.NSG vnet) (nsg_body resourceGroup) ∅ ;;
  (* Create Route Tables and Routes. *)
  rtMap <- for_range (VNET.RT vnet) (rt_body resourceGroup nsgMap) ∅ ;;
  let virtualNetworkDependencies := range_values nsgMap ++ range_values rtMap in
  (* Create a virtual network. *)
  virtualNetwork <-
    NewVirtualNetwork ("vnet-" +:+ nameSuffix)
      {| VirtualNetworkArgs.AddressPrefixes := [VNET.AddressSpace vnet];
         VirtualNetworkArgs.ResourceGroupName := resourceGroup;
         VirtualNetworkArgs.Tags := requiredTags |}
      virtualNetworkDependencies (Some resourceGroup) ;;
  (* Create Subnets and associate with Network Security Groups and Route Tables. *)
  snets <-
    for_range (VNET.SNET vnet)
      (snet_body resourceGroup virtualNetwork nsgMap rtMap virtualNetworkDependencies)
      (∅, []) ;;
  let '(snetMap, snetResources) := snets in
  (* Create Public IP Addesses. *)
  pips <- for_range (VNET.PIP vnet) (pip_body resourceGroup snetResources) (∅, []) ;;
  let '(pipMap, pipResources) := pips in
  (* Create NICs. *)
  nics <-
    for_range (VNET.NIC vnet) (nic_body resourceGroup snetMap pipMap pipResources)
      (∅, []) ;;
  let '(nicMap, nicResources) := nics in
  (* Create a random ID for the OS disk *)
  randomOsDiskId <-
    NewRandomString "random-os-disk-id" randomOsDiskIdArgs nicResources None ;;
  (* Create a virtual machine. *)
  nic0 <- ID (nicMap !! NICMAP.Nic0 (VM.NicMap vm)) ;;
  nic1 <- ID (nicMap !! NICMAP.Nic1 (VM.NicMap vm)) ;;
  nic2 <- ID (nicMap !! NICMAP.Nic2 (VM.NicMap vm)) ;;
  _ <-
    NewVirtualMachine ("vm-" +:+ Tags.Solution tags +:+ "-prod-")
      (virtualMachineArgs resourceGroup nic0 nic1 nic2 randomOsDiskId)
      (nicResources ++ [randomOsDiskId]) (Some resourceGroup) ;;
  ret tt
  end.

(** The run of the closure from the empty context. *)
Definition run : Result unit * RunState := main initial.

End Run.

(** The string a [StringOutput] resolves to once the provider has generated
    [result h] for the random string resource [h]. *)
Definition resolve_arg (result : Handle -> string) (a : SprintfArg) : string :=
  match a with
  | ArgString s => s
  | ArgResult h => result h
  end.

Definition resolve (result : Handle -> string) (o : StringOutput) : string :=
  sprintf_s (format o) (map (resolve_arg result) (args o)).

(* ===================================================================== *)
(** ** The provider contract of [random.RandomString] *)
(* ===================================================================== *)

(** The string is generated by the random provider, not by the closure.  Its
    documented contract: [Length] characters, each from a character class that
    is switched on, with at least [MinLower] lowercase letters and at least
    [MinNumeric] digits. *)
Definition is_lower (c : ascii) : bool :=
  (97 <=? nat_of_ascii c) && (nat_of_ascii c <=? 122).
Definition is_upper (c : ascii) : bool :=
  (65 <=? nat_of_ascii c) && (nat_of_ascii c <=? 90).
Definition is_digit (c : ascii) : bool :=
  (48 <=? nat_of_ascii c) && (nat_of_ascii c <=? 57).
Fixpoint chars (s : string) : list ascii :=
  match s with
  | EmptyString => []
  | String c s' => c :: chars s'
  end.

(** The provider's default set of special characters. *)
Definition is_special (c : ascii) : bool :=
  existsb (Ascii.eqb c) (chars "!@#$%&*()-_=+[]{}<>:?").

Definition count_chars (p : ascii -> bool) (s : string) : nat :=
  length (filter (fun c => p c = true) (chars s)).

Definition allowed (a : RandomStringArgs.t) (c : ascii) : bool :=
  (RandomStringArgs.Lower a && is_lower c)
  || (RandomStringArgs.Upper a && is_upper c)
  || (RandomStringArgs.Numeric a && is_digit c)
  || (RandomStringArgs.Special a && is_special c).

Definition conforms (a : RandomStringArgs.t) (r : string) : bool :=
  (Z.of_nat (length (chars r)) =? RandomStringArgs.Length a)%Z
  && forallb (allowed a) (chars r)
  && (RandomStringArgs.MinLower a <=? Z.of_nat (count_chars is_lower r))%Z
  && (RandomStringArgs.MinNumeric a <=? Z.of_nat (count_chars is_digit r))%Z.

(* ===================================================================== *)
(** ** The declaration plan: program order, with the position of each item *)
(* ===================================================================== *)

(** The position in [names] of the last entry equal to [n]. *)
Fixpoint last_index (n : string) (names : list string) : option nat :=
  match names with
  | [] => None
  | x :: rest =>
      match last_index n rest with
      | Some j => Some (S j)
      | None => if decide (x = n) then Some 0 else None
      end
  end.

(** The handle a name resolves to when the entries [names] were declared in
    order from position [base] on, each overwriting the index at its name. *)
Definition resolve_in (base : nat) (names : list string) (n : string) : option Handle :=
  (fun j => base + j) <$> last_index n names.

(** The declaration order of section 4.4 of the specification. *)
Definition rank (k : Kind) : nat :=
  match k with
  | KResourceGroup => 1
  | KNetworkSecurityGroup => 2
  | KRouteTable => 3
  | KVirtualNetwork => 4
  | KSubnet => 5
  | KPublicIPAddress => 6
  | KNetworkInterface => 7
  | KRandomString => 8
  | KVirtualMachine => 9
  end.

(** What the closure sets out to declare: one item per [New...] call it would
    make on a run that is never cut short. *)
Inductive Item :=
| IRG
| INSG (x : NSG.t)
| IRT (x : RT.t)
| IVNET
| ISNET (x : SNET.t)
| IPIP (x : PIP.t)
| INIC (x : NIC.t)
| IRANDOM
| IVM.

Definition item_kind (it : Item) : Kind :=
  match it with
  | IRG => KResourceGroup
  | INSG _ => KNetworkSecurityGroup
  | IRT _ => KRouteTable
  | IVNET => KVirtualNetwork
  | ISNET _ => KSubnet
  | IPIP _ => KPublicIPAddress
  | INIC _ => KNetworkInterface
  | IRANDOM => KRandomString
  | IVM => KVirtualMachine
  end.

(** The tag map of a declaration, for the resource types that take one. *)
Definition tags_of (r : Resource) : option (gmap string string) :=
  match r with
  | ResourceGroup a => Some (ResourceGroupArgs.Tags a)
  | NetworkSecurityGroup a => Some (NetworkSecurityGroupArgs.Tags a)
  | RouteTable a => Some (RouteTableArgs.Tags a)
  | VirtualNetwork a => Some (VirtualNetworkArgs.Tags a)
  | Subnet _ => None
  | PublicIPAddress a => Some (PublicIPAddressArgs.Tags a)
  | NetworkInterface a => Some (NetworkInterfaceArgs.Tags a)
  | RandomString _ => None
  | VirtualMachine a => Some (VirtualMachineArgs.Tags a)
  end.

Section Plan.
Variable host : Host.
Variable tags : Tags.t.
Variable vnet : VNET.t.
Variable vm : VM.t.

Definition plan : list Item :=
  [IRG] ++ (INSG <$> VNET.NSG vnet) ++ (IRT <$> VNET.RT vnet) ++ [IVNET]
  ++ (ISNET <$> VNET.SNET vnet) ++ (IPIP <$> VNET.PIP vnet)
  ++ (INIC <$> VNET.NIC vnet) ++ [IRANDOM; IVM].

Definition nsgBase : nat := 1.
Definition rtBase : nat := nsgBase + length (VNET.NSG vnet).
Definition vnetHandle : nat := rtBase + length (VNET.RT vnet).
Definition snetBase : nat := S vnetHandle.
Definition pipBase : nat := snetBase + length (VNET.SNET vnet).
Definition nicBase : nat := pipBase + length (VNET.PIP vnet).
Definition randomHandle : nat := nicBase + length (VNET.NIC vnet).
Definition vmHandle : nat := S randomHandle.

Definition nsgIndex : string -> option Handle :=
  resolve_in nsgBase (NSG.Name <$> VNET.NSG vnet).
Definition rtIndex : string -> option Handle :=
  resolve_in rtBase (RT.Name <$> VNET.RT vnet).
Definition snetIndex : string -> option Handle :=
  resolve_in snetBase (SNET.Name <$> VNET.SNET vnet).
Definition pipIndex : string -> option Handle :=
  resolve_in pipBase (PIP.Name <$> VNET.PIP vnet).
Definition nicIndex : string -> option Handle :=
  resolve_in nicBase (NIC.Name <$> VNET.NIC vnet).

(** [declares it d]: [d] is the declaration the closure makes for the plan
    item [it]: its name and its argument struct. *)
Definition declares (it : Item) (d : Declaration) : Prop :=
  match it with
  | IRG =>
      name d = "rg-" +:+ nameSuffix host
      ∧ resource d = ResourceGroup {| ResourceGroupArgs.Tags := requiredTags tags |}
  | INSG x =>
      name d = "nsg-" +:+ NSG.Name x +:+ "-" +:+ nameSuffix host
      ∧ resource d = NetworkSecurityGroup
          {| NetworkSecurityGroupArgs.ResourceGroupName := 0;
             NetworkSecurityGroupArgs.SecurityRules := map securityRule (NSG.Rules x);
             NetworkSecurityGroupArgs.Tags := requiredTags tags |}
  | IRT x =>
      name d = "rt-" +:+ RT.Name x +:+ "-" +:+ nameSuffix host
      ∧ resource d = RouteTable
          {| RouteTableArgs.DisableBgpRoutePropagation := RT.DisableBgpRoutePropagation x;
             RouteTableArgs.ResourceGroupName := 0;
             RouteTableArgs.Routes := map routeArgs (RT.Routes x);
             RouteTableArgs.Tags := requiredTags tags |}
  | IVNET =>
      name d = "vnet-" +:+ nameSuffix host
      ∧ resource d = VirtualNetwork
          {| VirtualNetworkArgs.AddressPrefixes := [VNET.AddressSpace vnet];
             VirtualNetworkArgs.ResourceGroupName := 0;
             VirtualNetworkArgs.Tags := requiredTags tags |}
  | ISNET x =>
      name d = "snet-" +:+ SNET.Name x
      ∧ ∃ nsgId rtId,
          nsgIndex (SNET.NSGName x) = Some nsgId
          ∧ rtIndex (SNET.RTName x) = Some rtId
          ∧ resource d = Subnet
              {| SubnetArgs.AddressPrefix := SNET.AddressPrefix x;
                 SubnetArgs.NetworkSecurityGroup := nsgId;
                 SubnetArgs.ResourceGroupName := 0;
                 SubnetArgs.RouteTable := rtId;
                 SubnetArgs.VirtualNetworkName := vnetHandle |}
  | IPIP x =>
      name d = "pip-" +:+ PIP.Name x +:+ "-" +:+ nameSuffix host
      ∧ resource d = PublicIPAddress
          {| PublicIPAddressArgs.PublicIPAllocationMethod := "Static";
             PublicIPAddressArgs.ResourceGroupName := 0;
             PublicIPAddressArgs.SkuName := "Standard";
             PublicIPAddressArgs.SkuTier := "Regional";
             PublicIPAddressArgs.Tags := requiredTags tags |}
  | INIC x =>
      name d = "nic-" +:+ NIC.Name x +:+ "-" +:+ nameSuffix host
      ∧ ∃ snetId,
          snetIndex (NIC.SnetName x) = Some snetId
          ∧ resource d = NetworkInterface
              {| NetworkInterfaceArgs.EnableAcceleratedNetworking :=
                   NIC.EnableAcceleratedNetworking x;
                 NetworkInterfaceArgs.EnableIPForwarding := NIC.EnableIPForwarding x;
                 NetworkInterfaceArgs.NicType := "Standard";
                 NetworkInterfaceArgs.IpConfigurations :=
                   [ {| NetworkInterfaceIPConfigurationArgs.Name := "ipconfig";
                        NetworkInterfaceIPConfigurationArgs.Subnet := snetId;
                        NetworkInterfaceIPConfigurationArgs.PublicIPAddress :=
                          pipIndex (NIC.PipName x) |} ];
                 NetworkInterfaceArgs.ResourceGroupName := 0;
                 NetworkInterfaceArgs.Tags := requiredTags tags |}
  | IRANDOM =>
      name d = "random-os-disk-id"
      ∧ resource d = RandomString randomOsDiskIdArgs
  | IVM =>
      name d = "vm-" +:+ Tags.Solution tags +:+ "-prod-"
      ∧ ∃ nic0 nic1 nic2,
          nicIndex (NICMAP.Nic0 (VM.NicMap vm)) = Some nic0
          ∧ nicIndex (NICMAP.Nic1 (VM.NicMap vm)) = Some nic1
          ∧ nicIndex (NICMAP.Nic2 (VM.NicMap vm)) = Some nic2
          ∧ resource d = VirtualMachine
              (virtualMachineArgs host tags vm 0 nic0 nic1 nic2 randomHandle)
  end.

(** [unresolved it]: building the argument struct of [it] looks up a name
    that is in no index. *)
Definition unresolved (it : Item) : Prop :=
  match it with
  | ISNET x => nsgIndex (SNET.NSGName x) = None ∨ rtIndex (SNET.RTName x) = None
  | INIC x => snetIndex (NIC.SnetName x) = None
  | IVM =>
      nicIndex (NICMAP.Nic0 (VM.NicMap vm)) = None
      ∨ nicIndex (NICMAP.Nic1 (VM.NicMap vm)) = None
      ∨ nicIndex (NICMAP.Nic2 (VM.NicMap vm)) = None
  | _ => False
  end.

(** The trace [l] follows the plan: the declaration at each position is the
    one of the plan item at that position. *)
Definition follows_plan (l : list Declaration) : Prop :=
  ∀ i d, l !! i = Some d → ∃ it, plan !! i = Some it ∧ declares it d.

End Plan.

(* ===================================================================== *)
(** ** Specifications of monadic code *)
(* ===================================================================== *)

Section Logic.
Variable host : Host.
Variable tags : Tags.t.
Variable vnet : VNET.t.
Variable vm : VM.t.
(** The content of the readme, exported before the first declaration. *)
Variable readme : string.

(** The run has made exactly the first [k] declarations of the plan. *)
Definition At (k : nat) (s : RunState) : Prop :=
  follows_plan host tags vnet vm (declared s)
  ∧ length (declared s) = k
  ∧ exports s = <["readme" := readme]> ∅.

(** The run stopped because the host runtime returned [e] for the next
    declaration of the plan. *)
Definition refused (e : error) (s : RunState) : Prop :=
  ∃ k it d,
    At k s ∧ plan vnet !! k = Some it ∧ declares host tags vnet vm it d
    ∧ RegisterResource host (declared s) d = Some e.

(** The run stopped in a panic while it built the arguments of the next
    declaration of the plan. *)
Definition panicked (p : panic) (s : RunState) : Prop :=
  ∃ k it,
    At k s ∧ plan vnet !! k = Some it ∧ unresolved vnet vm it
    ∧ p = NilPointerDereference.

(** [triple P m Q]: from a state in [P], [m] returns a value and a state in
    [Q], or stops the run in one of the two ways above. *)
Definition triple {A} (P : RunState -> Prop) (m : M A)
    (Q : A -> RunState -> Prop) : Prop :=
  ∀ s, P s →
    match m s with
    | (Ok a, s') => Q a s'
    | (Err e, s') => refused e s'
    | (Panic p, s') => panicked p s'
    end.

(** The index [m] built from the entries [names], declared from [base] on. *)
Definition indexes (base : nat) (names : list string) (m : gmap string Handle) : Prop :=
  ∀ n, m !! n = resolve_in base names n.

End Logic.

(* ===================================================================== *)
(** ** Example configurations *)
(* ===================================================================== *)

Module Examples.

(** A host runtime that accepts every declaration, on stack [dev]. *)
Definition host : Host :=
{| Stack := "dev";
   ReadFile := fun _ => inl "# panos-vm";
   RegisterResource := fun _ _ => None |}.

(** The same host when the readme cannot be read. *)
Definition host_without_readme : Host :=
{| Stack := "dev";
   ReadFile := fun _ => inr (errorString "open ./README.md: no such file or directory");
   RegisterResource := fun _ _ => None |}.

Definition tags : Tags.t :=
{| Tags.Automation := "pulumi"; Tags.Solution := "panos" |}.

Definition allow_all : Rule.t :=
{| Rule.Access := "Allow";
   Rule.DestinationAddressPrefix := "*";
   Rule.DestinationPortRange := "*";
   Rule.Direction := "Inbound";
   Rule.Name := "allow-all";
   Rule.Priority := 100%Z;
   Rule.Protocol := "*";
   Rule.SourceAddressPrefix := "*";
   Rule.SourcePortRange := "*" |}.

Definition nic (n pip snet : string) : NIC.t :=
{| NIC.EnableAcceleratedNetworking := false;
   NIC.EnableIPForwarding := true;
   NIC.Name := n;
   NIC.PipName := pip;
   NIC.SnetName := snet |}.

Definition snet (n nsg rt : string) : SNET.t :=
{| SNET.AddressPrefix := "10.0.0.0/24";
   SNET.Name := n;
   SNET.NSGName := nsg;
   SNET.RTName := rt |}.

Definition rt (n : string) : RT.t :=
{| RT.Name := n; RT.DisableBgpRoutePropagation := true; RT.Routes := [] |}.

Definition nsg (n : string) : NSG.t :=
{| NSG.Name := n; NSG.Rules := [allow_all] |}.

(** One security group, one route table, one subnet, one public IP and two
  interfaces, the second without a public IP. *)
Definition vnet : VNET.t :=
{| VNET.AddressSpace := "10.0.0.0/16";
   VNET.NIC := [nic "mgmt" "pip-mgmt" "s0"; nic "data" "" "s0"];
   VNET.NSG := [nsg "nsg-mgmt"];
   VNET.PIP := [ {| PIP.Name := "pip-mgmt" |} ];
   VNET.RT := [rt "rt-mgmt"];
   VNET.SNET := [snet "s0" "nsg-mgmt" "rt-mgmt"] |}.

Definition vm : VM.t :=
{| VM.AdminPassword := "secret";
   VM.AdminUsername := "admin";
   VM.ComputerName := "fw";
   VM.Image :=
     {| Image.Offer := "vmseries-flex"; Image.Publisher := "paloaltonetworks";
        Image.Sku := "byol"; Image.Version := "latest" |};
   VM.NicMap := {| NICMAP.Nic0 := "mgmt"; NICMAP.Nic1 := "data"; NICMAP.Nic2 := "data" |};
   VM.StorageAccountType := "Standard_LRS";
   VM.VmSize := "Standard_D3_v2" |}.

(** The subnet names a security group that is not configured. *)
Definition vnet_ghost_nsg : VNET.t :=
{| VNET.AddressSpace := "10.0.0.0/16";
   VNET.NIC := [nic "mgmt" "pip-mgmt" "s0"; nic "data" "" "s0"];
   VNET.NSG := [nsg "nsg-mgmt"];
   VNET.PIP := [ {| PIP.Name := "pip-mgmt" |} ];
   VNET.RT := [rt "rt-mgmt"];
   VNET.SNET := [snet "s0" "nsg-ghost" "rt-mgmt"] |}.

(** The subnet names a route table that is not configured. *)
Definition vnet_ghost_rt : VNET.t :=
{| VNET.AddressSpace := "10.0.0.0/16";
   VNET.NIC := [nic "mgmt" "pip-mgmt" "s0"; nic "data" "" "s0"];
   VNET.NSG := [nsg "nsg-mgmt"];
   VNET.PIP := [ {| PIP.Name := "pip-mgmt" |} ];
   VNET.RT := [rt "rt-mgmt"];
   VNET.SNET := [snet "s0" "nsg-mgmt" "rt-ghost"] |}.

(** A public IP is configured under the empty name, and the second
  interface leaves [pipName] empty. *)
Definition vnet_empty_pip : VNET.t :=
{| VNET.AddressSpace := "10.0.0.0/16";
   VNET.NIC := [nic "mgmt" "pip-mgmt" "s0"; nic "data" "" "s0"];
   VNET.NSG := [nsg "nsg-mgmt"];
   VNET.PIP := [ {| PIP.Name := "pip-mgmt" |}; {| PIP.Name := "" |} ];
   VNET.RT := [rt "rt-mgmt"];
   VNET.SNET := [snet "s0" "nsg-mgmt" "rt-mgmt"] |}.

(** Two security groups share a name, and so do the first and the third
  interface. *)
Definition vnet_duplicates : VNET.t :=
{| VNET.AddressSpace := "10.0.0.0/16";
   VNET.NIC := [nic "mgmt" "pip-mgmt" "s0"; nic "data" "" "s0"; nic "mgmt" "" "s0"];
   VNET.NSG := [nsg "nsg-mgmt"; nsg "nsg-mgmt"];
   VNET.PIP := [ {| PIP.Name := "pip-mgmt" |} ];
   VNET.RT := [rt "rt-mgmt"];
   VNET.SNET := [snet "s0" "nsg-mgmt" "rt-mgmt"] |}.

End Examples.

(* ===================================================================== *)
(** ** Properties stated by the specification *)
(* ===================================================================== *)

(** The naming rule of section 4.3, read literally: a subnet is named
    [snet-<logical-name>], every other resource
    [<kind-prefix>-<logical-name>-<name-suffix>]. *)
Definition conforming_name (host : Host) (d : Declaration) : Prop :=
  match kind d with
  | KSubnet => ∃ logical, name d = "snet-" +:+ logical
  | _ =>
      ∃ prefix logical,
        name d = prefix +:+ "-" +:+ logical +:+ "-" +:+ nameSuffix host
  end.

(** The resource types that take a tag map. *)
Definition taggable (k : Kind) : bool :=
  match k with
  | KSubnet | KRandomString => false
  | _ => true
  end.

(** The handle [h] is the position in the trace [l] of a declaration of kind
    [k] named [nm]. *)
Definition names_declared (k : Kind) (nm : string) (l : list Declaration)
    (h : Handle) : Prop :=
  ∃ d, l !! h = Some d ∧ kind d = k ∧ name d = nm.

(** [j] is the position in [l] of the last entry whose name is [n]. *)
Definition last_named {A} (nm : A -> string) (l : list A) (n : string) (j : nat) : Prop :=
  ∃ x, l !! j = Some x ∧ nm x = n
       ∧ ∀ j' x', j < j' → l !! j' = Some x' → nm x' ≠ n.

(** Section 8 of the specification on interfaces, read literally: one IP
    configuration named [ipconfig] on the resolved subnet, a public IP exactly
    when [pipName] resolves, and none when [pipName] is empty or does not
    resolve. *)
Definition nic_binding_as_stated (host : Host) (tags : Tags.t) (vnet : VNET.t)
    (vm : VM.t) : Prop :=
  ∀ j x d,
    VNET.NIC vnet !! j = Some x →
    declared (run host tags vnet vm).2 !! (nicBase vnet + j) = Some d →
    ∃ a ipc,
      resource d = NetworkInterface a
      ∧ NetworkInterfaceArgs.IpConfigurations a = [ipc]
      ∧ NetworkInterfaceIPConfigurationArgs.Name ipc = "ipconfig"
      ∧ snetIndex vnet (NIC.SnetName x)
        = Some (NetworkInterfaceIPConfigurationArgs.Subnet ipc)
      ∧ (is_Some (NetworkInterfaceIPConfigurationArgs.PublicIPAddress ipc)
         ↔ is_Some (pipIndex vnet (NIC.PipName x)))
      ∧ (NIC.PipName x = "" ∨ pipIndex vnet (NIC.PipName x) = None →
         NetworkInterfaceIPConfigurationArgs.PublicIPAddress ipc = None).


(** The map a loop leaves in its first loop variable. *)
Definition index_of {B} (loop : M (gmap string Handle * B)) : M (gmap string Handle) :=
  (acc <- loop ;; ret acc.1)%run.

(** [builds_index loop names]: when [loop] runs to its end, it has made one
    declaration per entry of [names], the state before it unchanged, and the
    map it returns sends each name to the handle of the last entry of that
    name. *)
Definition builds_index (loop : M (gmap string Handle)) (names : list string) : Prop :=
  ∀ s m s',
    loop s = (Ok m, s') →
    take (length (declared s)) (declared s') = declared s
    ∧ length (declared s') = length (declared s) + length names
    ∧ ∀ n h,
        m !! n = Some h
        ↔ ∃ j, h = length (declared s) + j ∧ last_named id names n j.

(** The invariant of an index loop that started in state [s0]. *)
Definition index_inv (s0 : RunState) (names : list string)
    (m : gmap string Handle) (s : RunState) : Prop :=
  take (length (declared s0)) (declared s) = declared s0
  ∧ length (declared s) = length (declared s0) + length names
  ∧ indexes (length (declared s0)) names m.

(** [refers_to_last nm item entries base l n h]: the handle [h] is the
    declaration, in the trace [l], of the last of the configured [entries]
    whose name is [n]; the entries are declared from position [base] on. *)
Definition refers_to_last {A} (host : Host) (tags : Tags.t) (vnet : VNET.t)
    (vm : VM.t) (nm : A -> string) (item : A -> Item) (entries : list A)
    (base : nat) (l : list Declaration) (n : string) (h : Handle) : Prop :=
  ∃ j x d,
    h = base + j
    ∧ entries !! j = Some x ∧ nm x = n
    ∧ (∀ j' x', j < j' → entries !! j' = Some x' → nm x' ≠ n)
    ∧ l !! h = Some d
    ∧ declares host tags vnet vm (item x) d.

(* ===================================================================== *)
(** ** Further properties of a run *)
(* ===================================================================== *)

(** Every name the closure looks up with [.ID()] is configured: the security
    group and route table of every subnet, the subnet of every interface, and
    the three interfaces of the virtual machine. *)
Definition all_resolved (vnet : VNET.t) (vm : VM.t) : Prop :=
  (∀ x, x ∈ VNET.SNET vnet →
        SNET.NSGName x ∈ (NSG.Name <$> VNET.NSG vnet)
        ∧ SNET.RTName x ∈ (RT.Name <$> VNET.RT vnet))
  ∧ (∀ x, x ∈ VNET.NIC vnet → NIC.SnetName x ∈ (SNET.Name <$> VNET.SNET vnet))
  ∧ NICMAP.Nic0 (VM.NicMap vm) ∈ (NIC.Name <$> VNET.NIC vnet)
  ∧ NICMAP.Nic1 (VM.NicMap vm) ∈ (NIC.Name <$> VNET.NIC vnet)
  ∧ NICMAP.Nic2 (VM.NicMap vm) ∈ (NIC.Name <$> VNET.NIC vnet).

(** The host runtime returns no error, whatever is declared. *)
Definition accepts_all (host : Host) : Prop :=
  ∀ l d, RegisterResource host l d = None.

Module MoreExamples.

(** The only interface is on a subnet that is not configured. *)
Definition vnet_ghost_snet : VNET.t :=
  {| VNET.AddressSpace := "10.0.0.0/16";
     VNET.NIC := [Examples.nic "mgmt" "pip-mgmt" "s-ghost"];
     VNET.NSG := [Examples.nsg "nsg-mgmt"];
     VNET.PIP := [ {| PIP.Name := "pip-mgmt" |} ];
     VNET.RT := [Examples.rt "rt-mgmt"];
     VNET.SNET := [Examples.snet "s0" "nsg-mgmt" "rt-mgmt"] |}.

(** The virtual machine asks for an interface [ha] that is not configured. *)
Definition vm_ghost_nic : VM.t :=
  {| VM.AdminPassword := "secret";
     VM.AdminUsername := "admin";
     VM.ComputerName := "fw";
     VM.Image :=
       {| Image.Offer := "vmseries-flex"; Image.Publisher := "paloaltonetworks";
          Image.Sku := "byol"; Image.Version := "latest" |};
     VM.NicMap := {| NICMAP.Nic0 := "mgmt"; NICMAP.Nic1 := "data"; NICMAP.Nic2 := "ha" |};
     VM.StorageAccountType := "Standard_LRS";
     VM.VmSize := "Standard_D3_v2" |}.

(** A host runtime that refuses the fourth declaration, whatever it is. *)
Definition host_refusing_fourth : Host :=
  {| Stack := "dev";
     ReadFile := fun _ => inl "# panos-vm";
     RegisterResource := fun l _ =>
       if decide (length l = 3) then Some (errorString "quota exceeded") else None |}.

(** Two security groups with one rule each, the second rule on another
    priority, and a route table with one route. *)
Definition deny_all : Rule.t :=
  {| Rule.Access := "Deny";
     Rule.DestinationAddressPrefix := "*";
     Rule.DestinationPortRange := "*";
     Rule.Direction := "Inbound";
     Rule.Name := "deny-all";
     Rule.Priority := 4096%Z;
     Rule.Protocol := "*";
     Rule.SourceAddressPrefix := "*";
     Rule.SourcePortRange := "*" |}.

Definition default_route : Route.t :=
  {| Route.AddressPrefix := "0.0.0.0/0";
     Route.Name := "default";
     Route.NextHopIpAddress := "10.0.0.4";
     Route.NextHopType := "VirtualAppliance" |}.

Definition vnet_two_nsg : VNET.t :=
  {| VNET.AddressSpace := "10.0.0.0/16";
     VNET.NIC := [Examples.nic "mgmt" "pip-mgmt" "s0"; Examples.nic "data" "" "s0"];
     VNET.NSG :=
       [ {| NSG.Name := "nsg-mgmt"; NSG.Rules := [Examples.allow_all; deny_all] |};
         {| NSG.Name := "nsg-data"; NSG.Rules := [] |} ];
     VNET.PIP := [ {| PIP.Name := "pip-mgmt" |} ];
     VNET.RT :=
       [ {| RT.Name := "rt-mgmt"; RT.DisableBgpRoutePropagation := true;
            RT.Routes := [default_route] |} ];
     VNET.SNET := [Examples.snet "s0" "nsg-mgmt" "rt-mgmt"] |}.

End MoreExamples.

(* ===================================================================== *)
(** ** Resource options: [pulumi.DependsOn] and [pulumi.Parent] *)
(* ===================================================================== *)

(** [wired vnet d]: the resource options of [d] are the ones the closure
    passes for a resource of its type. The dependencies that come from a
    [range] over an index are given as a set, the others as the list. *)
Definition wired (vnet : VNET.t) (d : Declaration) : Prop :=
  match resource d with
  | ResourceGroup _ => DependsOn d = [] ∧ Parent d = None
  | NetworkSecurityGroup _ => DependsOn d = [0] ∧ Parent d = Some 0
  | RouteTable _ =>
      Parent d = Some 0
      ∧ ∀ h, h ∈ DependsOn d ↔ h = 0 ∨ ∃ n, nsgIndex vnet n = Some h
  | VirtualNetwork _ =>
      Parent d = Some 0
      ∧ ∀ h, h ∈ DependsOn d
             ↔ (∃ n, nsgIndex vnet n = Some h) ∨ (∃ n, rtIndex vnet n = Some h)
  | Subnet _ =>
      Parent d = Some (vnetHandle vnet)
      ∧ ∀ h, h ∈ DependsOn d
             ↔ (∃ n, nsgIndex vnet n = Some h) ∨ (∃ n, rtIndex vnet n = Some h)
  | PublicIPAddress _ =>
      DependsOn d = seq (snetBase vnet) (length (VNET.SNET vnet))
      ∧ Parent d = Some 0
  | NetworkInterface _ =>
      DependsOn d = seq (pipBase vnet) (length (VNET.PIP vnet))
      ∧ Parent d = Some 0
  | RandomString _ =>
      DependsOn d = seq (nicBase vnet) (length (VNET.NIC vnet))
      ∧ Parent d = None
  | VirtualMachine _ =>
      DependsOn d = seq (nicBase vnet) (length (VNET.NIC vnet)) ++ [randomHandle vnet]
      ∧ Parent d = Some 0
  end.

(** The run has made [k] declarations, all with the resource options above. *)
Definition Wired (vnet : VNET.t) (k : nat) (s : RunState) : Prop :=
  Forall (wired vnet) (declared s) ∧ length (declared s) = k.

(** [keeps vnet P m Q]: from a state in [P], [m] returns a value and a state
    in [Q], or stops the run with every declaration wired. *)
Definition keeps (vnet : VNET.t) {A} (P : RunState -> Prop) (m : M A)
    (Q : A -> RunState -> Prop) : Prop :=
  ∀ s, P s →
    match m s with
    | (Ok a, s') => Q a s'
    | (Err _, s') | (Panic _, s') => Forall (wired vnet) (declared s')
    end.

(** Every handle a declaration mentions: in its arguments, in [DependsOn] and
    as [Parent]. *)
Definition argument_handles (r : Resource) : list Handle :=
  match r with
  | ResourceGroup _ => []
  | NetworkSecurityGroup a => [NetworkSecurityGroupArgs.ResourceGroupName a]
  | RouteTable a => [RouteTableArgs.ResourceGroupName a]
  | VirtualNetwork a => [VirtualNetworkArgs.ResourceGroupName a]
  | Subnet a =>
      [ SubnetArgs.NetworkSecurityGroup a; SubnetArgs.ResourceGroupName a;
        SubnetArgs.RouteTable a; SubnetArgs.VirtualNetworkName a ]
  | PublicIPAddress a => [PublicIPAddressArgs.ResourceGroupName a]
  | NetworkInterface a =>
      NetworkInterfaceArgs.ResourceGroupName a
      :: flat_map
           (fun c =>
              NetworkInterfaceIPConfigurationArgs.Subnet c
              :: match NetworkInterfaceIPConfigurationArgs.PublicIPAddress c with
                 | Some pip => [pip]
                 | None => []
                 end)
           (NetworkInterfaceArgs.IpConfigurations a)
  | RandomString _ => []
  | VirtualMachine a =>
      VirtualMachineArgs.ResourceGroupName a
      :: map NetworkInterfaceReferenceArgs.Id (VirtualMachineArgs.NetworkInterfaces a)
      ++ flat_map
           (fun x => match x with ArgResult h => [h] | ArgString _ => [] end)
           (args (OSDiskArgs.Name (VirtualMachineArgs.OsDisk a)))
  end.

Definition handles (d : Declaration) : list Handle :=
  argument_handles (resource d) ++ DependsOn d
  ++ match Parent d with Some p => [p] | None => [] end.

(** The positions of the declarations of a kind in a run that is not cut
    short: the first one, and how many there are. *)
Definition first_position (vnet : VNET.t) (k : Kind) : nat :=
  match k with
  | KResourceGroup => 0
  | KNetworkSecurityGroup => nsgBase
  | KRouteTable => rtBase vnet
  | KVirtualNetwork => vnetHandle vnet
  | KSubnet => snetBase vnet
  | KPublicIPAddress => pipBase vnet
  | KNetworkInterface => nicBase vnet
  | KRandomString => randomHandle vnet
  | KVirtualMachine => vmHandle vnet
  end.

Definition count_of (vnet : VNET.t) (k : Kind) : nat :=
  match k with
  | KNetworkSecurityGroup => length (VNET.NSG vnet)
  | KRouteTable => length (VNET.RT vnet)
  | KSubnet => length (VNET.SNET vnet)
  | KPublicIPAddress => length (VNET.PIP vnet)
  | KNetworkInterface => length (VNET.NIC vnet)
  | KResourceGroup | KVirtualNetwork | KRandomString | KVirtualMachine => 1
  end.

(** [h] is the position of a declaration of kind [k] in the trace [l]. *)
Definition declared_kind (l : list Declaration) (k : Kind) (h : Handle) : Prop :=
  ∃ d, l !! h = Some d ∧ kind d = k.

(** Entry [j] of [l] is not followed by an entry of the same name. *)
Definition last_of_its_name {A} (nm : A -> string) (l : list A) (j : nat) : Prop :=
  ∃ x, l !! j = Some x ∧ ∀ j' x', j < j' → l !! j' = Some x' → nm x' ≠ nm x.

(** The name under which the closure declares an item of the plan. *)
Definition item_name (host : Host) (tags : Tags.t) (it : Item) : string :=
  match it with
  | IRG => "rg-" +:+ nameSuffix host
  | INSG x => "nsg-" +:+ NSG.Name x +:+ "-" +:+ nameSuffix host
  | IRT x => "rt-" +:+ RT.Name x +:+ "-" +:+ nameSuffix host
  | IVNET => "vnet-" +:+ nameSuffix host
  | ISNET x => "snet-" +:+ SNET.Name x
  | IPIP x => "pip-" +:+ PIP.Name x +:+ "-" +:+ nameSuffix host
  | INIC x => "nic-" +:+ NIC.Name x +:+ "-" +:+ nameSuffix host
  | IRANDOM => "random-os-disk-id"
  | IVM => "vm-" +:+ Tags.Solution tags +:+ "-prod-"
  end.

(** No two configured entries of the same kind share a logical name. *)
Definition distinct_names (vnet : VNET.t) : Prop :=
  NoDup (NSG.Name <$> VNET.NSG vnet)
  ∧ NoDup (RT.Name <$> VNET.RT vnet)
  ∧ NoDup (SNET.Name <$> VNET.SNET vnet)
  ∧ NoDup (PIP.Name <$> VNET.PIP vnet)
  ∧ NoDup (NIC.Name <$> VNET.NIC vnet).

(* ===================================================================== *)
(** ** Tactics for positions in the plan *)
(* ===================================================================== *)

Ltac unfold_bases :=
  unfold vmHandle, randomHandle, nicBase, pipBase, snetBase, vnetHandle,
    rtBase, nsgBase in *.

Ltac len_side := unfold_bases; simpl; rewrite ?length_fmap; simpl; lia.
Ltac seg_skip := rewrite lookup_app_r by len_side.
Ltac seg_here := rewrite lookup_app_l by len_side.
Ltac seg_done j :=
  rewrite list_lookup_fmap;
  match goal with |- _ <$> _ !! ?e = _ => replace e with j by len_side end;
  reflexivity.

(* ===================================================================== *)
(** ** Lists and indices *)
(* ===================================================================== *)

Lemma last_index_snoc n names x :
  last_index n (names ++ [x]) =
  if decide (x = n) then Some (length names) else last_index n names.
Proof.
  induction names as [|y names IH]; simpl.
  - reflexivity.
  - rewrite IH. destruct (decide (x = n)); [reflexivity|].
    destruct (last_index n names); reflexivity.
Qed.

Lemma last_index_Some n names j :
  last_index n names = Some j →
  names !! j = Some n ∧ ∀ j', j < j' → names !! j' ≠ Some n.
Proof.
  revert j. induction names as [|y names IH]; simpl; intros j H; [discriminate|].
  destruct (last_index n names) as [j0|] eqn:E.
  - inversion H; subst. destruct (IH j0 eq_refl) as [H1 H2]. split; [exact H1|].
    intros [|j'] Hlt; [lia|]. simpl. apply H2. lia.
  - destruct (decide (y = n)); [|discriminate]. inversion H; subst. split; [reflexivity|].
    intros [|j'] Hlt; [lia|]. simpl. intros Hj.
    clear IH H. revert j' Hj Hlt. induction names as [|z names IH]; intros j' Hj Hlt.
    + discriminate.
    + simpl in E. destruct (last_index n names) eqn:E'; [discriminate|].
      destruct (decide (z = n)); [discriminate|].
      destruct j'; simpl in Hj; [congruence|]. eapply IH; eauto. lia.
Qed.

Lemma last_index_None n names :
  last_index n names = None ↔ n ∉ names.
Proof.
  induction names as [|y names IH]; simpl.
  - split; [intros _; apply not_elem_of_nil | reflexivity].
  - rewrite not_elem_of_cons. destruct (last_index n names).
    + split; [discriminate|]. intros [_ H]. apply IH in H. discriminate.
    + destruct (decide (y = n)).
      * split; [discriminate|]. intros [H _]. congruence.
      * split; [|reflexivity]. intros _. split; [congruence|]. apply IH. reflexivity.
Qed.

Lemma resolve_in_Some base names n h :
  resolve_in base names n = Some h →
  ∃ j, h = base + j ∧ names !! j = Some n ∧ ∀ j', j < j' → names !! j' ≠ Some n.
Proof.
  unfold resolve_in. destruct (last_index n names) as [j|] eqn:E; simpl; [|discriminate].
  intros H. inversion H; subst. exists j. split; [reflexivity|].
  apply last_index_Some. exact E.
Qed.

Lemma resolve_in_None base names n :
  resolve_in base names n = None ↔ n ∉ names.
Proof.
  unfold resolve_in. rewrite <- last_index_None.
  destruct (last_index n names); simpl; split; intros H; (discriminate H || reflexivity).
Qed.

Lemma indexes_empty base : indexes base [] ∅.
Proof. intros n. rewrite lookup_empty. reflexivity. Qed.

Lemma indexes_insert base names m x :
  indexes base names m →
  indexes base (names ++ [x]) (<[x := base + length names]> m).
Proof.
  intros H n. unfold resolve_in. rewrite last_index_snoc.
  destruct (decide (x = n)) as [->|Hne].
  - rewrite lookup_insert_eq. reflexivity.
  - rewrite lookup_insert_ne by exact Hne. apply H.
Qed.

(* ===================================================================== *)
(** ** Rules for the monad of a run *)
(* ===================================================================== *)

Section Rules.
Variable host : Host.
Variable tags : Tags.t.
Variable vnet : VNET.t.
Variable vm : VM.t.
Variable readme : string.

Local Abbreviation At := (At host tags vnet vm readme).
Local Abbreviation triple := (triple host tags vnet vm readme).

Lemma triple_ret {A} (P : RunState → Prop) (a : A) (Q : A → RunState → Prop) :
  (∀ s, P s → Q a s) → triple P (ret a) Q.
Proof. intros H s Hs. simpl. apply H, Hs. Qed.

Lemma triple_bind {A B} P (m : M A) R (f : A → M B) Q :
  triple P m R → (∀ a, triple (R a) (f a) Q) → triple P (bind m f) Q.
Proof.
  intros Hm Hf s Hs. unfold bind. specialize (Hm s Hs).
  destruct (m s) as [[a|e|p] s']; [|exact Hm|exact Hm].
  apply Hf. exact Hm.
Qed.

Lemma triple_conseq {A} (P P' : RunState → Prop) (m : M A) (Q Q' : A → RunState → Prop) :
  (∀ s, P s → P' s) → triple P' m Q' → (∀ a s, Q' a s → Q a s) → triple P m Q.
Proof.
  intros HP Hm HQ s Hs. specialize (Hm s (HP s Hs)).
  destruct (m s) as [[a|e|p] s']; auto.
Qed.

Lemma follows_plan_snoc l it d :
  follows_plan host tags vnet vm l →
  plan vnet !! length l = Some it →
  declares host tags vnet vm it d →
  follows_plan host tags vnet vm (l ++ [d]).
Proof.
  intros Hl Hit Hd i d' Hi.
  apply lookup_app_Some in Hi as [Hi|[Hge Hi]].
  - apply Hl. exact Hi.
  - apply list_lookup_singleton_Some in Hi as [Hi ->].
    assert (i = length l) as -> by lia. eauto.
Qed.

Lemma triple_declare k it d :
  plan vnet !! k = Some it →
  declares host tags vnet vm it d →
  triple (At k) (declare host d) (λ h s, h = k ∧ At (S k) s).
Proof.
  intros Hit Hd s (Hf & Hlen & Hex). unfold declare.
  destruct (RegisterResource host (declared s) d) as [e|] eqn:E.
  - exists k, it, d. repeat split; assumption.
  - split; [exact Hlen|]. repeat split; simpl.
    + apply follows_plan_snoc with it; [exact Hf| rewrite Hlen; exact Hit | exact Hd].
    + rewrite length_app. simpl. lia.
    + exact Hex.
Qed.

Lemma triple_ID k it (o : option Handle) :
  plan vnet !! k = Some it →
  (o = None → unresolved vnet vm it) →
  triple (At k) (ID o) (λ h s, o = Some h ∧ At k s).
Proof.
  intros Hit Ho s Hs. destruct o as [h|]; simpl.
  - split; [reflexivity|exact Hs].
  - exists k, it. repeat split; try apply Hs. exact Hit. apply Ho. reflexivity.
Qed.

Lemma triple_for_range {A S} (I : list A → S → RunState → Prop)
    (body : A → S → M S) (l : list A) :
  (∀ done x rest acc, l = done ++ x :: rest →
     triple (I done acc) (body x acc) (λ acc' s, I (done ++ [x]) acc' s)) →
  ∀ acc, triple (I [] acc) (for_range l body acc) (λ acc' s, I l acc' s).
Proof.
  intros Hbody.
  assert (∀ rest done acc, l = done ++ rest →
    triple (I done acc) (for_range rest body acc) (λ acc' s, I l acc' s)) as H.
  { induction rest as [|x rest IH]; intros done acc Hl; simpl.
    - apply triple_ret. intros s Hs. rewrite Hl, app_nil_r. exact Hs.
    - eapply triple_bind; [apply (Hbody done x rest acc Hl)|].
      intros acc'. apply IH. rewrite <- app_assoc. exact Hl. }
  intros acc. apply H. reflexivity.
Qed.
End Rules.

(* ===================================================================== *)
(** ** Positions in the plan *)
(* ===================================================================== *)

Section PlanLemmas.
Variable vnet : VNET.t.

Lemma length_plan : length (plan vnet) = S (vmHandle vnet).
Proof.
  unfold plan. unfold_bases. rewrite !length_app, !length_fmap. simpl. lia.
Qed.

Lemma plan_IRG : plan vnet !! 0 = Some IRG.
Proof. reflexivity. Qed.

Lemma plan_INSG j :
  j < length (VNET.NSG vnet) →
  plan vnet !! (nsgBase + j) = INSG <$> VNET.NSG vnet !! j.
Proof. intros Hj. unfold plan. seg_skip. seg_here. seg_done j. Qed.

Lemma plan_IRT j :
  j < length (VNET.RT vnet) →
  plan vnet !! (rtBase vnet + j) = IRT <$> VNET.RT vnet !! j.
Proof. intros Hj. unfold plan. do 2 seg_skip. seg_here. seg_done j. Qed.

Lemma plan_IVNET : plan vnet !! vnetHandle vnet = Some IVNET.
Proof.
  unfold plan. do 3 seg_skip. seg_here.
  match goal with |- _ !! ?e = _ => replace e with 0 by len_side end. reflexivity.
Qed.

Lemma plan_ISNET j :
  j < length (VNET.SNET vnet) →
  plan vnet !! (snetBase vnet + j) = ISNET <$> VNET.SNET vnet !! j.
Proof. intros Hj. unfold plan. do 4 seg_skip. seg_here. seg_done j. Qed.

Lemma plan_IPIP j :
  j < length (VNET.PIP vnet) →
  plan vnet !! (pipBase vnet + j) = IPIP <$> VNET.PIP vnet !! j.
Proof. intros Hj. unfold plan. do 5 seg_skip. seg_here. seg_done j. Qed.

Lemma plan_INIC j :
  j < length (VNET.NIC vnet) →
  plan vnet !! (nicBase vnet + j) = INIC <$> VNET.NIC vnet !! j.
Proof. intros Hj. unfold plan. do 6 seg_skip. seg_here. seg_done j. Qed.

Lemma plan_IRANDOM : plan vnet !! randomHandle vnet = Some IRANDOM.
Proof.
  unfold plan. do 7 seg_skip.
  match goal with |- _ !! ?e = _ => replace e with 0 by len_side end. reflexivity.
Qed.

Lemma plan_IVM : plan vnet !! vmHandle vnet = Some IVM.
Proof.
  unfold plan. do 7 seg_skip.
  match goal with |- _ !! ?e = _ => replace e with 1 by len_side end. reflexivity.
Qed.

Lemma lookup_middle_fmap {A B} (f : A → B) (l done rest : list A) x :
  l = done ++ x :: rest →
  length done < length l ∧ f <$> l !! length done = Some (f x).
Proof.
  intros ->. split.
  - rewrite length_app. simpl. lia.
  - rewrite list_lookup_middle by reflexivity. reflexivity.
Qed.
End PlanLemmas.

(* ===================================================================== *)
(** ** The loops and the closure *)
(* ===================================================================== *)

Section MainSpec.
Variable host : Host.
Variable tags : Tags.t.
Variable vnet : VNET.t.
Variable vm : VM.t.
Variable readme : string.

Local Abbreviation At := (At host tags vnet vm readme).
Local Abbreviation triple := (triple host tags vnet vm readme).

Lemma triple_pure {A} (φ : Prop) P (m : M A) Q :
  (φ → triple P m Q) → triple (λ s, φ ∧ P s) m Q.
Proof. intros H s [Hφ Hs]. apply H; assumption. Qed.

Lemma triple_pure_r {A} (φ : Prop) P (m : M A) Q :
  (φ → triple P m Q) → triple (λ s, P s ∧ φ) m Q.
Proof. intros H s [Hs Hφ]. apply H; assumption. Qed.

Lemma At_eq k k' s : k = k' → At k s → At k' s.
Proof. intros ->. exact id. Qed.

Lemma nsg_loop_triple :
  triple (At nsgBase)
    (for_range (VNET.NSG vnet) (nsg_body host tags 0) ∅)
    (λ nsgMap s, At (rtBase vnet) s
                 ∧ indexes nsgBase (NSG.Name <$> VNET.NSG vnet) nsgMap).
Proof.
  eapply triple_conseq;
    [| apply (triple_for_range host tags vnet vm readme
                (λ done m s, At (nsgBase + length done) s
                             ∧ indexes nsgBase (NSG.Name <$> done) m)) |].
  - intros s Hs. cbv beta. split; [|apply indexes_empty].
    replace (nsgBase + length (@nil NSG.t)) with nsgBase by (unfold nsgBase; simpl; lia). exact Hs.
  - intros done x rest nsgMap Hl. apply triple_pure_r. intros Hidx.
    destruct (lookup_middle_fmap INSG _ _ _ _ Hl) as [Hlt Hx].
    unfold nsg_body, NewNetworkSecurityGroup.
    eapply triple_bind.
    + eapply triple_declare.
      * rewrite plan_INSG by exact Hlt. exact Hx.
      * split; reflexivity.
    + intros h. apply triple_pure. intros ->. apply triple_ret. intros s Hs.
      split.
      * eapply At_eq; [|exact Hs]. rewrite length_app. len_side.
      * rewrite fmap_app. simpl. rewrite <- (length_fmap NSG.Name done).
        apply indexes_insert. exact Hidx.
  - intros m s Hs. exact Hs.
Qed.

Lemma rt_loop_triple nsgMap :
  triple (At (rtBase vnet))
    (for_range (VNET.RT vnet) (rt_body host tags 0 nsgMap) ∅)
    (λ rtMap s, At (vnetHandle vnet) s
                ∧ indexes (rtBase vnet) (RT.Name <$> VNET.RT vnet) rtMap).
Proof.
  eapply triple_conseq;
    [| apply (triple_for_range host tags vnet vm readme
                (λ done m s, At (rtBase vnet + length done) s
                             ∧ indexes (rtBase vnet) (RT.Name <$> done) m)) |].
  - intros s Hs. cbv beta. split; [|apply indexes_empty].
    eapply At_eq; [|exact Hs]. len_side.
  - intros done x rest rtMap Hl. apply triple_pure_r. intros Hidx.
    destruct (lookup_middle_fmap IRT _ _ _ _ Hl) as [Hlt Hx].
    unfold rt_body, NewRouteTable.
    eapply triple_bind.
    + eapply triple_declare.
      * rewrite plan_IRT by exact Hlt. exact Hx.
      * split; reflexivity.
    + intros h. apply triple_pure. intros ->. apply triple_ret. intros s Hs.
      split.
      * eapply At_eq; [|exact Hs]. rewrite length_app. len_side.
      * rewrite fmap_app. simpl. rewrite <- (length_fmap RT.Name done).
        apply indexes_insert. exact Hidx.
  - intros m s Hs. exact Hs.
Qed.

Lemma snet_loop_triple nsgMap rtMap deps :
  indexes nsgBase (NSG.Name <$> VNET.NSG vnet) nsgMap →
  indexes (rtBase vnet) (RT.Name <$> VNET.RT vnet) rtMap →
  triple (At (snetBase vnet))
    (for_range (VNET.SNET vnet)
       (snet_body host 0 (vnetHandle vnet) nsgMap rtMap deps) (∅, []))
    (λ acc s, At (pipBase vnet) s
              ∧ indexes (snetBase vnet) (SNET.Name <$> VNET.SNET vnet) acc.1).
Proof.
  intros Hnsg Hrt.
  eapply triple_conseq;
    [| apply (triple_for_range host tags vnet vm readme
                (λ done acc s, At (snetBase vnet + length done) s
                               ∧ indexes (snetBase vnet) (SNET.Name <$> done) acc.1)) |].
  - intros s Hs. cbv beta. split; [|apply indexes_empty].
    eapply At_eq; [|exact Hs]. len_side.
  - intros done x rest [snetMap snetResources] Hl. apply triple_pure_r. intros Hidx.
    destruct (lookup_middle_fmap ISNET _ _ _ _ Hl) as [Hlt Hx].
    rewrite <- plan_ISNET in Hx by exact Hlt.
    unfold snet_body, NewSubnet.
    eapply triple_bind.
    { apply (triple_ID _ _ _ _ _ _ _ _ Hx). intros Hn. left.
      unfold nsgIndex. rewrite <- Hnsg. exact Hn. }
    intros nsgId. apply triple_pure. intros HnsgId.
    eapply triple_bind.
    { apply (triple_ID _ _ _ _ _ _ _ _ Hx). intros Hn. right.
      unfold rtIndex. rewrite <- Hrt. exact Hn. }
    intros rtId. apply triple_pure. intros HrtId.
    eapply triple_bind.
    + eapply triple_declare; [exact Hx|].
      split; [reflexivity|]. exists nsgId, rtId.
      unfold nsgIndex, rtIndex. rewrite <- Hnsg, <- Hrt. auto.
    + intros h. apply triple_pure. intros ->. apply triple_ret. intros s Hs.
      split.
      * eapply At_eq; [|exact Hs]. rewrite length_app. len_side.
      * simpl in *. rewrite fmap_app. simpl. rewrite <- (length_fmap SNET.Name done).
        apply indexes_insert. exact Hidx.
  - intros m s Hs. exact Hs.
Qed.

Lemma pip_loop_triple deps :
  triple (At (pipBase vnet))
    (for_range (VNET.PIP vnet) (pip_body host tags 0 deps) (∅, []))
    (λ acc s, At (nicBase vnet) s
              ∧ indexes (pipBase vnet) (PIP.Name <$> VNET.PIP vnet) acc.1).
Proof.
  eapply triple_conseq;
    [| apply (triple_for_range host tags vnet vm readme
                (λ done acc s, At (pipBase vnet + length done) s
                               ∧ indexes (pipBase vnet) (PIP.Name <$> done) acc.1)) |].
  - intros s Hs. cbv beta. split; [|apply indexes_empty].
    eapply At_eq; [|exact Hs]. len_side.
  - intros done x rest [pipMap pipResources] Hl. apply triple_pure_r. intros Hidx.
    destruct (lookup_middle_fmap IPIP _ _ _ _ Hl) as [Hlt Hx].
    rewrite <- plan_IPIP in Hx by exact Hlt.
    unfold pip_body, NewPublicIPAddress.
    eapply triple_bind.
    + eapply triple_declare; [exact Hx|]. split; reflexivity.
    + intros h. apply triple_pure. intros ->. apply triple_ret. intros s Hs.
      split.
      * eapply At_eq; [|exact Hs]. rewrite length_app. len_side.
      * simpl in *. rewrite fmap_app. simpl. rewrite <- (length_fmap PIP.Name done).
        apply indexes_insert. exact Hidx.
  - intros m s Hs. exact Hs.
Qed.

Lemma nic_loop_triple snetMap pipMap deps :
  indexes (snetBase vnet) (SNET.Name <$> VNET.SNET vnet) snetMap →
  indexes (pipBase vnet) (PIP.Name <$> VNET.PIP vnet) pipMap →
  triple (At (nicBase vnet))
    (for_range (VNET.NIC vnet) (nic_body host tags 0 snetMap pipMap deps) (∅, []))
    (λ acc s, At (randomHandle vnet) s
              ∧ indexes (nicBase vnet) (NIC.Name <$> VNET.NIC vnet) acc.1).
Proof.
  intros Hsnet Hpip.
  eapply triple_conseq;
    [| apply (triple_for_range host tags vnet vm readme
                (λ done acc s, At (nicBase vnet + length done) s
                               ∧ indexes (nicBase vnet) (NIC.Name <$> done) acc.1)) |].
  - intros s Hs. cbv beta. split; [|apply indexes_empty].
    eapply At_eq; [|exact Hs]. len_side.
  - intros done x rest [nicMap nicResources] Hl. apply triple_pure_r. intros Hidx.
    destruct (lookup_middle_fmap INIC _ _ _ _ Hl) as [Hlt Hx].
    rewrite <- plan_INIC in Hx by exact Hlt.
    unfold nic_body, NewNetworkInterface.
    eapply triple_bind.
    { apply (triple_ID _ _ _ _ _ _ _ _ Hx). intros Hn.
      unfold unresolved, snetIndex. rewrite <- Hsnet. exact Hn. }
    intros snetId. apply triple_pure. intros HsnetId.
    eapply triple_bind.
    + eapply triple_declare; [exact Hx|].
      split; [reflexivity|]. exists snetId.
      unfold snetIndex, pipIndex. rewrite <- Hsnet, <- Hpip.
      split; [exact HsnetId|].
      destruct (pipMap !! NIC.PipName x); reflexivity.
    + intros h. apply triple_pure. intros ->. apply triple_ret. intros s Hs.
      split.
      * eapply At_eq; [|exact Hs]. rewrite length_app. len_side.
      * simpl in *. rewrite fmap_app. simpl. rewrite <- (length_fmap NIC.Name done).
        apply indexes_insert. exact Hidx.
  - intros m s Hs. exact Hs.
Qed.

(** The closure after the readme has been exported. *)
Lemma main_triple :
  ReadFile host "./README.md" = inl readme →
  triple (λ s, s = initial) (main host tags vnet vm)
    (λ _ s, At (length (plan vnet)) s).
Proof.
  intros Hread. unfold main. rewrite Hread.
  eapply triple_bind with (R := λ _ s, At 0 s).
  { intros s ->. simpl. split; [|split; reflexivity].
    intros i d Hi. cbn in Hi. destruct i; discriminate Hi. }
  intros _. unfold NewResourceGroup.
  eapply triple_bind.
  { eapply triple_declare; [apply plan_IRG|]. split; reflexivity. }
  intros resourceGroup. apply triple_pure. intros ->.
  eapply triple_bind; [apply nsg_loop_triple|].
  intros nsgMap. apply triple_pure_r. intros Hnsg.
  eapply triple_bind; [apply rt_loop_triple|].
  intros rtMap. apply triple_pure_r. intros Hrt.
  cbv zeta. unfold NewVirtualNetwork.
  eapply triple_bind.
  { eapply triple_declare; [apply plan_IVNET|]. split; reflexivity. }
  intros virtualNetwork. apply triple_pure. intros ->.
  eapply triple_bind; [apply (snet_loop_triple _ _ _ Hnsg Hrt)|].
  intros [snetMap snetResources]. apply triple_pure_r. intros Hsnet.
  eapply triple_bind; [apply pip_loop_triple|].
  intros [pipMap pipResources]. apply triple_pure_r. intros Hpip.
  eapply triple_bind; [apply (nic_loop_triple _ _ _ Hsnet Hpip)|].
  intros [nicMap nicResources]. apply triple_pure_r. intros Hnic.
  unfold NewRandomString.
  eapply triple_bind.
  { eapply triple_declare; [apply plan_IRANDOM|]. split; reflexivity. }
  intros randomOsDiskId. apply triple_pure. intros ->.
  pose proof (plan_IVM vnet) as Hvm.
  eapply triple_bind.
  { apply (triple_ID _ _ _ _ _ _ _ _ Hvm). intros Hn. left.
    unfold nicIndex. rewrite <- Hnic. exact Hn. }
  intros nic0. apply triple_pure. intros Hnic0.
  eapply triple_bind.
  { apply (triple_ID _ _ _ _ _ _ _ _ Hvm). intros Hn. right; left.
    unfold nicIndex. rewrite <- Hnic. exact Hn. }
  intros nic1. apply triple_pure. intros Hnic1.
  eapply triple_bind.
  { apply (triple_ID _ _ _ _ _ _ _ _ Hvm). intros Hn. right; right.
    unfold nicIndex. rewrite <- Hnic. exact Hn. }
  intros nic2. apply triple_pure. intros Hnic2.
  unfold NewVirtualMachine.
  eapply triple_bind.
  { eapply triple_declare; [exact Hvm|]. split; [reflexivity|].
    exists nic0, nic1, nic2. unfold nicIndex. rewrite <- !Hnic. auto. }
  intros h. apply triple_pure. intros ->. apply triple_ret. intros s Hs.
  rewrite length_plan. exact Hs.
Qed.
End MainSpec.

(* ===================================================================== *)
(** ** What a run leaves behind *)
(* ===================================================================== *)

Section RunSpec.
Variable host : Host.
Variable tags : Tags.t.
Variable vnet : VNET.t.
Variable vm : VM.t.

Lemma run_unreadable err :
  ReadFile host "./README.md" = inr err →
  run host tags vnet vm = (Err (Errorf_w "failed to read readme: " err), initial).
Proof. intros H. unfold run, main. rewrite H. reflexivity. Qed.

Lemma run_readable readme :
  ReadFile host "./README.md" = inl readme →
  match run host tags vnet vm with
  | (Ok _, s) => At host tags vnet vm readme (length (plan vnet)) s
  | (Err e, s) => refused host tags vnet vm readme e s
  | (Panic p, s) => panicked host tags vnet vm readme p s
  end.
Proof. intros H. apply (main_triple host tags vnet vm readme H initial eq_refl). Qed.

Lemma run_follows_plan :
  follows_plan host tags vnet vm (declared (run host tags vnet vm).2).
Proof.
  destruct (ReadFile host "./README.md") as [readme|err] eqn:E.
  - pose proof (run_readable readme E) as H.
    destruct (run host tags vnet vm) as [[[]|e|p] s]; simpl.
    + apply H.
    + destruct H as (k & it & d & H & _). apply H.
    + destruct H as (k & it & H & _). apply H.
  - rewrite (run_unreadable err E). simpl. intros i d Hi. destruct i; discriminate Hi.
Qed.

Lemma declares_kind it d :
  declares host tags vnet vm it d → kind d = item_kind it.
Proof.
  unfold kind. destruct it; simpl.
  all: try (intros [_ ->]; reflexivity).
  - intros (_ & ? & ? & _ & _ & ->). reflexivity.
  - intros (_ & ? & _ & ->). reflexivity.
  - intros (_ & ? & ? & ? & _ & _ & _ & ->). reflexivity.
Qed.

(** Where an item of the plan sits. *)
Lemma plan_lookup_inv i it :
  plan vnet !! i = Some it →
  match it with
  | IRG => i = 0
  | INSG x => ∃ j, i = nsgBase + j ∧ VNET.NSG vnet !! j = Some x
  | IRT x => ∃ j, i = rtBase vnet + j ∧ VNET.RT vnet !! j = Some x
  | IVNET => i = vnetHandle vnet
  | ISNET x => ∃ j, i = snetBase vnet + j ∧ VNET.SNET vnet !! j = Some x
  | IPIP x => ∃ j, i = pipBase vnet + j ∧ VNET.PIP vnet !! j = Some x
  | INIC x => ∃ j, i = nicBase vnet + j ∧ VNET.NIC vnet !! j = Some x
  | IRANDOM => i = randomHandle vnet
  | IVM => i = vmHandle vnet
  end.
Proof.
  unfold plan. intros H.
  repeat (apply lookup_app_Some in H as [H|[? H]]);
    try (apply list_lookup_fmap_Some in H as (x & -> & H));
    try (apply list_lookup_singleton_Some in H as [? <-]);
    rewrite ?length_fmap in *; simpl in *.
  all: try (eexists; split; [|exact H]); try len_side.
  destruct (i - 1 - length (VNET.NSG vnet) - length (VNET.RT vnet) - 1
            - length (VNET.SNET vnet) - length (VNET.PIP vnet)
            - length (VNET.NIC vnet)) as [|[|n]] eqn:E; simpl in H;
    inversion H; subst; len_side.
Qed.

Lemma lookup_lt {A} (l : list A) j x : l !! j = Some x → j < length l.
Proof. apply lookup_lt_Some. Qed.

(** The plan is in the order of the ranks. *)
Lemma plan_ranks_sorted i j a b :
  plan vnet !! i = Some a → plan vnet !! j = Some b →
  rank (item_kind a) < rank (item_kind b) → i < j.
Proof.
  intros Ha Hb Hlt. apply plan_lookup_inv in Ha, Hb.
  destruct a; destruct b; simpl in Hlt; try lia.
  all: repeat match goal with
       | H : ∃ _, _ |- _ => destruct H as (? & ? & ?%lookup_lt)
       end; len_side.
Qed.
End RunSpec.

(* ===================================================================== *)
(** ** Strings *)
(* ===================================================================== *)

Lemma chars_app s1 s2 : chars (s1 +:+ s2) = chars s1 ++ chars s2.
Proof.
  induction s1 as [|c s1 IH]; [reflexivity|].
  change (String c s1 +:+ s2) with (String c (s1 +:+ s2)). simpl. rewrite IH. reflexivity.
Qed.

Lemma string_app_assoc s1 s2 s3 : (s1 +:+ s2) +:+ s3 = s1 +:+ (s2 +:+ s3).
Proof.
  induction s1 as [|c s1 IH]; [reflexivity|].
  change ((String c s1 +:+ s2) +:+ s3) with (String c ((s1 +:+ s2) +:+ s3)).
  rewrite IH. reflexivity.
Qed.

(* ===================================================================== *)
(** ** The claims *)
(* ===================================================================== *)

(** C2. In the trace of every run, a declaration of an upstream kind comes
    before every declaration of a downstream kind, for the order of section
    4.4: resource group, security groups, route tables, virtual network,
    subnets, public IPs, interfaces, random identifier, virtual machine. *)
Theorem declaration_order host tags vnet vm i j a b :
  declared (run host tags vnet vm).2 !! i = Some a →
  declared (run host tags vnet vm).2 !! j = Some b →
  rank (kind a) < rank (kind b) →
  i < j.
Proof.
  intros Ha Hb Hlt.
  destruct (run_follows_plan host tags vnet vm i a Ha) as (ita & Hia & Hda).
  destruct (run_follows_plan host tags vnet vm j b Hb) as (itb & Hib & Hdb).
  rewrite (declares_kind _ _ _ _ _ _ Hda), (declares_kind _ _ _ _ _ _ Hdb) in Hlt.
  exact (plan_ranks_sorted vnet i j ita itb Hia Hib Hlt).
Qed.

Lemma declaration_order_witness :
  ∃ a b,
    declared (run Examples.host Examples.tags Examples.vnet Examples.vm).2 !! 8 = Some a
    ∧ declared (run Examples.host Examples.tags Examples.vnet Examples.vm).2 !! 9 = Some b
    ∧ rank (kind a) < rank (kind b)
    ∧ 8 < 9.
Proof.
  eexists _, _.
  assert (H8 : declared (run Examples.host Examples.tags Examples.vnet Examples.vm).2 !! 8
               = Some _) by (vm_compute; reflexivity).
  assert (H9 : declared (run Examples.host Examples.tags Examples.vnet Examples.vm).2 !! 9
               = Some _) by (vm_compute; reflexivity).
  assert (Hr : rank KRandomString < rank KVirtualMachine) by (simpl; lia).
  split; [exact H8|]. split; [exact H9|]. split; [exact Hr|].
  exact (declaration_order _ _ _ _ 8 9 _ _ H8 H9 Hr).
Defined.

Lemma last_index_unique n names j :
  names !! j = Some n → (∀ j', j < j' → names !! j' ≠ Some n) →
  last_index n names = Some j.
Proof.
  intros Hj Hlast. destruct (last_index n names) as [j0|] eqn:E.
  - destruct (last_index_Some _ _ _ E) as [H0 Hlast0].
    destruct (Nat.lt_trichotomy j0 j) as [Hlt|[->|Hlt]]; [|reflexivity|].
    + exfalso. exact (Hlast0 j Hlt Hj).
    + exfalso. exact (Hlast j0 Hlt H0).
  - apply last_index_None in E. exfalso. apply E.
    eapply list_elem_of_lookup_2. exact Hj.
Qed.

Lemma resolve_in_last_named {A} (nm : A → string) base (l : list A) n h :
  resolve_in base (nm <$> l) n = Some h ↔ ∃ j, h = base + j ∧ last_named nm l n j.
Proof.
  split.
  - intros H. apply resolve_in_Some in H as (j & -> & Hj & Hlast).
    exists j. split; [reflexivity|].
    apply list_lookup_fmap_Some in Hj as (x & Hn & Hx).
    exists x. repeat split; [exact Hx|congruence|].
    intros j' x' Hlt Hx' Hn'. apply (Hlast j' Hlt).
    rewrite list_lookup_fmap, Hx'. simpl. congruence.
  - intros (j & -> & x & Hx & Hn & Hlast). unfold resolve_in.
    rewrite (last_index_unique n (nm <$> l) j); [reflexivity| |].
    + rewrite list_lookup_fmap, Hx. simpl. congruence.
    + intros j' Hlt Hj'. apply list_lookup_fmap_Some in Hj' as (x' & Hn' & Hx').
      apply (Hlast j' x' Hlt Hx'). congruence.
Qed.

Section Resolved.
Variable host : Host.
Variable tags : Tags.t.
Variable vnet : VNET.t.
Variable vm : VM.t.
Variable l : list Declaration.
Hypothesis Hl : follows_plan host tags vnet vm l.

Lemma declared_at h it :
  h < length l → plan vnet !! h = Some it →
  ∃ d, l !! h = Some d ∧ declares host tags vnet vm it d.
Proof.
  intros Hlt Hit. destruct (lookup_lt_is_Some_2 l h Hlt) as [d Hd].
  exists d. split; [exact Hd|].
  destruct (Hl h d Hd) as (it' & Hit' & Hdec). congruence.
Qed.

Lemma nsgIndex_declared n h :
  nsgIndex vnet n = Some h → h < length l →
  names_declared KNetworkSecurityGroup ("nsg-" +:+ n +:+ "-" +:+ nameSuffix host) l h.
Proof.
  intros Hn Hlt. apply resolve_in_last_named in Hn as (j & -> & x & Hx & <- & _).
  destruct (declared_at (nsgBase + j) (INSG x) Hlt) as (d & Hd & Hdec).
  { rewrite plan_INSG by (eapply lookup_lt_Some; exact Hx). rewrite Hx. reflexivity. }
  exists d. split; [exact Hd|]. split; [apply (declares_kind _ _ _ _ _ _ Hdec)|apply Hdec].
Qed.

Lemma rtIndex_declared n h :
  rtIndex vnet n = Some h → h < length l →
  names_declared KRouteTable ("rt-" +:+ n +:+ "-" +:+ nameSuffix host) l h.
Proof.
  intros Hn Hlt. apply resolve_in_last_named in Hn as (j & -> & x & Hx & <- & _).
  destruct (declared_at (rtBase vnet + j) (IRT x) Hlt) as (d & Hd & Hdec).
  { rewrite plan_IRT by (eapply lookup_lt_Some; exact Hx). rewrite Hx. reflexivity. }
  exists d. split; [exact Hd|]. split; [apply (declares_kind _ _ _ _ _ _ Hdec)|apply Hdec].
Qed.

Lemma snetIndex_declared n h :
  snetIndex vnet n = Some h → h < length l →
  names_declared KSubnet ("snet-" +:+ n) l h.
Proof.
  intros Hn Hlt. apply resolve_in_last_named in Hn as (j & -> & x & Hx & <- & _).
  destruct (declared_at (snetBase vnet + j) (ISNET x) Hlt) as (d & Hd & Hdec).
  { rewrite plan_ISNET by (eapply lookup_lt_Some; exact Hx). rewrite Hx. reflexivity. }
  exists d. split; [exact Hd|]. split; [apply (declares_kind _ _ _ _ _ _ Hdec)|apply Hdec].
Qed.

Lemma pipIndex_declared n h :
  pipIndex vnet n = Some h → h < length l →
  names_declared KPublicIPAddress ("pip-" +:+ n +:+ "-" +:+ nameSuffix host) l h.
Proof.
  intros Hn Hlt. apply resolve_in_last_named in Hn as (j & -> & x & Hx & <- & _).
  destruct (declared_at (pipBase vnet + j) (IPIP x) Hlt) as (d & Hd & Hdec).
  { rewrite plan_IPIP by (eapply lookup_lt_Some; exact Hx). rewrite Hx. reflexivity. }
  exists d. split; [exact Hd|]. split; [apply (declares_kind _ _ _ _ _ _ Hdec)|apply Hdec].
Qed.


(** A handle an index resolves to is below the first position of the next
    kind. *)
Lemma resolve_in_lt {A} (nm : A → string) base (xs : list A) n h :
  resolve_in base (nm <$> xs) n = Some h → base ≤ h < base + length xs.
Proof.
  intros H. apply resolve_in_last_named in H as (j & -> & x & Hx & _).
  apply lookup_lt_Some in Hx. lia.
Qed.

(** The item of the plan behind a declaration of the trace, by its
    argument struct. *)
Lemma virtual_machine_inv i d a :
  l !! i = Some d → resource d = VirtualMachine a →
  i = vmHandle vnet ∧ declares host tags vnet vm IVM d.
Proof.
  intros Hd Ha. destruct (Hl i d Hd) as (it & Hit & Hdec).
  pose proof (declares_kind _ _ _ _ _ _ Hdec) as Hk.
  unfold kind in Hk. rewrite Ha in Hk.
  destruct it; try discriminate Hk.
  apply plan_lookup_inv in Hit. split; assumption.
Qed.

Lemma random_string_inv i d a :
  l !! i = Some d → resource d = RandomString a →
  i = randomHandle vnet ∧ a = randomOsDiskIdArgs.
Proof.
  intros Hd Ha. destruct (Hl i d Hd) as (it & Hit & Hdec).
  pose proof (declares_kind _ _ _ _ _ _ Hdec) as Hk.
  unfold kind in Hk. rewrite Ha in Hk.
  destruct it; try discriminate Hk.
  apply plan_lookup_inv in Hit. split; [assumption|].
  destruct Hdec as [_ Hr]. congruence.
Qed.

End Resolved.

(** C4, as stated, fails: on stack [dev] with solution tag [panos] the virtual
    machine is declared under the name [vm-panos-prod-], which is shorter than
    any name that ends in [-<logical-name>-panos-vm-dev-]. *)
Lemma naming_rule_counterexample :
  ¬ (∀ i d,
       declared (run Examples.host Examples.tags Examples.vnet Examples.vm).2 !! i = Some d →
       conforming_name Examples.host d).
Proof.
  intros H.
  destruct (declared (run Examples.host Examples.tags Examples.vnet Examples.vm).2 !! 9)
    as [d|] eqn:E; [|vm_compute in E; discriminate E].
  specialize (H 9 d E).
  assert (kind d = KVirtualMachine ∧ name d = "vm-panos-prod-") as [Hk Hn].
  { vm_compute in E. injection E as <-. split; reflexivity. }
  unfold conforming_name in H. rewrite Hk, Hn in H.
  destruct H as (prefix & logical & H).
  apply (f_equal chars) in H. rewrite !chars_app in H.
  apply (f_equal length) in H. rewrite !length_app in H. simpl in H. lia.
Qed.

(** C4, amended. Every declaration of a run is named as follows: security
    groups, route tables, public IPs and interfaces
    [<kind-prefix>-<logical-name>-<name-suffix>]; the resource group and the
    virtual network [<kind-prefix>-<name-suffix>]; subnets
    [snet-<logical-name>]; the random string [random-os-disk-id]; the virtual
    machine [vm-<solution tag>-prod-]; where the name suffix is
    [panos-vm-<stack>-]. *)
Theorem declared_names host tags vnet vm i d :
  declared (run host tags vnet vm).2 !! i = Some d →
  nameSuffix host = "panos-vm-" +:+ Stack host +:+ "-"
  ∧ match kind d with
    | KResourceGroup => name d = "rg-" +:+ nameSuffix host
    | KNetworkSecurityGroup =>
        ∃ x, x ∈ VNET.NSG vnet ∧ name d = "nsg-" +:+ NSG.Name x +:+ "-" +:+ nameSuffix host
    | KRouteTable =>
        ∃ x, x ∈ VNET.RT vnet ∧ name d = "rt-" +:+ RT.Name x +:+ "-" +:+ nameSuffix host
    | KVirtualNetwork => name d = "vnet-" +:+ nameSuffix host
    | KSubnet => ∃ x, x ∈ VNET.SNET vnet ∧ name d = "snet-" +:+ SNET.Name x
    | KPublicIPAddress =>
        ∃ x, x ∈ VNET.PIP vnet ∧ name d = "pip-" +:+ PIP.Name x +:+ "-" +:+ nameSuffix host
    | KNetworkInterface =>
        ∃ x, x ∈ VNET.NIC vnet ∧ name d = "nic-" +:+ NIC.Name x +:+ "-" +:+ nameSuffix host
    | KRandomString => name d = "random-os-disk-id"
    | KVirtualMachine => name d = "vm-" +:+ Tags.Solution tags +:+ "-prod-"
    end.
Proof.
  intros Hd. split; [reflexivity|].
  destruct (run_follows_plan host tags vnet vm i d Hd) as (it & Hit & Hdec).
  rewrite (declares_kind _ _ _ _ _ _ Hdec).
  apply plan_lookup_inv in Hit.
  destruct it; simpl in *; try (apply Hdec).
  all: destruct Hit as (j & _ & Hj); exists x;
    (split; [eapply list_elem_of_lookup_2; exact Hj | apply Hdec]).
Qed.

Lemma declared_names_witness :
  ∃ d,
    declared (run Examples.host Examples.tags Examples.vnet Examples.vm).2 !! 9 = Some d
    ∧ name d = "vm-" +:+ Tags.Solution Examples.tags +:+ "-prod-".
Proof.
  eexists.
  assert (H9 : declared (run Examples.host Examples.tags Examples.vnet Examples.vm).2 !! 9
               = Some _) by (vm_compute; reflexivity).
  split; [exact H9|].
  exact (proj2 (declared_names _ _ _ _ 9 _ H9)).
Defined.

(** C7. Every declaration of a run for a resource type that takes tags (resource
    group, security group, route table, virtual network, public IP, interface,
    virtual machine) carries the tags [automation] and [solution] with the
    values of the [tags] configuration object. *)
Theorem tags_on_every_taggable host tags vnet vm i d :
  declared (run host tags vnet vm).2 !! i = Some d →
  taggable (kind d) = true →
  ∃ t, tags_of (resource d) = Some t
       ∧ t !! "automation" = Some (Tags.Automation tags)
       ∧ t !! "solution" = Some (Tags.Solution tags).
Proof.
  intros Hd Ht.
  destruct (run_follows_plan host tags vnet vm i d Hd) as (it & _ & Hdec).
  rewrite (declares_kind _ _ _ _ _ _ Hdec) in Ht.
  exists (requiredTags tags). split.
  - destruct it; simpl in *; try discriminate Ht.
    all: try (destruct Hdec as [_ ->]; reflexivity).
    + destruct Hdec as (_ & ? & _ & ->). reflexivity.
    + destruct Hdec as (_ & ? & ? & ? & _ & _ & _ & ->). reflexivity.
  - unfold requiredTags. split.
    + apply lookup_insert_eq.
    + rewrite lookup_insert_ne by discriminate. apply lookup_insert_eq.
Qed.

Lemma tags_on_every_taggable_witness :
  ∃ d,
    declared (run Examples.host Examples.tags Examples.vnet Examples.vm).2 !! 6 = Some d
    ∧ taggable (kind d) = true
    ∧ ∃ t, tags_of (resource d) = Some t
           ∧ t !! "automation" = Some "pulumi" ∧ t !! "solution" = Some "panos".
Proof.
  eexists.
  assert (H6 : declared (run Examples.host Examples.tags Examples.vnet Examples.vm).2 !! 6
               = Some _) by (vm_compute; reflexivity).
  split; [exact H6|]. split; [reflexivity|].
  exact (tags_on_every_taggable _ _ _ _ 6 _ H6 eq_refl).
Defined.

Lemma run_exports host tags vnet vm readme :
  ReadFile host "./README.md" = inl readme →
  exports (run host tags vnet vm).2 = <["readme" := readme]> ∅.
Proof.
  intros E. pose proof (run_readable host tags vnet vm readme E) as H.
  destruct (run host tags vnet vm) as [[[]|e|p] s]; simpl.
  - apply H.
  - destruct H as (k & it & d & H & _). apply H.
  - destruct H as (k & it & H & _). apply H.
Qed.

(** C8. When the readme can be read, the run exports its content under the
    key [readme]; when it cannot, the run returns the error
    [failed to read readme: ...] wrapping the cause, with no resource
    declared and nothing exported. *)
Theorem readme_export host tags vnet vm :
  match ReadFile host "./README.md" with
  | inl readme => exports (run host tags vnet vm).2 !! "readme" = Some readme
  | inr err =>
      (run host tags vnet vm).1 = Err (Errorf_w "failed to read readme: " err)
      ∧ Error (Errorf_w "failed to read readme: " err)
        = "failed to read readme: " +:+ Error err
      ∧ declared (run host tags vnet vm).2 = []
      ∧ exports (run host tags vnet vm).2 = ∅
  end.
Proof.
  destruct (ReadFile host "./README.md") as [readme|err] eqn:E.
  - rewrite (run_exports _ _ _ _ _ E). apply lookup_insert_eq.
  - rewrite (run_unreadable _ _ _ _ _ E). simpl. auto.
Qed.



(* ===================================================================== *)
(** ** Strings the random provider may generate *)
(* ===================================================================== *)

Lemma lower_not_digit c : is_lower c = true → is_digit c = true → False.
Proof.
  unfold is_lower, is_digit. intros H1 H2.
  apply andb_prop in H1 as [H1 _]. apply andb_prop in H2 as [_ H2].
  apply Nat.leb_le in H1, H2. lia.
Qed.

Lemma length_filter_disjoint (p q : ascii → bool) (l : list ascii) :
  (∀ c, p c = true → q c = true → False) →
  length (filter (λ c, p c = true) l) + length (filter (λ c, q c = true) l) ≤ length l.
Proof.
  intros Hpq. induction l as [|c l IH]; [reflexivity|].
  rewrite !filter_cons.
  destruct (decide (p c = true)) as [Hp|Hp], (decide (q c = true)) as [Hq|Hq];
    simpl; try lia.
  exfalso. exact (Hpq c Hp Hq).
Qed.

Lemma conforms_randomOsDiskIdArgs r :
  conforms randomOsDiskIdArgs r = true →
  length (chars r) = 8
  ∧ (∀ c, c ∈ chars r → is_lower c || is_digit c = true)
  ∧ count_chars is_lower r = 4
  ∧ count_chars is_digit r = 4.
Proof.
  unfold conforms. simpl. intros H.
  apply andb_prop in H as [H Hd]. apply andb_prop in H as [H Hlo].
  apply andb_prop in H as [Hlen Hall].
  apply Z.eqb_eq in Hlen. apply Z.leb_le in Hlo, Hd.
  pose proof (length_filter_disjoint is_lower is_digit (chars r) lower_not_digit) as Hsum.
  unfold count_chars in *.
  split; [lia|]. split; [|lia].
  intros c Hc. rewrite forallb_forall in Hall.
  apply list_elem_of_In in Hc. specialize (Hall c Hc).
  unfold allowed in Hall. simpl in Hall.
  rewrite !orb_false_r in Hall. exact Hall.
Qed.

Lemma string_app_empty_r s : s +:+ "" = s.
Proof.
  induction s as [|c s IH]; [reflexivity|].
  change (String c s +:+ "") with (String c (s +:+ "")). rewrite IH. reflexivity.
Qed.

(** C5. The OS disk of a declared virtual machine has caching [ReadWrite],
    create option [FromImage], delete option [Delete] and size 127; its name
    is [os-panos-vm-<stack>-] followed by the result of the random string
    declared just before, and every string the provider may generate for the
    arguments of that declaration has 8 characters, all lowercase letters or
    digits, at least 4 of them letters and at least 4 digits. *)
Theorem os_disk host tags vnet vm i d a :
  declared (run host tags vnet vm).2 !! i = Some d →
  resource d = VirtualMachine a →
  let disk := VirtualMachineArgs.OsDisk a in
  OSDiskArgs.Caching disk = CachingTypesReadWrite
  ∧ OSDiskArgs.CreateOption disk = "FromImage"
  ∧ OSDiskArgs.DeleteOption disk = "Delete"
  ∧ OSDiskArgs.DiskSizeGB disk = 127%Z
  ∧ ∃ h dr ar,
      declared (run host tags vnet vm).2 !! h = Some dr
      ∧ resource dr = RandomString ar
      ∧ ∀ result,
          conforms ar (result h) = true →
          resolve result (OSDiskArgs.Name disk)
            = "os-panos-vm-" +:+ Stack host +:+ "-" +:+ result h
          ∧ length (chars (result h)) = 8
          ∧ (∀ c, c ∈ chars (result h) → is_lower c || is_digit c = true)
          ∧ 4 ≤ count_chars is_lower (result h)
          ∧ 4 ≤ count_chars is_digit (result h).
Proof.
  intros Hd Ha.
  pose proof (run_follows_plan host tags vnet vm) as Hl.
  destruct (virtual_machine_inv _ _ _ _ _ Hl i d a Hd Ha) as [-> Hdec].
  destruct Hdec as (_ & nic0 & nic1 & nic2 & _ & _ & _ & Hr).
  rewrite Ha in Hr. injection Hr as ->. simpl.
  repeat split.
  apply lookup_lt_Some in Hd.
  destruct (declared_at _ _ _ _ _ Hl (randomHandle vnet) IRANDOM) as (dr & Hdr & _ & Hres).
  { unfold_bases. lia. }
  { apply plan_IRANDOM. }
  exists (randomHandle vnet), dr, randomOsDiskIdArgs.
  split; [exact Hdr|]. split; [exact Hres|].
  intros result Hc. apply conforms_randomOsDiskIdArgs in Hc as (H8 & Hall & Hlo & Hdi).
  split.
  - unfold resolve. simpl. rewrite string_app_empty_r. unfold nameSuffix.
    rewrite !string_app_assoc. reflexivity.
  - split; [exact H8|]. split; [exact Hall|]. lia.
Qed.

Lemma os_disk_witness :
  ∃ d a,
    declared (run Examples.host Examples.tags Examples.vnet Examples.vm).2 !! 9 = Some d
    ∧ resource d = VirtualMachine a
    ∧ conforms randomOsDiskIdArgs "a1b2c3d4" = true
    ∧ resolve (λ _, "a1b2c3d4") (OSDiskArgs.Name (VirtualMachineArgs.OsDisk a))
      = "os-panos-vm-dev-a1b2c3d4".
Proof.
  eexists _, _.
  assert (H9 : declared (run Examples.host Examples.tags Examples.vnet Examples.vm).2 !! 9
               = Some _) by (vm_compute; reflexivity).
  split; [exact H9|]. split; [reflexivity|]. split; [reflexivity|].
  destruct (os_disk _ _ _ _ 9 _ _ H9 eq_refl) as (_ & _ & _ & _ & h & dr & ar & Hh & Har & H).
  assert (ar = randomOsDiskIdArgs) as ->.
  { pose proof (run_follows_plan Examples.host Examples.tags Examples.vnet Examples.vm) as Hl.
    exact (proj2 (random_string_inv _ _ _ _ _ Hl h dr ar Hh Har)). }
  exact (proj1 (H (λ _, "a1b2c3d4") eq_refl)).
Defined.

(** C10. The random string is declared with length 8, lowercase letters and
    digits switched on, at least 4 of each, and uppercase and special
    characters switched off; so every string the provider may generate for
    it has exactly 4 lowercase letters and exactly 4 digits. *)
Theorem random_identifier host tags vnet vm i d a :
  declared (run host tags vnet vm).2 !! i = Some d →
  resource d = RandomString a →
  RandomStringArgs.Length a = 8%Z
  ∧ RandomStringArgs.Lower a = true
  ∧ RandomStringArgs.MinLower a = 4%Z
  ∧ RandomStringArgs.Numeric a = true
  ∧ RandomStringArgs.MinNumeric a = 4%Z
  ∧ RandomStringArgs.Special a = false
  ∧ RandomStringArgs.Upper a = false
  ∧ ∀ r, conforms a r = true →
         count_chars is_lower r = 4 ∧ count_chars is_digit r = 4.
Proof.
  intros Hd Ha.
  pose proof (run_follows_plan host tags vnet vm) as Hl.
  destruct (random_string_inv _ _ _ _ _ Hl i d a Hd Ha) as [_ ->].
  repeat split; try reflexivity.
  all: apply conforms_randomOsDiskIdArgs in H; apply H.
Qed.

Lemma random_identifier_witness :
  ∃ d a,
    declared (run Examples.host Examples.tags Examples.vnet Examples.vm).2 !! 8 = Some d
    ∧ resource d = RandomString a
    ∧ conforms a "a1b2c3d4" = true
    ∧ count_chars is_lower "a1b2c3d4" = 4 ∧ count_chars is_digit "a1b2c3d4" = 4.
Proof.
  eexists _, _.
  assert (H8 : declared (run Examples.host Examples.tags Examples.vnet Examples.vm).2 !! 8
               = Some _) by (vm_compute; reflexivity).
  split; [exact H8|]. split; [reflexivity|]. split; [reflexivity|].
  destruct (random_identifier _ _ _ _ 8 _ _ H8 eq_refl) as (_ & _ & _ & _ & _ & _ & _ & H).
  exact (H "a1b2c3d4" eq_refl).
Defined.

(** C3, as stated, fails: when a public IP is configured under the empty
    name, the interface whose [pipName] is empty is declared with that public
    IP. *)
Lemma nic_binding_counterexample :
  ¬ nic_binding_as_stated Examples.host Examples.tags Examples.vnet_empty_pip Examples.vm.
Proof.
  intros H.
  destruct (declared (run Examples.host Examples.tags Examples.vnet_empty_pip
                        Examples.vm).2 !! (nicBase Examples.vnet_empty_pip + 1))
    as [d|] eqn:E; [|vm_compute in E; discriminate E].
  destruct (H 1 (Examples.nic "data" "" "s0") d eq_refl E)
    as (a & ipc & Hres & Hip & _ & _ & _ & Hnone).
  specialize (Hnone (or_introl eq_refl)).
  vm_compute in E. injection E as <-.
  simpl in Hres. injection Hres as <-.
  simpl in Hip. injection Hip as <-.
  discriminate Hnone.
Qed.

(** C3, amended. The declaration of every configured interface carries exactly
    one IP configuration, named [ipconfig], on the subnet its [snetName]
    resolves to; its public IP is what the public-IP index holds at
    [pipName]: the handle of the declared public IP of that name if one is
    configured, an empty [pipName] included, and nothing exactly when no
    configured public IP has that name. *)
Theorem nic_ip_configuration host tags vnet vm j x d :
  VNET.NIC vnet !! j = Some x →
  declared (run host tags vnet vm).2 !! (nicBase vnet + j) = Some d →
  ∃ a snetId,
    resource d = NetworkInterface a
    ∧ NetworkInterfaceArgs.IpConfigurations a =
        [ {| NetworkInterfaceIPConfigurationArgs.Name := "ipconfig";
             NetworkInterfaceIPConfigurationArgs.Subnet := snetId;
             NetworkInterfaceIPConfigurationArgs.PublicIPAddress :=
               pipIndex vnet (NIC.PipName x) |} ]
    ∧ snetIndex vnet (NIC.SnetName x) = Some snetId
    ∧ names_declared KSubnet ("snet-" +:+ NIC.SnetName x)
        (declared (run host tags vnet vm).2) snetId
    ∧ (∀ pip, pipIndex vnet (NIC.PipName x) = Some pip →
         names_declared KPublicIPAddress
           ("pip-" +:+ NIC.PipName x +:+ "-" +:+ nameSuffix host)
           (declared (run host tags vnet vm).2) pip)
    ∧ (pipIndex vnet (NIC.PipName x) = None
       ↔ NIC.PipName x ∉ (PIP.Name <$> VNET.PIP vnet)).
Proof.
  intros Hx Hd.
  pose proof (run_follows_plan host tags vnet vm) as Hl.
  destruct (Hl _ _ Hd) as (it & Hit & Hdec).
  rewrite plan_INIC in Hit by (eapply lookup_lt_Some; exact Hx).
  rewrite Hx in Hit. injection Hit as <-.
  destruct Hdec as (_ & snetId & Hsnet & Hres).
  apply lookup_lt_Some in Hd. apply lookup_lt_Some in Hx.
  eexists _, snetId. split; [exact Hres|]. simpl.
  split; [reflexivity|]. split; [exact Hsnet|]. split; [|split].
  - apply (snetIndex_declared _ _ _ _ _ Hl); [exact Hsnet|].
    apply (resolve_in_lt SNET.Name) in Hsnet. unfold_bases. lia.
  - intros pip Hpip. apply (pipIndex_declared _ _ _ _ _ Hl); [exact Hpip|].
    apply (resolve_in_lt PIP.Name) in Hpip. unfold_bases. lia.
  - apply resolve_in_None.
Qed.

Lemma nic_ip_configuration_witness :
  ∃ d a,
    declared (run Examples.host Examples.tags Examples.vnet Examples.vm).2
      !! (nicBase Examples.vnet + 1) = Some d
    ∧ resource d = NetworkInterface a
    ∧ NetworkInterfaceArgs.IpConfigurations a =
        [ {| NetworkInterfaceIPConfigurationArgs.Name := "ipconfig";
             NetworkInterfaceIPConfigurationArgs.Subnet := 4;
             NetworkInterfaceIPConfigurationArgs.PublicIPAddress := None |} ].
Proof.
  eexists _, _.
  assert (Hd : declared (run Examples.host Examples.tags Examples.vnet Examples.vm).2
                 !! (nicBase Examples.vnet + 1) = Some _) by (vm_compute; reflexivity).
  split; [exact Hd|].
  destruct (nic_ip_configuration Examples.host Examples.tags Examples.vnet Examples.vm
              1 (Examples.nic "data" "" "s0") _ eq_refl Hd)
    as (a & snetId & Hres & Hip & _).
  split; [reflexivity|]. reflexivity.
Defined.

Section Unresolved.
Variable host : Host.
Variable tags : Tags.t.
Variable vnet : VNET.t.
Variable vm : VM.t.

End Unresolved.


Lemma unresolved_reference_indistinguishable :
  (run Examples.host Examples.tags Examples.vnet_ghost_nsg Examples.vm).1
    = Panic NilPointerDereference
  ∧ run Examples.host Examples.tags Examples.vnet_ghost_nsg Examples.vm
    = run Examples.host Examples.tags Examples.vnet_ghost_rt Examples.vm.
Proof. split; vm_compute; reflexivity. Qed.



(* ===================================================================== *)
(** ** The loops on their own *)
(* ===================================================================== *)

Lemma for_range_Ok {A S} (J : list A → S → RunState → Prop)
    (body : A → S → M S) (l : list A) acc s acc' s' :
  for_range l body acc s = (Ok acc', s') →
  (∀ done x acc1 s1 acc2 s2,
     J done acc1 s1 → body x acc1 s1 = (Ok acc2, s2) → J (done ++ [x]) acc2 s2) →
  J [] acc s → J l acc' s'.
Proof.
  intros Hrun Hbody.
  assert (∀ done, J done acc s → J (done ++ l) acc' s') as H; [|apply (H [])].
  revert acc s Hrun. induction l as [|x l IH]; intros acc s Hrun done HJ.
  - simpl in Hrun. injection Hrun as <- <-. rewrite app_nil_r. exact HJ.
  - simpl in Hrun. unfold bind in Hrun.
    destruct (body x acc s) as [[acc1|e|p] s1] eqn:E; try discriminate Hrun.
    rewrite (cons_middle x done l), app_assoc.
    apply (IH acc1 s1 Hrun). apply (Hbody done x acc s acc1 s1 HJ E).
Qed.

Section Loops.
Variable host : Host.
Variable tags : Tags.t.

Lemma declare_Ok d s h s' :
  declare host d s = (Ok h, s') →
  h = length (declared s) ∧ declared s' = declared s ++ [d].
Proof.
  unfold declare. destruct (RegisterResource host (declared s) d); [discriminate|].
  intros H. injection H as <- <-. split; reflexivity.
Qed.

Lemma ID_Ok o s h s' : ID o s = (Ok h, s') → s' = s.
Proof. destruct o; simpl; [|discriminate]. intros H. injection H as _ <-. reflexivity. Qed.

Lemma index_inv_start s0 : index_inv s0 [] ∅ s0.
Proof.
  split; [apply firstn_all|]. split; [simpl; lia|]. apply indexes_empty.
Qed.

Lemma index_inv_step s0 names m s d n s' :
  index_inv s0 names m s →
  declared s' = declared s ++ [d] →
  index_inv s0 (names ++ [n]) (<[n := length (declared s)]> m) s'.
Proof.
  intros (Hpre & Hlen & Hidx) Hs'. split; [|split].
  - rewrite Hs', take_app_le by lia. exact Hpre.
  - rewrite Hs', !length_app. simpl. lia.
  - rewrite Hlen. apply indexes_insert. exact Hidx.
Qed.

Lemma index_inv_builds s0 names m s :
  index_inv s0 names m s →
  take (length (declared s0)) (declared s) = declared s0
  ∧ length (declared s) = length (declared s0) + length names
  ∧ ∀ n h,
      m !! n = Some h
      ↔ ∃ j, h = length (declared s0) + j ∧ last_named id names n j.
Proof.
  intros (Hpre & Hlen & Hidx). split; [exact Hpre|]. split; [exact Hlen|].
  intros n h. rewrite Hidx. rewrite <- (list_fmap_id names) at 1.
  apply (resolve_in_last_named id).
Qed.

Lemma nsg_loop_builds_index l rg :
  builds_index (for_range l (nsg_body host tags rg) ∅) (NSG.Name <$> l).
Proof.
  intros s m s' Hrun. apply index_inv_builds.
  apply (for_range_Ok (λ done m s1, index_inv s (NSG.Name <$> done) m s1) _ _ _ _ _ _ Hrun);
    [|apply index_inv_start].
  intros done x m1 s1 m2 s2 HJ Hbody. rewrite fmap_app. simpl.
  unfold nsg_body, NewNetworkSecurityGroup, bind in Hbody.
  destruct (declare host _ s1) as [[h|e|p] s3] eqn:E; try discriminate Hbody.
  injection Hbody as <- <-. apply declare_Ok in E as [-> E].
  eapply index_inv_step; eassumption.
Qed.

Lemma rt_loop_builds_index l rg nsgMap :
  builds_index (for_range l (rt_body host tags rg nsgMap) ∅) (RT.Name <$> l).
Proof.
  intros s m s' Hrun. apply index_inv_builds.
  apply (for_range_Ok (λ done m s1, index_inv s (RT.Name <$> done) m s1) _ _ _ _ _ _ Hrun);
    [|apply index_inv_start].
  intros done x m1 s1 m2 s2 HJ Hbody. rewrite fmap_app. simpl.
  unfold rt_body, NewRouteTable, bind in Hbody.
  destruct (declare host _ s1) as [[h|e|p] s3] eqn:E; try discriminate Hbody.
  injection Hbody as <- <-. apply declare_Ok in E as [-> E].
  eapply index_inv_step; eassumption.
Qed.

Lemma index_of_Ok {B} (loop : M (gmap string Handle * B)) s m s' :
  index_of loop s = (Ok m, s') → ∃ b, loop s = (Ok (m, b), s').
Proof.
  unfold index_of, bind. destruct (loop s) as [[[m1 b]|e|p] s1]; try discriminate.
  simpl. intros H. injection H as <- <-. eauto.
Qed.

Lemma snet_loop_builds_index l rg vn nsgMap rtMap deps :
  builds_index
    (index_of (for_range l (snet_body host rg vn nsgMap rtMap deps) (∅, [])))
    (SNET.Name <$> l).
Proof.
  intros s m s' Hrun. apply index_of_Ok in Hrun as [b Hrun]. apply index_inv_builds.
  apply (for_range_Ok (λ done acc s1, index_inv s (SNET.Name <$> done) acc.1 s1)
           _ _ _ _ _ _ Hrun); [|apply index_inv_start].
  intros done x [m1 r1] s1 acc2 s2 HJ Hbody. rewrite fmap_app. simpl in *.
  unfold snet_body, NewSubnet, bind in Hbody.
  destruct (ID (nsgMap !! SNET.NSGName x) s1) as [[nsgId|e|p] s3] eqn:E1;
    try discriminate Hbody. apply ID_Ok in E1 as ->.
  destruct (ID (rtMap !! SNET.RTName x) s1) as [[rtId|e|p] s3] eqn:E2;
    try discriminate Hbody. apply ID_Ok in E2 as ->.
  destruct (declare host _ s1) as [[h|e|p] s3] eqn:E; try discriminate Hbody.
  injection Hbody as <- <-. apply declare_Ok in E as [-> E]. simpl.
  eapply index_inv_step; eassumption.
Qed.

Lemma pip_loop_builds_index l rg deps :
  builds_index (index_of (for_range l (pip_body host tags rg deps) (∅, [])))
    (PIP.Name <$> l).
Proof.
  intros s m s' Hrun. apply index_of_Ok in Hrun as [b Hrun]. apply index_inv_builds.
  apply (for_range_Ok (λ done acc s1, index_inv s (PIP.Name <$> done) acc.1 s1)
           _ _ _ _ _ _ Hrun); [|apply index_inv_start].
  intros done x [m1 r1] s1 acc2 s2 HJ Hbody. rewrite fmap_app. simpl in *.
  unfold pip_body, NewPublicIPAddress, bind in Hbody.
  destruct (declare host _ s1) as [[h|e|p] s3] eqn:E; try discriminate Hbody.
  injection Hbody as <- <-. apply declare_Ok in E as [-> E]. simpl.
  eapply index_inv_step; eassumption.
Qed.

Lemma nic_loop_builds_index l rg snetMap pipMap deps :
  builds_index
    (index_of (for_range l (nic_body host tags rg snetMap pipMap deps) (∅, [])))
    (NIC.Name <$> l).
Proof.
  intros s m s' Hrun. apply index_of_Ok in Hrun as [b Hrun]. apply index_inv_builds.
  apply (for_range_Ok (λ done acc s1, index_inv s (NIC.Name <$> done) acc.1 s1)
           _ _ _ _ _ _ Hrun); [|apply index_inv_start].
  intros done x [m1 r1] s1 acc2 s2 HJ Hbody. rewrite fmap_app. simpl in *.
  unfold nic_body, NewNetworkInterface, bind in Hbody.
  destruct (ID (snetMap !! NIC.SnetName x) s1) as [[snetId|e|p] s3] eqn:E1;
    try discriminate Hbody. apply ID_Ok in E1 as ->.
  destruct (declare host _ s1) as [[h|e|p] s3] eqn:E; try discriminate Hbody.
  injection Hbody as <- <-. apply declare_Ok in E as [-> E]. simpl.
  eapply index_inv_step; eassumption.
Qed.
End Loops.

Section RefersToLast.
Variable host : Host.
Variable tags : Tags.t.
Variable vnet : VNET.t.
Variable vm : VM.t.
Variable l : list Declaration.
Hypothesis Hl : follows_plan host tags vnet vm l.

Lemma index_refers_to_last {A} (nm : A → string) (item : A → Item)
    (entries : list A) base n h :
  (∀ j x, entries !! j = Some x → plan vnet !! (base + j) = Some (item x)) →
  resolve_in base (nm <$> entries) n = Some h → h < length l →
  refers_to_last host tags vnet vm nm item entries base l n h.
Proof.
  intros Hplan Hn Hlt.
  apply resolve_in_last_named in Hn as (j & -> & x & Hx & Hnx & Hlast).
  destruct (declared_at _ _ _ _ _ Hl (base + j) (item x) Hlt (Hplan j x Hx))
    as (d & Hd & Hdec).
  exists j, x, d. repeat split; assumption.
Qed.

Lemma plan_at_INSG j x :
  VNET.NSG vnet !! j = Some x → plan vnet !! (nsgBase + j) = Some (INSG x).
Proof.
  intros Hx. rewrite plan_INSG by (eapply lookup_lt_Some; exact Hx).
  rewrite Hx. reflexivity.
Qed.

Lemma plan_at_IRT j x :
  VNET.RT vnet !! j = Some x → plan vnet !! (rtBase vnet + j) = Some (IRT x).
Proof.
  intros Hx. rewrite plan_IRT by (eapply lookup_lt_Some; exact Hx).
  rewrite Hx. reflexivity.
Qed.

Lemma plan_at_ISNET j x :
  VNET.SNET vnet !! j = Some x → plan vnet !! (snetBase vnet + j) = Some (ISNET x).
Proof.
  intros Hx. rewrite plan_ISNET by (eapply lookup_lt_Some; exact Hx).
  rewrite Hx. reflexivity.
Qed.

Lemma plan_at_IPIP j x :
  VNET.PIP vnet !! j = Some x → plan vnet !! (pipBase vnet + j) = Some (IPIP x).
Proof.
  intros Hx. rewrite plan_IPIP by (eapply lookup_lt_Some; exact Hx).
  rewrite Hx. reflexivity.
Qed.

Lemma plan_at_INIC j x :
  VNET.NIC vnet !! j = Some x → plan vnet !! (nicBase vnet + j) = Some (INIC x).
Proof.
  intros Hx. rewrite plan_INIC by (eapply lookup_lt_Some; exact Hx).
  rewrite Hx. reflexivity.
Qed.
End RefersToLast.

(** C9. Each of the five loops makes one declaration per configured entry,
    entries of the same name included, and leaves an index that sends a name
    to the handle of the last entry of that name.  In the trace of a run,
    the references of a subnet to its security group and route table, of an
    interface to its subnet and public IP, and of the virtual machine to its
    three interfaces are the declarations of the last configured entry of
    the name they were given. *)
Theorem last_declaration_wins host tags vnet vm :
  (∀ rg,
     builds_index (for_range (VNET.NSG vnet) (nsg_body host tags rg) ∅)
       (NSG.Name <$> VNET.NSG vnet))
  ∧ (∀ rg nsgMap,
       builds_index (for_range (VNET.RT vnet) (rt_body host tags rg nsgMap) ∅)
         (RT.Name <$> VNET.RT vnet))
  ∧ (∀ rg vn nsgMap rtMap deps,
       builds_index
         (index_of (for_range (VNET.SNET vnet)
                      (snet_body host rg vn nsgMap rtMap deps) (∅, [])))
         (SNET.Name <$> VNET.SNET vnet))
  ∧ (∀ rg deps,
       builds_index
         (index_of (for_range (VNET.PIP vnet) (pip_body host tags rg deps) (∅, [])))
         (PIP.Name <$> VNET.PIP vnet))
  ∧ (∀ rg snetMap pipMap deps,
       builds_index
         (index_of (for_range (VNET.NIC vnet)
                      (nic_body host tags rg snetMap pipMap deps) (∅, [])))
         (NIC.Name <$> VNET.NIC vnet))
  ∧ (∀ j x d,
       VNET.SNET vnet !! j = Some x →
       declared (run host tags vnet vm).2 !! (snetBase vnet + j) = Some d →
       ∃ a,
         resource d = Subnet a
         ∧ refers_to_last host tags vnet vm NSG.Name INSG (VNET.NSG vnet) nsgBase
             (declared (run host tags vnet vm).2)
             (SNET.NSGName x) (SubnetArgs.NetworkSecurityGroup a)
         ∧ refers_to_last host tags vnet vm RT.Name IRT (VNET.RT vnet) (rtBase vnet)
             (declared (run host tags vnet vm).2)
             (SNET.RTName x) (SubnetArgs.RouteTable a))
  ∧ (∀ j x d,
       VNET.NIC vnet !! j = Some x →
       declared (run host tags vnet vm).2 !! (nicBase vnet + j) = Some d →
       ∃ a ipc,
         resource d = NetworkInterface a
         ∧ NetworkInterfaceArgs.IpConfigurations a = [ipc]
         ∧ refers_to_last host tags vnet vm SNET.Name ISNET (VNET.SNET vnet)
             (snetBase vnet) (declared (run host tags vnet vm).2)
             (NIC.SnetName x) (NetworkInterfaceIPConfigurationArgs.Subnet ipc)
         ∧ ∀ pip,
             NetworkInterfaceIPConfigurationArgs.PublicIPAddress ipc = Some pip →
             refers_to_last host tags vnet vm PIP.Name IPIP (VNET.PIP vnet)
               (pipBase vnet) (declared (run host tags vnet vm).2)
               (NIC.PipName x) pip)
  ∧ (∀ d,
       declared (run host tags vnet vm).2 !! vmHandle vnet = Some d →
       ∃ a r0 r1 r2,
         resource d = VirtualMachine a
         ∧ VirtualMachineArgs.NetworkInterfaces a = [r0; r1; r2]
         ∧ refers_to_last host tags vnet vm NIC.Name INIC (VNET.NIC vnet)
             (nicBase vnet) (declared (run host tags vnet vm).2)
             (NICMAP.Nic0 (VM.NicMap vm)) (NetworkInterfaceReferenceArgs.Id r0)
         ∧ refers_to_last host tags vnet vm NIC.Name INIC (VNET.NIC vnet)
             (nicBase vnet) (declared (run host tags vnet vm).2)
             (NICMAP.Nic1 (VM.NicMap vm)) (NetworkInterfaceReferenceArgs.Id r1)
         ∧ refers_to_last host tags vnet vm NIC.Name INIC (VNET.NIC vnet)
             (nicBase vnet) (declared (run host tags vnet vm).2)
             (NICMAP.Nic2 (VM.NicMap vm)) (NetworkInterfaceReferenceArgs.Id r2)).
Proof.
  pose proof (run_follows_plan host tags vnet vm) as Hl.
  split; [intros; apply nsg_loop_builds_index|].
  split; [intros; apply rt_loop_builds_index|].
  split; [intros; apply snet_loop_builds_index|].
  split; [intros; apply pip_loop_builds_index|].
  split; [intros; apply nic_loop_builds_index|].
  split; [|split].
  - intros j x d Hx Hd.
    destruct (Hl _ _ Hd) as (it & Hit & Hdec).
    rewrite (plan_at_ISNET vnet j x Hx) in Hit. injection Hit as <-.
    destruct Hdec as (_ & nsgId & rtId & Hn & Hr & Hres).
    apply lookup_lt_Some in Hd. apply lookup_lt_Some in Hx.
    eexists. split; [exact Hres|]. simpl. split.
    + apply (index_refers_to_last _ _ _ _ _ Hl); [apply plan_at_INSG|exact Hn|].
      apply (resolve_in_lt NSG.Name) in Hn. unfold_bases. simpl. lia.
    + apply (index_refers_to_last _ _ _ _ _ Hl); [apply plan_at_IRT|exact Hr|].
      apply (resolve_in_lt RT.Name) in Hr. unfold_bases. simpl. lia.
  - intros j x d Hx Hd.
    destruct (Hl _ _ Hd) as (it & Hit & Hdec).
    rewrite (plan_at_INIC vnet j x Hx) in Hit. injection Hit as <-.
    destruct Hdec as (_ & snetId & Hs & Hres).
    apply lookup_lt_Some in Hd. apply lookup_lt_Some in Hx.
    eexists _, _. split; [exact Hres|]. simpl. split; [reflexivity|]. split.
    + apply (index_refers_to_last _ _ _ _ _ Hl); [apply plan_at_ISNET|exact Hs|].
      apply (resolve_in_lt SNET.Name) in Hs. unfold_bases. simpl. lia.
    + intros pip Hp.
      apply (index_refers_to_last _ _ _ _ _ Hl); [apply plan_at_IPIP|exact Hp|].
      apply (resolve_in_lt PIP.Name) in Hp. unfold_bases. simpl. lia.
  - intros d Hd.
    destruct (Hl _ _ Hd) as (it & Hit & Hdec).
    rewrite plan_IVM in Hit. injection Hit as <-.
    destruct Hdec as (_ & nic0 & nic1 & nic2 & H0 & H1 & H2 & Hres).
    apply lookup_lt_Some in Hd.
    eexists _, _, _, _. split; [exact Hres|]. simpl. split; [reflexivity|]. simpl.
    repeat split.
    all: apply (index_refers_to_last _ _ _ _ _ Hl); [apply plan_at_INIC|assumption|].
    all: match goal with
         | H : nicIndex _ _ = Some ?h |- ?h < _ =>
             apply (resolve_in_lt NIC.Name) in H; unfold_bases; simpl; lia
         end.
Qed.

Lemma last_declaration_wins_witness :
  ∃ d a,
    declared (run Examples.host Examples.tags Examples.vnet_duplicates Examples.vm).2
      !! (snetBase Examples.vnet_duplicates + 0) = Some d
    ∧ resource d = Subnet a
    ∧ SubnetArgs.NetworkSecurityGroup a = 2
    ∧ refers_to_last Examples.host Examples.tags Examples.vnet_duplicates Examples.vm
        NSG.Name INSG (VNET.NSG Examples.vnet_duplicates) nsgBase
        (declared (run Examples.host Examples.tags Examples.vnet_duplicates
                     Examples.vm).2)
        "nsg-mgmt" 2.
Proof.
  eexists _, _.
  assert (Hd : declared (run Examples.host Examples.tags Examples.vnet_duplicates
                           Examples.vm).2
                 !! (snetBase Examples.vnet_duplicates + 0) = Some _)
    by (vm_compute; reflexivity).
  split; [exact Hd|]. split; [reflexivity|]. split; [reflexivity|].
  destruct (last_declaration_wins Examples.host Examples.tags Examples.vnet_duplicates
              Examples.vm) as (_ & _ & _ & _ & _ & H & _).
  destruct (H 0 (Examples.snet "s0" "nsg-mgmt" "rt-mgmt") _ eq_refl Hd)
    as (a & Ha & Hnsg & _).
  injection Ha as <-. exact Hnsg.
Defined.

(* ===================================================================== *)
(** ** How a run ends *)
(* ===================================================================== *)

Section Outcome.
Variable host : Host.
Variable tags : Tags.t.
Variable vnet : VNET.t.
Variable vm : VM.t.

Lemma declares_not_unresolved it d :
  declares host tags vnet vm it d → ¬ unresolved vnet vm it.
Proof.
  destruct it; simpl; intros Hdec Hun; try exact Hun.
  - destruct Hdec as (Hname & a & b & Hn & Hr & Hres). destruct Hun; congruence.
  - destruct Hdec as (Hname & a & Hs & Hres). congruence.
  - destruct Hdec as (Hname & a & b & c & H0 & H1 & H2 & Hres).
    destruct Hun as [Hu|[Hu|Hu]]; congruence.
Qed.

Lemma unresolved_item_not_declared l k it :
  follows_plan host tags vnet vm l →
  plan vnet !! k = Some it → unresolved vnet vm it →
  length l ≤ k.
Proof.
  intros Hl Hit Hun. apply Nat.nlt_ge. intros Hlt.
  destruct (declared_at _ _ _ _ _ Hl k it Hlt Hit) as (d & _ & Hdec).
  exact (declares_not_unresolved it d Hdec Hun).
Qed.

Lemma resolved_item it :
  all_resolved vnet vm → In it (plan vnet) → ¬ unresolved vnet vm it.
Proof.
  intros (Hs & Hn & H0 & H1 & H2) Hin Hun.
  apply list_elem_of_In, list_elem_of_lookup in Hin as [k Hk].
  apply plan_lookup_inv in Hk.
  destruct it; simpl in Hun; try exact Hun.
  - destruct Hk as (j & _ & Hj). apply list_elem_of_lookup_2 in Hj.
    destruct (Hs x Hj) as [Ha Hb].
    destruct Hun as [Hun|Hun]; apply resolve_in_None in Hun; contradiction.
  - destruct Hk as (j & _ & Hj). apply list_elem_of_lookup_2 in Hj.
    apply resolve_in_None in Hun. exact (Hun (Hn x Hj)).
  - destruct Hun as [Hun|[Hun|Hun]]; apply resolve_in_None in Hun; contradiction.
Qed.

(** On a host that accepts everything, a run with a readable readme either
    completes or panics. *)
Lemma run_accepting readme :
  ReadFile host "./README.md" = inl readme → accepts_all host →
  (run host tags vnet vm).1 = Ok tt
  ∨ (run host tags vnet vm).1 = Panic NilPointerDereference.
Proof.
  intros E Hhost. pose proof (run_readable host tags vnet vm readme E) as H.
  destruct (run host tags vnet vm) as [[[]|e|p] s]; simpl.
  - left. reflexivity.
  - destruct H as (k & it & d & _ & _ & _ & H). rewrite Hhost in H. discriminate H.
  - right. destruct p. reflexivity.
Qed.

(** A completed run has made every declaration of the plan. *)
Lemma run_Ok_length :
  (run host tags vnet vm).1 = Ok tt →
  length (declared (run host tags vnet vm).2) = length (plan vnet).
Proof.
  intros Hr.
  destruct (ReadFile host "./README.md") as [readme|err] eqn:E.
  - pose proof (run_readable host tags vnet vm readme E) as H.
    destruct (run host tags vnet vm) as [[[]|e|p] s]; simpl in *; try discriminate Hr.
    apply H.
  - rewrite (run_unreadable host tags vnet vm err E) in Hr. discriminate Hr.
Qed.

Lemma length_plan_sum :
  length (plan vnet)
  = length (VNET.NSG vnet) + length (VNET.RT vnet) + length (VNET.SNET vnet)
    + length (VNET.PIP vnet) + length (VNET.NIC vnet) + 4.
Proof. rewrite length_plan. unfold_bases. lia. Qed.
End Outcome.

(** X1. With a readable readme, a host runtime that refuses nothing and a
    configuration in which every looked-up name is configured, the run
    returns nil and has made one declaration per configured entry plus
    four: resource group, virtual network, random string, virtual machine. *)
Theorem run_completes host tags vnet vm readme :
  ReadFile host "./README.md" = inl readme →
  accepts_all host →
  all_resolved vnet vm →
  (run host tags vnet vm).1 = Ok tt
  ∧ length (declared (run host tags vnet vm).2)
    = length (VNET.NSG vnet) + length (VNET.RT vnet) + length (VNET.SNET vnet)
      + length (VNET.PIP vnet) + length (VNET.NIC vnet) + 4.
Proof.
  intros E Hhost Hres.
  assert (Hok : (run host tags vnet vm).1 = Ok tt).
  { pose proof (run_readable host tags vnet vm readme E) as H.
    destruct (run host tags vnet vm) as [[[]|e|p] s]; simpl.
    - reflexivity.
    - destruct H as (k & it & d & _ & _ & _ & H). rewrite Hhost in H. discriminate H.
    - exfalso. destruct H as (k & it & _ & Hit & Hun & _).
      apply (resolved_item vnet vm it Hres); [|exact Hun].
      apply list_elem_of_In. eapply list_elem_of_lookup_2. exact Hit. }
  split; [exact Hok|].
  rewrite (run_Ok_length host tags vnet vm Hok). apply length_plan_sum.
Qed.

Lemma run_completes_witness :
  (run Examples.host Examples.tags Examples.vnet Examples.vm).1 = Ok tt
  ∧ length (declared (run Examples.host Examples.tags Examples.vnet Examples.vm).2) = 10.
Proof.
  apply (run_completes Examples.host Examples.tags Examples.vnet Examples.vm "# panos-vm").
  - reflexivity.
  - intros l d. reflexivity.
  - unfold all_resolved. rewrite <- !Forall_forall. simpl.
    repeat split; repeat constructor.
Defined.

(** X2. A run that returns nil has read the readme, has made every declaration
    of the plan, and ran on a configuration in which every looked-up name is
    configured. *)
Theorem completed_run host tags vnet vm :
  (run host tags vnet vm).1 = Ok tt →
  (∃ readme, ReadFile host "./README.md" = inl readme)
  ∧ length (declared (run host tags vnet vm).2)
    = length (VNET.NSG vnet) + length (VNET.RT vnet) + length (VNET.SNET vnet)
      + length (VNET.PIP vnet) + length (VNET.NIC vnet) + 4
  ∧ all_resolved vnet vm.
Proof.
  intros Hok.
  pose proof (run_Ok_length host tags vnet vm Hok) as Hlen.
  pose proof (run_follows_plan host tags vnet vm) as Hl.
  split; [|split].
  - destruct (ReadFile host "./README.md") as [readme|err] eqn:E; [eauto|].
    rewrite (run_unreadable host tags vnet vm err E) in Hok. discriminate Hok.
  - rewrite Hlen. apply length_plan_sum.
  - assert (Hres : ∀ k it, plan vnet !! k = Some it → ¬ unresolved vnet vm it).
    { intros k it Hit Hun.
      pose proof (unresolved_item_not_declared host tags vnet vm _ k it Hl Hit Hun) as H.
      apply lookup_lt_Some in Hit. lia. }
    assert (Hin : ∀ base names n, resolve_in base names n ≠ None → n ∈ names).
    { intros base names n H. destruct (decide (n ∈ names)) as [|Hn]; [assumption|].
      apply (proj2 (resolve_in_None base names n)) in Hn. contradiction. }
    repeat split.
    + apply list_elem_of_lookup in H as [j Hj].
      apply (Hin nsgBase). intros Hn.
      apply (Hres _ _ (plan_at_ISNET vnet j x Hj)). left. exact Hn.
    + apply list_elem_of_lookup in H as [j Hj].
      apply (Hin (rtBase vnet)). intros Hn.
      apply (Hres _ _ (plan_at_ISNET vnet j x Hj)). right. exact Hn.
    + intros x H. apply list_elem_of_lookup in H as [j Hj].
      apply (Hin (snetBase vnet)). intros Hn.
      apply (Hres _ _ (plan_at_INIC vnet j x Hj)). exact Hn.
    + apply (Hin (nicBase vnet)). intros Hn.
      apply (Hres _ _ (plan_IVM vnet)). left. exact Hn.
    + apply (Hin (nicBase vnet)). intros Hn.
      apply (Hres _ _ (plan_IVM vnet)). right; left. exact Hn.
    + apply (Hin (nicBase vnet)). intros Hn.
      apply (Hres _ _ (plan_IVM vnet)). right; right. exact Hn.
Qed.

Lemma completed_run_witness :
  (run Examples.host Examples.tags Examples.vnet Examples.vm).1 = Ok tt
  ∧ all_resolved Examples.vnet Examples.vm.
Proof.
  assert (H : (run Examples.host Examples.tags Examples.vnet Examples.vm).1 = Ok tt)
    by (vm_compute; reflexivity).
  split; [exact H|].
  exact (proj2 (proj2 (completed_run _ _ _ _ H))).
Defined.

Section Stops.
Variable host : Host.
Variable tags : Tags.t.
Variable vnet : VNET.t.
Variable vm : VM.t.

(** A run never gets past a plan item with a name that does not resolve. *)
Lemma unresolved_stops k it :
  plan vnet !! k = Some it → unresolved vnet vm it →
  (run host tags vnet vm).1 ≠ Ok tt
  ∧ length (declared (run host tags vnet vm).2) ≤ k
  ∧ (∀ readme, ReadFile host "./README.md" = inl readme → accepts_all host →
       (run host tags vnet vm).1 = Panic NilPointerDereference).
Proof.
  intros Hit Hun.
  pose proof (unresolved_item_not_declared host tags vnet vm _ k it
                (run_follows_plan host tags vnet vm) Hit Hun) as Hlen.
  assert (Hnok : (run host tags vnet vm).1 ≠ Ok tt).
  { intros Hok. apply run_Ok_length in Hok. apply lookup_lt_Some in Hit. lia. }
  split; [exact Hnok|]. split; [exact Hlen|].
  intros readme E Hhost.
  destruct (run_accepting host tags vnet vm readme E Hhost) as [H|H];
    [contradiction|exact H].
Qed.

Lemma run_panicked readme p :
  ReadFile host "./README.md" = inl readme →
  (run host tags vnet vm).1 = Panic p →
  ∃ it, plan vnet !! length (declared (run host tags vnet vm).2) = Some it
        ∧ unresolved vnet vm it.
Proof.
  intros E Hr. pose proof (run_readable host tags vnet vm readme E) as H.
  destruct (run host tags vnet vm) as [[[]|e|q] s]; simpl in *; try discriminate Hr.
  destruct H as (k & it & (_ & Hlen & _) & Hit & Hun & _).
  exists it. rewrite Hlen. split; assumption.
Qed.
End Stops.



(** X4. An interface whose [snetName] is not the name of a configured subnet
    stops the run: it does not return nil, neither that interface nor
    anything after it is declared, and with a readable readme on a host
    runtime that refuses nothing the run ends in the nil-pointer panic. *)
Theorem unresolved_subnet_of_nic host tags vnet vm j x :
  VNET.NIC vnet !! j = Some x →
  NIC.SnetName x ∉ (SNET.Name <$> VNET.SNET vnet) →
  (run host tags vnet vm).1 ≠ Ok tt
  ∧ length (declared (run host tags vnet vm).2) ≤ nicBase vnet + j
  ∧ (∀ readme, ReadFile host "./README.md" = inl readme → accepts_all host →
       (run host tags vnet vm).1 = Panic NilPointerDereference).
Proof.
  intros Hx Hn.
  apply (unresolved_stops host tags vnet vm (nicBase vnet + j) (INIC x)).
  - apply plan_at_INIC. exact Hx.
  - simpl. apply resolve_in_None. exact Hn.
Qed.

(** X5. A virtual machine whose [nic0], [nic1] or [nic2] is not the name of a
    configured interface stops the run before the virtual machine is
    declared; when nothing else stops it (readable readme, nothing refused,
    every subnet and interface resolved) the run panics with every other
    declaration made, the random string included. *)
Theorem unresolved_nic_of_vm host tags vnet vm :
  NICMAP.Nic0 (VM.NicMap vm) ∉ (NIC.Name <$> VNET.NIC vnet)
  ∨ NICMAP.Nic1 (VM.NicMap vm) ∉ (NIC.Name <$> VNET.NIC vnet)
  ∨ NICMAP.Nic2 (VM.NicMap vm) ∉ (NIC.Name <$> VNET.NIC vnet) →
  (run host tags vnet vm).1 ≠ Ok tt
  ∧ length (declared (run host tags vnet vm).2) ≤ vmHandle vnet
  ∧ (∀ readme,
       ReadFile host "./README.md" = inl readme → accepts_all host →
       (∀ x, x ∈ VNET.SNET vnet →
             SNET.NSGName x ∈ (NSG.Name <$> VNET.NSG vnet)
             ∧ SNET.RTName x ∈ (RT.Name <$> VNET.RT vnet)) →
       (∀ x, x ∈ VNET.NIC vnet → NIC.SnetName x ∈ (SNET.Name <$> VNET.SNET vnet)) →
       (run host tags vnet vm).1 = Panic NilPointerDereference
       ∧ length (declared (run host tags vnet vm).2) = vmHandle vnet
       ∧ ∃ d, declared (run host tags vnet vm).2 !! randomHandle vnet = Some d
              ∧ resource d = RandomString randomOsDiskIdArgs).
Proof.
  intros Hvm.
  assert (Hun : unresolved vnet vm IVM).
  { simpl. destruct Hvm as [H|[H|H]]; [left|right; left|right; right];
      apply resolve_in_None; exact H. }
  destruct (unresolved_stops host tags vnet vm (vmHandle vnet) IVM (plan_IVM vnet) Hun)
    as (Hnok & Hlen & Hpanic).
  split; [exact Hnok|]. split; [exact Hlen|].
  intros readme E Hhost Hsnet Hnic.
  pose proof (Hpanic readme E Hhost) as Hp. split; [exact Hp|].
  destruct (run_panicked host tags vnet vm readme _ E Hp) as (it & Hit & Hit_un).
  assert (Heq : length (declared (run host tags vnet vm).2) = vmHandle vnet).
  { pose proof Hit as Hpos. apply plan_lookup_inv in Hpos.
    destruct it; simpl in Hit_un; try contradiction.
    - exfalso. destruct Hpos as (j & _ & Hj). apply list_elem_of_lookup_2 in Hj.
      destruct (Hsnet x Hj) as [Ha Hb].
      destruct Hit_un as [Hu|Hu]; apply resolve_in_None in Hu; contradiction.
    - exfalso. destruct Hpos as (j & _ & Hj). apply list_elem_of_lookup_2 in Hj.
      apply resolve_in_None in Hit_un. exact (Hit_un (Hnic x Hj)).
    - exact Hpos. }
  split; [exact Heq|].
  destruct (declared_at host tags vnet vm _ (run_follows_plan host tags vnet vm)
              (randomHandle vnet) IRANDOM) as (d & Hd & _ & Hres).
  { rewrite Heq. unfold vmHandle. lia. }
  { apply plan_IRANDOM. }
  eauto.
Qed.

Lemma unresolved_subnet_of_nic_witness :
  VNET.NIC MoreExamples.vnet_ghost_snet !! 0 = Some (Examples.nic "mgmt" "pip-mgmt" "s-ghost")
  ∧ (run Examples.host Examples.tags MoreExamples.vnet_ghost_snet Examples.vm).1
    = Panic NilPointerDereference
  ∧ length (declared (run Examples.host Examples.tags MoreExamples.vnet_ghost_snet
                        Examples.vm).2) ≤ 6.
Proof.
  split; [reflexivity|].
  destruct (unresolved_subnet_of_nic Examples.host Examples.tags
              MoreExamples.vnet_ghost_snet Examples.vm 0
              (Examples.nic "mgmt" "pip-mgmt" "s-ghost") eq_refl)
    as (_ & Hlen & Hpanic).
  - simpl. intros Hin. apply list_elem_of_singleton in Hin. discriminate Hin.
  - split; [|exact Hlen].
    apply (Hpanic "# panos-vm" eq_refl). intros l d. reflexivity.
Defined.

Lemma unresolved_nic_of_vm_witness :
  (run Examples.host Examples.tags Examples.vnet MoreExamples.vm_ghost_nic).1
    = Panic NilPointerDereference
  ∧ length (declared (run Examples.host Examples.tags Examples.vnet
                        MoreExamples.vm_ghost_nic).2) = 9.
Proof.
  destruct (unresolved_nic_of_vm Examples.host Examples.tags Examples.vnet
              MoreExamples.vm_ghost_nic) as (_ & _ & H).
  - right; right. simpl. intros Hin.
    apply elem_of_cons in Hin as [Hin|Hin]; [discriminate Hin|].
    apply list_elem_of_singleton in Hin. discriminate Hin.
  - destruct (H "# panos-vm" eq_refl) as (Hp & Hlen & _).
    + intros l d. reflexivity.
    + rewrite <- Forall_forall. simpl. repeat constructor.
    + rewrite <- Forall_forall. simpl. repeat constructor.
    + split; [exact Hp|exact Hlen].
Defined.

(** X6. When the run returns an error, it is either the readme error, with
    nothing declared, or verbatim the error the host runtime returned for the
    next declaration of the plan; the trace holds the declarations made
    before it and nothing after. *)
Theorem error_returned host tags vnet vm e :
  (run host tags vnet vm).1 = Err e →
  (∃ err, ReadFile host "./README.md" = inr err
          ∧ e = Errorf_w "failed to read readme: " err
          ∧ declared (run host tags vnet vm).2 = [])
  ∨ (∃ it d,
       plan vnet !! length (declared (run host tags vnet vm).2) = Some it
       ∧ declares host tags vnet vm it d
       ∧ RegisterResource host (declared (run host tags vnet vm).2) d = Some e).
Proof.
  intros Hr.
  destruct (ReadFile host "./README.md") as [readme|err] eqn:E.
  - right. pose proof (run_readable host tags vnet vm readme E) as H.
    destruct (run host tags vnet vm) as [[[]|e'|p] s]; simpl in *; try discriminate Hr.
    injection Hr as ->.
    destruct H as (k & it & d & (_ & Hlen & _) & Hit & Hdec & Href).
    exists it, d. rewrite Hlen. auto.
  - left. exists err. rewrite (run_unreadable host tags vnet vm err E) in Hr |- *.
    simpl in *. injection Hr as <-. auto.
Qed.

Lemma error_returned_witness :
  (run MoreExamples.host_refusing_fourth Examples.tags Examples.vnet Examples.vm).1
    = Err (errorString "quota exceeded")
  ∧ ∃ it d,
      plan Examples.vnet
        !! length (declared (run MoreExamples.host_refusing_fourth Examples.tags
                               Examples.vnet Examples.vm).2) = Some it
      ∧ RegisterResource MoreExamples.host_refusing_fourth
          (declared (run MoreExamples.host_refusing_fourth Examples.tags
                       Examples.vnet Examples.vm).2) d
        = Some (errorString "quota exceeded").
Proof.
  assert (H : (run MoreExamples.host_refusing_fourth Examples.tags Examples.vnet
                 Examples.vm).1 = Err (errorString "quota exceeded"))
    by (vm_compute; reflexivity).
  split; [exact H|].
  destruct (error_returned _ _ _ _ _ H) as [(err & Hread & _)|(it & d & Hit & _ & Href)].
  - vm_compute in Hread. discriminate Hread.
  - exists it, d. split; assumption.
Defined.

(* ===================================================================== *)
(** ** Resource options of every declaration *)
(* ===================================================================== *)

Lemma elem_of_range_values (m : gmap string Handle) h :
  h ∈ range_values m ↔ ∃ n, m !! n = Some h.
Proof.
  unfold range_values. rewrite list_elem_of_fmap. split.
  - intros ([n h'] & -> & Hin). apply elem_of_map_to_list in Hin. eauto.
  - intros (n & Hn). exists (n, h). split; [reflexivity|].
    apply elem_of_map_to_list. exact Hn.
Qed.

Lemma seq_snoc base n : seq base n ++ [base + n] = seq base (S n).
Proof. rewrite seq_S. reflexivity. Qed.

Section Wiring.
Variable host : Host.
Variable tags : Tags.t.
Variable vnet : VNET.t.
Variable vm : VM.t.

Local Abbreviation Wired := (Wired vnet).
Local Abbreviation keeps := (keeps vnet).

Lemma keeps_ret {A} (P : RunState → Prop) (a : A) (Q : A → RunState → Prop) :
  (∀ s, P s → Q a s) → keeps P (ret a) Q.
Proof. intros H s Hs. simpl. apply H, Hs. Qed.

Lemma keeps_bind {A B} P (m : M A) R (f : A → M B) Q :
  keeps P m R → (∀ a, keeps (R a) (f a) Q) → keeps P (bind m f) Q.
Proof.
  intros Hm Hf s Hs. unfold bind. specialize (Hm s Hs).
  destruct (m s) as [[a|e|p] s']; [|exact Hm|exact Hm].
  apply Hf. exact Hm.
Qed.

Lemma keeps_conseq {A} (P P' : RunState → Prop) (m : M A) (Q Q' : A → RunState → Prop) :
  (∀ s, P s → P' s) → keeps P' m Q' → (∀ a s, Q' a s → Q a s) → keeps P m Q.
Proof.
  intros HP Hm HQ s Hs. specialize (Hm s (HP s Hs)).
  destruct (m s) as [[a|e|p] s']; auto.
Qed.

Lemma keeps_pure {A} (φ : Prop) P (m : M A) Q :
  (φ → keeps P m Q) → keeps (λ s, φ ∧ P s) m Q.
Proof. intros H s [Hφ Hs]. apply H; assumption. Qed.

Lemma keeps_pure_r {A} (φ : Prop) P (m : M A) Q :
  (φ → keeps P m Q) → keeps (λ s, P s ∧ φ) m Q.
Proof. intros H s [Hs Hφ]. apply H; assumption. Qed.

Lemma keeps_declare k d :
  wired vnet d →
  keeps (Wired k) (declare host d) (λ h s, h = k ∧ Wired (S k) s).
Proof.
  intros Hd s [Hw Hlen]. unfold declare.
  destruct (RegisterResource host (declared s) d); [exact Hw|].
  split; [exact Hlen|]. split; simpl.
  - apply Forall_app. split; [exact Hw|]. constructor; [exact Hd|constructor].
  - rewrite length_app. simpl. lia.
Qed.

Lemma keeps_ID k (o : option Handle) :
  keeps (Wired k) (ID o) (λ h s, o = Some h ∧ Wired k s).
Proof.
  intros s Hs. destruct o as [h|]; simpl; [split; [reflexivity|exact Hs]|apply Hs].
Qed.

Lemma keeps_for_range {A S} (I : list A → S → RunState → Prop)
    (body : A → S → M S) (l : list A) :
  (∀ done x rest acc, l = done ++ x :: rest →
     keeps (I done acc) (body x acc) (λ acc' s, I (done ++ [x]) acc' s)) →
  ∀ acc, keeps (I [] acc) (for_range l body acc) (λ acc' s, I l acc' s).
Proof.
  intros Hbody.
  assert (∀ rest done acc, l = done ++ rest →
    keeps (I done acc) (for_range rest body acc) (λ acc' s, I l acc' s)) as H.
  { induction rest as [|x rest IH]; intros done acc Hl; simpl.
    - apply keeps_ret. intros s Hs. rewrite Hl, app_nil_r. exact Hs.
    - eapply keeps_bind; [apply (Hbody done x rest acc Hl)|].
      intros acc'. apply IH. rewrite <- app_assoc. exact Hl. }
  intros acc. apply H. reflexivity.
Qed.

Lemma Wired_eq k k' s : k = k' → Wired k s → Wired k' s.
Proof. intros ->. exact id. Qed.

Lemma nsg_loop_keeps :
  keeps (Wired nsgBase)
    (for_range (VNET.NSG vnet) (nsg_body host tags 0) ∅)
    (λ nsgMap s, Wired (rtBase vnet) s
                 ∧ indexes nsgBase (NSG.Name <$> VNET.NSG vnet) nsgMap).
Proof.
  eapply keeps_conseq;
    [| apply (keeps_for_range
                (λ done m s, Wired (nsgBase + length done) s
                             ∧ indexes nsgBase (NSG.Name <$> done) m)) |].
  - intros s Hs. cbv beta. split; [|apply indexes_empty].
    eapply Wired_eq; [|exact Hs]. len_side.
  - intros done x rest nsgMap Hl. apply keeps_pure_r. intros Hidx.
    unfold nsg_body, NewNetworkSecurityGroup.
    eapply keeps_bind.
    + apply keeps_declare. split; reflexivity.
    + intros h. apply keeps_pure. intros ->. apply keeps_ret. intros s Hs.
      split.
      * eapply Wired_eq; [|exact Hs]. rewrite length_app. len_side.
      * rewrite fmap_app. simpl. rewrite <- (length_fmap NSG.Name done).
        apply indexes_insert. exact Hidx.
  - intros m s Hs. exact Hs.
Qed.

Lemma rt_loop_keeps nsgMap :
  indexes nsgBase (NSG.Name <$> VNET.NSG vnet) nsgMap →
  keeps (Wired (rtBase vnet))
    (for_range (VNET.RT vnet) (rt_body host tags 0 nsgMap) ∅)
    (λ rtMap s, Wired (vnetHandle vnet) s
                ∧ indexes (rtBase vnet) (RT.Name <$> VNET.RT vnet) rtMap).
Proof.
  intros Hnsg.
  eapply keeps_conseq;
    [| apply (keeps_for_range
                (λ done m s, Wired (rtBase vnet + length done) s
                             ∧ indexes (rtBase vnet) (RT.Name <$> done) m)) |].
  - intros s Hs. cbv beta. split; [|apply indexes_empty].
    eapply Wired_eq; [|exact Hs]. len_side.
  - intros done x rest rtMap Hl. apply keeps_pure_r. intros Hidx.
    unfold rt_body, NewRouteTable.
    eapply keeps_bind.
    + apply keeps_declare. split; [reflexivity|]. simpl. intros h.
      rewrite elem_of_cons, elem_of_range_values. unfold nsgIndex.
      split; (intros [H|(n & H)]; [left; exact H|right; exists n]);
        [rewrite <- Hnsg|rewrite Hnsg]; exact H.
    + intros h. apply keeps_pure. intros ->. apply keeps_ret. intros s Hs.
      split.
      * eapply Wired_eq; [|exact Hs]. rewrite length_app. len_side.
      * rewrite fmap_app. simpl. rewrite <- (length_fmap RT.Name done).
        apply indexes_insert. exact Hidx.
  - intros m s Hs. exact Hs.
Qed.

Lemma network_dependencies nsgMap rtMap h :
  indexes nsgBase (NSG.Name <$> VNET.NSG vnet) nsgMap →
  indexes (rtBase vnet) (RT.Name <$> VNET.RT vnet) rtMap →
  h ∈ range_values nsgMap ++ range_values rtMap
  ↔ (∃ n, nsgIndex vnet n = Some h) ∨ (∃ n, rtIndex vnet n = Some h).
Proof.
  intros Hnsg Hrt. rewrite elem_of_app, !elem_of_range_values.
  unfold nsgIndex, rtIndex.
  split; (intros [(n & H)|(n & H)]; [left|right]; exists n);
    first [rewrite <- Hnsg|rewrite Hnsg|rewrite <- Hrt|rewrite Hrt]; exact H.
Qed.

Lemma snet_loop_keeps nsgMap rtMap :
  indexes nsgBase (NSG.Name <$> VNET.NSG vnet) nsgMap →
  indexes (rtBase vnet) (RT.Name <$> VNET.RT vnet) rtMap →
  keeps (Wired (snetBase vnet))
    (for_range (VNET.SNET vnet)
       (snet_body host 0 (vnetHandle vnet) nsgMap rtMap
          (range_values nsgMap ++ range_values rtMap)) (∅, []))
    (λ acc s, Wired (pipBase vnet) s
              ∧ acc.2 = seq (snetBase vnet) (length (VNET.SNET vnet))).
Proof.
  intros Hnsg Hrt.
  eapply keeps_conseq;
    [| apply (keeps_for_range
                (λ done acc s, Wired (snetBase vnet + length done) s
                               ∧ acc.2 = seq (snetBase vnet) (length done))) |].
  - intros s Hs. cbv beta. split; [|reflexivity].
    eapply Wired_eq; [|exact Hs]. len_side.
  - intros done x rest [snetMap snetResources] Hl. apply keeps_pure_r. intros Hres.
    simpl in Hres. unfold snet_body, NewSubnet.
    eapply keeps_bind; [apply keeps_ID|].
    intros nsgId. apply keeps_pure. intros _.
    eapply keeps_bind; [apply keeps_ID|].
    intros rtId. apply keeps_pure. intros _.
    eapply keeps_bind.
    + apply keeps_declare. split; [reflexivity|]. simpl. intros h.
      apply network_dependencies; assumption.
    + intros h. apply keeps_pure. intros ->. apply keeps_ret. intros s Hs.
      split.
      * eapply Wired_eq; [|exact Hs]. rewrite length_app. len_side.
      * simpl. rewrite Hres, length_app. simpl. rewrite Nat.add_1_r.
        apply seq_snoc.
  - intros acc s [Hs Hres]. split; [|exact Hres].
    eapply Wired_eq; [|exact Hs]. len_side.
Qed.

Lemma pip_loop_keeps :
  keeps (Wired (pipBase vnet))
    (for_range (VNET.PIP vnet)
       (pip_body host tags 0 (seq (snetBase vnet) (length (VNET.SNET vnet)))) (∅, []))
    (λ acc s, Wired (nicBase vnet) s
              ∧ acc.2 = seq (pipBase vnet) (length (VNET.PIP vnet))).
Proof.
  eapply keeps_conseq;
    [| apply (keeps_for_range
                (λ done acc s, Wired (pipBase vnet + length done) s
                               ∧ acc.2 = seq (pipBase vnet) (length done))) |].
  - intros s Hs. cbv beta. split; [|reflexivity].
    eapply Wired_eq; [|exact Hs]. len_side.
  - intros done x rest [pipMap pipResources] Hl. apply keeps_pure_r. intros Hres.
    simpl in Hres. unfold pip_body, NewPublicIPAddress.
    eapply keeps_bind.
    + apply keeps_declare. split; reflexivity.
    + intros h. apply keeps_pure. intros ->. apply keeps_ret. intros s Hs.
      split.
      * eapply Wired_eq; [|exact Hs]. rewrite length_app. len_side.
      * simpl. rewrite Hres, length_app. simpl. rewrite Nat.add_1_r.
        apply seq_snoc.
  - intros acc s [Hs Hres]. split; [|exact Hres].
    eapply Wired_eq; [|exact Hs]. len_side.
Qed.

Lemma nic_loop_keeps snetMap pipMap :
  keeps (Wired (nicBase vnet))
    (for_range (VNET.NIC vnet)
       (nic_body host tags 0 snetMap pipMap
          (seq (pipBase vnet) (length (VNET.PIP vnet)))) (∅, []))
    (λ acc s, Wired (randomHandle vnet) s
              ∧ indexes (nicBase vnet) (NIC.Name <$> VNET.NIC vnet) acc.1
              ∧ acc.2 = seq (nicBase vnet) (length (VNET.NIC vnet))).
Proof.
  eapply keeps_conseq;
    [| apply (keeps_for_range
                (λ done acc s, Wired (nicBase vnet + length done) s
                               ∧ indexes (nicBase vnet) (NIC.Name <$> done) acc.1
                               ∧ acc.2 = seq (nicBase vnet) (length done))) |].
  - intros s Hs. cbv beta. split; [|split; [apply indexes_empty|reflexivity]].
    eapply Wired_eq; [|exact Hs]. len_side.
  - intros done x rest [nicMap nicResources] Hl. apply keeps_pure_r.
    intros [Hidx Hres]. simpl in Hidx, Hres. unfold nic_body, NewNetworkInterface.
    eapply keeps_bind; [apply keeps_ID|].
    intros snetId. apply keeps_pure. intros _.
    eapply keeps_bind.
    + apply keeps_declare. split; reflexivity.
    + intros h. apply keeps_pure. intros ->. apply keeps_ret. intros s Hs.
      split; [|split].
      * eapply Wired_eq; [|exact Hs]. rewrite length_app. len_side.
      * simpl. rewrite fmap_app. simpl. rewrite <- (length_fmap NIC.Name done).
        apply indexes_insert. exact Hidx.
      * simpl. rewrite Hres, length_app. simpl. rewrite Nat.add_1_r.
        apply seq_snoc.
  - intros acc s (Hs & Hidx & Hres). split; [|split; assumption].
    eapply Wired_eq; [|exact Hs]. len_side.
Qed.

Lemma main_keeps :
  keeps (λ s, s = initial) (main host tags vnet vm) (λ _ s, Wired (S (vmHandle vnet)) s).
Proof.
  unfold main. destruct (ReadFile host "./README.md") as [readme|err].
  2:{ intros s ->. simpl. constructor. }
  eapply keeps_bind with (R := λ _ s, Wired 0 s).
  { intros s ->. simpl. split; [constructor|reflexivity]. }
  intros _. unfold NewResourceGroup.
  eapply keeps_bind; [apply keeps_declare; split; reflexivity|].
  intros resourceGroup. apply keeps_pure. intros ->.
  eapply keeps_bind; [apply nsg_loop_keeps|].
  intros nsgMap. apply keeps_pure_r. intros Hnsg.
  eapply keeps_bind; [apply (rt_loop_keeps _ Hnsg)|].
  intros rtMap. apply keeps_pure_r. intros Hrt.
  cbv zeta. unfold NewVirtualNetwork.
  eapply keeps_bind.
  { apply keeps_declare. split; [reflexivity|]. simpl. intros h.
    apply network_dependencies; assumption. }
  intros virtualNetwork. apply keeps_pure. intros ->.
  eapply keeps_bind; [apply (snet_loop_keeps _ _ Hnsg Hrt)|].
  intros [snetMap snetResources]. apply keeps_pure_r. simpl. intros ->.
  eapply keeps_bind; [apply pip_loop_keeps|].
  intros [pipMap pipResources]. apply keeps_pure_r. simpl. intros ->.
  eapply keeps_bind; [apply nic_loop_keeps|].
  intros [nicMap nicResources]. apply keeps_pure_r. simpl. intros [_ ->].
  unfold NewRandomString.
  eapply keeps_bind; [apply keeps_declare; split; reflexivity|].
  intros randomOsDiskId. apply keeps_pure. intros ->.
  eapply keeps_bind; [apply keeps_ID|].
  intros nic0. apply keeps_pure. intros _.
  eapply keeps_bind; [apply keeps_ID|].
  intros nic1. apply keeps_pure. intros _.
  eapply keeps_bind; [apply keeps_ID|].
  intros nic2. apply keeps_pure. intros _.
  unfold NewVirtualMachine.
  eapply keeps_bind; [apply keeps_declare; split; reflexivity|].
  intros h. apply keeps_pure. intros ->. apply keeps_ret. intros s Hs. exact Hs.
Qed.

Lemma run_wired : Forall (wired vnet) (declared (run host tags vnet vm).2).
Proof.
  pose proof (main_keeps initial eq_refl) as H. unfold run.
  destruct (main host tags vnet vm initial) as [[[]|e|p] s]; simpl; [apply H|exact H..].
Qed.
End Wiring.

(* ===================================================================== *)
(** ** Kinds and positions *)
(* ===================================================================== *)

Section Positions.
Variable host : Host.
Variable tags : Tags.t.
Variable vnet : VNET.t.
Variable vm : VM.t.
Variable l : list Declaration.
Hypothesis Hl : follows_plan host tags vnet vm l.

Lemma plan_kind_range k it :
  plan vnet !! k = Some it →
  first_position vnet (item_kind it) ≤ k
  < first_position vnet (item_kind it) + count_of vnet (item_kind it).
Proof.
  intros Hit. apply plan_lookup_inv in Hit.
  destruct it; simpl in *.
  all: try (destruct Hit as (j & -> & Hj%lookup_lt_Some)); subst; len_side.
Qed.

Lemma plan_at_kind K h :
  first_position vnet K ≤ h < first_position vnet K + count_of vnet K →
  ∃ it, plan vnet !! h = Some it ∧ item_kind it = K.
Proof.
  intros Hh.
  assert (∃ j, h = first_position vnet K + j ∧ j < count_of vnet K) as (j & -> & Hj).
  { exists (h - first_position vnet K). lia. }
  destruct K; simpl in *.
  - assert (j = 0) as -> by lia. exists IRG. split; reflexivity.
  - destruct (lookup_lt_is_Some_2 _ _ Hj) as [x Hx].
    exists (INSG x). split; [apply plan_at_INSG; exact Hx|reflexivity].
  - destruct (lookup_lt_is_Some_2 _ _ Hj) as [x Hx].
    exists (IRT x). split; [apply plan_at_IRT; exact Hx|reflexivity].
  - assert (j = 0) as -> by lia. exists IVNET. rewrite Nat.add_0_r.
    split; [apply plan_IVNET|reflexivity].
  - destruct (lookup_lt_is_Some_2 _ _ Hj) as [x Hx].
    exists (ISNET x). split; [apply plan_at_ISNET; exact Hx|reflexivity].
  - destruct (lookup_lt_is_Some_2 _ _ Hj) as [x Hx].
    exists (IPIP x). split; [apply plan_at_IPIP; exact Hx|reflexivity].
  - destruct (lookup_lt_is_Some_2 _ _ Hj) as [x Hx].
    exists (INIC x). split; [apply plan_at_INIC; exact Hx|reflexivity].
  - assert (j = 0) as -> by lia. exists IRANDOM. rewrite Nat.add_0_r.
    split; [apply plan_IRANDOM|reflexivity].
  - assert (j = 0) as -> by lia. exists IVM. rewrite Nat.add_0_r.
    split; [apply plan_IVM|reflexivity].
Qed.

(** Where the declarations of a kind sit in a trace that follows the plan. *)
Lemma declared_kind_iff K h :
  declared_kind l K h
  ↔ h < length l
    ∧ first_position vnet K ≤ h < first_position vnet K + count_of vnet K.
Proof.
  split.
  - intros (d & Hd & Hk). split; [eapply lookup_lt_Some; exact Hd|].
    destruct (Hl h d Hd) as (it & Hit & Hdec).
    rewrite <- Hk, (declares_kind _ _ _ _ _ _ Hdec).
    apply plan_kind_range. exact Hit.
  - intros [Hlt Hh]. destruct (plan_at_kind K h Hh) as (it & Hit & Hk).
    destruct (declared_at _ _ _ _ _ Hl h it Hlt Hit) as (d & Hd & Hdec).
    exists d. split; [exact Hd|]. rewrite (declares_kind _ _ _ _ _ _ Hdec). exact Hk.
Qed.

Lemma position_of_kind i d :
  l !! i = Some d →
  first_position vnet (kind d) ≤ i
  < first_position vnet (kind d) + count_of vnet (kind d).
Proof.
  intros Hd. apply (declared_kind_iff (kind d) i). exists d. auto.
Qed.
End Positions.

Lemma index_values {A} (nm : A → string) base (l : list A) h :
  (∃ n, resolve_in base (nm <$> l) n = Some h)
  ↔ ∃ j, h = base + j ∧ last_of_its_name nm l j.
Proof.
  split.
  - intros (n & Hn). apply resolve_in_last_named in Hn as (j & -> & x & Hx & <- & Hlast).
    exists j. split; [reflexivity|]. exists x. split; assumption.
  - intros (j & -> & x & Hx & Hlast). exists (nm x).
    apply resolve_in_last_named. exists j. split; [reflexivity|].
    exists x. repeat split; assumption.
Qed.

Lemma last_of_its_name_NoDup {A} (nm : A → string) (l : list A) j :
  NoDup (nm <$> l) → j < length l → last_of_its_name nm l j.
Proof.
  intros Hnd Hj. destruct (lookup_lt_is_Some_2 _ _ Hj) as [x Hx].
  exists x. split; [exact Hx|]. intros j' x' Hlt Hx' Heq.
  assert (j' = j); [|lia].
  apply (NoDup_lookup (nm <$> l) j' j (nm x) Hnd).
  - rewrite list_lookup_fmap, Hx'. simpl. congruence.
  - rewrite list_lookup_fmap, Hx. reflexivity.
Qed.

Section RunWiring.
Variable host : Host.
Variable tags : Tags.t.
Variable vnet : VNET.t.
Variable vm : VM.t.

(** What is known of the declaration at a position of the trace of a run. *)
Lemma run_lookup i d :
  declared (run host tags vnet vm).2 !! i = Some d →
  ∃ it, plan vnet !! i = Some it
        ∧ declares host tags vnet vm it d
        ∧ kind d = item_kind it
        ∧ wired vnet d
        ∧ i < length (declared (run host tags vnet vm).2).
Proof.
  intros Hd. destruct (run_follows_plan host tags vnet vm i d Hd) as (it & Hit & Hdec).
  exists it. split; [exact Hit|]. split; [exact Hdec|].
  split; [exact (declares_kind _ _ _ _ _ _ Hdec)|]. split.
  - exact (Forall_lookup_1 _ _ _ _ (run_wired host tags vnet vm) Hd).
  - eapply lookup_lt_Some. exact Hd.
Qed.

Lemma wired_resource d r :
  resource d = r → wired vnet d →
  match r with
  | ResourceGroup _ => DependsOn d = [] ∧ Parent d = None
  | NetworkSecurityGroup _ => DependsOn d = [0] ∧ Parent d = Some 0
  | RouteTable _ =>
      Parent d = Some 0
      ∧ ∀ h, h ∈ DependsOn d ↔ h = 0 ∨ ∃ n, nsgIndex vnet n = Some h
  | VirtualNetwork _ =>
      Parent d = Some 0
      ∧ ∀ h, h ∈ DependsOn d
             ↔ (∃ n, nsgIndex vnet n = Some h) ∨ (∃ n, rtIndex vnet n = Some h)
  | Subnet _ =>
      Parent d = Some (vnetHandle vnet)
      ∧ ∀ h, h ∈ DependsOn d
             ↔ (∃ n, nsgIndex vnet n = Some h) ∨ (∃ n, rtIndex vnet n = Some h)
  | PublicIPAddress _ =>
      DependsOn d = seq (snetBase vnet) (length (VNET.SNET vnet))
      ∧ Parent d = Some 0
  | NetworkInterface _ =>
      DependsOn d = seq (pipBase vnet) (length (VNET.PIP vnet))
      ∧ Parent d = Some 0
  | RandomString _ =>
      DependsOn d = seq (nicBase vnet) (length (VNET.NIC vnet))
      ∧ Parent d = None
  | VirtualMachine _ =>
      DependsOn d = seq (nicBase vnet) (length (VNET.NIC vnet)) ++ [randomHandle vnet]
      ∧ Parent d = Some 0
  end.
Proof. intros <-. exact id. Qed.

End RunWiring.

(** X7. In the trace of a run, the resource group depends on nothing, a
    security group on the resource group, a public IP on exactly the declared
    subnets, an interface on exactly the declared public IPs, the random
    string on exactly the declared interfaces, and the virtual machine on
    exactly the declared interfaces and the random string. *)
Theorem depends_on_previous_kind host tags vnet vm i d :
  declared (run host tags vnet vm).2 !! i = Some d →
  match kind d with
  | KResourceGroup => DependsOn d = []
  | KNetworkSecurityGroup =>
      ∀ h, h ∈ DependsOn d
           ↔ declared_kind (declared (run host tags vnet vm).2) KResourceGroup h
  | KPublicIPAddress =>
      ∀ h, h ∈ DependsOn d
           ↔ declared_kind (declared (run host tags vnet vm).2) KSubnet h
  | KNetworkInterface =>
      ∀ h, h ∈ DependsOn d
           ↔ declared_kind (declared (run host tags vnet vm).2) KPublicIPAddress h
  | KRandomString =>
      ∀ h, h ∈ DependsOn d
           ↔ declared_kind (declared (run host tags vnet vm).2) KNetworkInterface h
  | KVirtualMachine =>
      ∀ h, h ∈ DependsOn d
           ↔ declared_kind (declared (run host tags vnet vm).2) KNetworkInterface h
             ∨ declared_kind (declared (run host tags vnet vm).2) KRandomString h
  | KRouteTable | KVirtualNetwork | KSubnet => True
  end.
Proof.
  intros Hd.
  pose proof (run_follows_plan host tags vnet vm) as Hl.
  destruct (run_lookup host tags vnet vm i d Hd) as (it & Hit & Hdec & Hk & Hw & Hlt).
  pose proof (plan_kind_range vnet i it Hit) as Hpos.
  rewrite Hk. unfold kind in Hk.
  pose proof (wired_resource vnet d (resource d) eq_refl Hw) as Hw'.
  destruct (resource d); destruct it; try discriminate Hk; simpl in *; try exact I.
  - apply Hw'.
  - destruct Hw' as [-> _]. intros h. rewrite list_elem_of_singleton.
    rewrite (declared_kind_iff host tags vnet vm _ Hl). simpl. lia.
  - destruct Hw' as [-> _]. intros h. rewrite elem_of_seq.
    rewrite (declared_kind_iff host tags vnet vm _ Hl). simpl. unfold_bases. lia.
  - destruct Hw' as [-> _]. intros h. rewrite elem_of_seq.
    rewrite (declared_kind_iff host tags vnet vm _ Hl). simpl. unfold_bases. lia.
  - destruct Hw' as [-> _]. intros h. rewrite elem_of_seq.
    rewrite (declared_kind_iff host tags vnet vm _ Hl). simpl. unfold_bases. lia.
  - destruct Hw' as [-> _]. intros h.
    rewrite elem_of_app, elem_of_seq, list_elem_of_singleton.
    rewrite !(declared_kind_iff host tags vnet vm _ Hl). simpl. unfold_bases. lia.
Qed.

Lemma depends_on_previous_kind_witness :
  ∃ d,
    declared (run Examples.host Examples.tags Examples.vnet Examples.vm).2 !! 9 = Some d
    ∧ ∀ h, h ∈ DependsOn d
           ↔ declared_kind (declared (run Examples.host Examples.tags Examples.vnet
                                         Examples.vm).2) KNetworkInterface h
             ∨ declared_kind (declared (run Examples.host Examples.tags Examples.vnet
                                           Examples.vm).2) KRandomString h.
Proof.
  eexists.
  assert (H9 : declared (run Examples.host Examples.tags Examples.vnet Examples.vm).2 !! 9
               = Some _) by (vm_compute; reflexivity).
  split; [exact H9|].
  exact (depends_on_previous_kind _ _ _ _ 9 _ H9).
Defined.

(** X8. The dependencies that come from a [range] over an index hold one
    handle per name: a route table depends on the resource group and, of the
    security groups, on exactly those not followed by another of the same
    name; the virtual network and every subnet depend on exactly those
    security groups and the route tables not followed by another of the same
    name. A subnet does not list the virtual network. *)
Theorem depends_on_index_values host tags vnet vm i d :
  declared (run host tags vnet vm).2 !! i = Some d →
  match kind d with
  | KRouteTable =>
      ∀ h, h ∈ DependsOn d
           ↔ h = 0
             ∨ ∃ j, h = nsgBase + j ∧ last_of_its_name NSG.Name (VNET.NSG vnet) j
  | KVirtualNetwork | KSubnet =>
      ∀ h, h ∈ DependsOn d
           ↔ (∃ j, h = nsgBase + j ∧ last_of_its_name NSG.Name (VNET.NSG vnet) j)
             ∨ (∃ j, h = rtBase vnet + j ∧ last_of_its_name RT.Name (VNET.RT vnet) j)
  | _ => True
  end.
Proof.
  intros Hd.
  destruct (run_lookup host tags vnet vm i d Hd) as (it & Hit & Hdec & Hk & Hw & Hlt).
  rewrite Hk. unfold kind in Hk.
  pose proof (wired_resource vnet d (resource d) eq_refl Hw) as Hw'.
  destruct (resource d); destruct it; try discriminate Hk; simpl in *; try exact I.
  all: destruct Hw' as [_ Hdeps]; intros h; rewrite Hdeps;
    unfold nsgIndex, rtIndex; rewrite ?index_values; reflexivity.
Qed.

Lemma depends_on_index_values_witness :
  ∃ d,
    declared (run Examples.host Examples.tags Examples.vnet_duplicates Examples.vm).2
      !! 3 = Some d
    ∧ kind d = KRouteTable
    ∧ (1 ∈ DependsOn d
       ↔ 1 = 0 ∨ ∃ j, 1 = nsgBase + j
                      ∧ last_of_its_name NSG.Name (VNET.NSG Examples.vnet_duplicates) j).
Proof.
  eexists.
  assert (H3 : declared (run Examples.host Examples.tags Examples.vnet_duplicates
                           Examples.vm).2 !! 3 = Some _) by (vm_compute; reflexivity).
  split; [exact H3|]. split; [reflexivity|].
  exact (depends_on_index_values _ _ _ _ 3 _ H3 1).
Defined.

(** X9. When the configured security groups have pairwise distinct names, and
    so have the route tables, every declared route table depends on the
    resource group and on every declared security group, and the virtual
    network and every declared subnet depend on every declared security
    group and route table. *)
Theorem depends_on_every_group host tags vnet vm i d :
  NoDup (NSG.Name <$> VNET.NSG vnet) →
  NoDup (RT.Name <$> VNET.RT vnet) →
  declared (run host tags vnet vm).2 !! i = Some d →
  match kind d with
  | KRouteTable =>
      ∀ h, h ∈ DependsOn d
           ↔ declared_kind (declared (run host tags vnet vm).2) KResourceGroup h
             ∨ declared_kind (declared (run host tags vnet vm).2) KNetworkSecurityGroup h
  | KVirtualNetwork | KSubnet =>
      ∀ h, h ∈ DependsOn d
           ↔ declared_kind (declared (run host tags vnet vm).2) KNetworkSecurityGroup h
             ∨ declared_kind (declared (run host tags vnet vm).2) KRouteTable h
  | _ => True
  end.
Proof.
  intros Hnsg Hrt Hd.
  pose proof (run_follows_plan host tags vnet vm) as Hl.
  destruct (run_lookup host tags vnet vm i d Hd) as (it & Hit & Hdec & Hk & Hw & Hlt).
  pose proof (plan_kind_range vnet i it Hit) as Hpos.
  assert (Hn : ∀ h, (∃ n, nsgIndex vnet n = Some h)
                    ↔ nsgBase ≤ h < nsgBase + length (VNET.NSG vnet)).
  { intros h. unfold nsgIndex. rewrite index_values. split.
    - intros (j & -> & x & Hx%lookup_lt_Some & _). lia.
    - intros Hh. exists (h - nsgBase). split; [lia|].
      apply last_of_its_name_NoDup; [exact Hnsg|lia]. }
  assert (Hr : ∀ h, (∃ n, rtIndex vnet n = Some h)
                    ↔ rtBase vnet ≤ h < rtBase vnet + length (VNET.RT vnet)).
  { intros h. unfold rtIndex. rewrite index_values. split.
    - intros (j & -> & x & Hx%lookup_lt_Some & _). lia.
    - intros Hh. exists (h - rtBase vnet). split; [lia|].
      apply last_of_its_name_NoDup; [exact Hrt|lia]. }
  rewrite Hk. unfold kind in Hk.
  pose proof (wired_resource vnet d (resource d) eq_refl Hw) as Hw'.
  destruct (resource d); destruct it; try discriminate Hk; simpl in *; try exact I.
  all: destruct Hw' as [_ Hdeps]; intros h; rewrite Hdeps, ?Hn, ?Hr;
    rewrite !(declared_kind_iff host tags vnet vm _ Hl); simpl; unfold_bases; lia.
Qed.

Lemma depends_on_every_group_witness :
  ∃ d,
    declared (run Examples.host Examples.tags MoreExamples.vnet_two_nsg Examples.vm).2
      !! 5 = Some d
    ∧ kind d = KSubnet
    ∧ ∀ h, h ∈ DependsOn d
           ↔ declared_kind (declared (run Examples.host Examples.tags
                                         MoreExamples.vnet_two_nsg Examples.vm).2)
               KNetworkSecurityGroup h
             ∨ declared_kind (declared (run Examples.host Examples.tags
                                           MoreExamples.vnet_two_nsg Examples.vm).2)
                 KRouteTable h.
Proof.
  eexists.
  assert (H5 : declared (run Examples.host Examples.tags MoreExamples.vnet_two_nsg
                           Examples.vm).2 !! 5 = Some _) by (vm_compute; reflexivity).
  split; [exact H5|]. split; [reflexivity|].
  assert (Hn : NoDup (NSG.Name <$> VNET.NSG MoreExamples.vnet_two_nsg)).
  { simpl. repeat constructor; intros Hin;
      repeat (apply elem_of_cons in Hin as [Hin|Hin]; [discriminate Hin|]);
      apply not_elem_of_nil in Hin; exact Hin. }
  assert (Hr : NoDup (RT.Name <$> VNET.RT MoreExamples.vnet_two_nsg)).
  { simpl. repeat constructor. apply not_elem_of_nil. }
  exact (depends_on_every_group _ _ _ _ 5 _ Hn Hr H5).
Defined.

(** X10. In the trace of a run, the resource group and the random string have
    no parent, the parent of a subnet is the declared virtual network, and
    the parent of every other resource is the declared resource group. *)
Theorem parents host tags vnet vm i d :
  declared (run host tags vnet vm).2 !! i = Some d →
  match kind d with
  | KResourceGroup | KRandomString => Parent d = None
  | KSubnet =>
      ∃ p, Parent d = Some p
           ∧ declared_kind (declared (run host tags vnet vm).2) KVirtualNetwork p
  | _ =>
      ∃ p, Parent d = Some p
           ∧ declared_kind (declared (run host tags vnet vm).2) KResourceGroup p
  end.
Proof.
  intros Hd.
  pose proof (run_follows_plan host tags vnet vm) as Hl.
  destruct (run_lookup host tags vnet vm i d Hd) as (it & Hit & Hdec & Hk & Hw & Hlt).
  pose proof (plan_kind_range vnet i it Hit) as Hpos.
  rewrite Hk. unfold kind in Hk.
  pose proof (wired_resource vnet d (resource d) eq_refl Hw) as Hw'.
  destruct (resource d); destruct it; try discriminate Hk; simpl in *.
  all: try (apply Hw').
  all: eexists; split; [apply Hw'|];
    apply (declared_kind_iff host tags vnet vm _ Hl); simpl; unfold_bases; lia.
Qed.

Lemma parents_witness :
  ∃ d,
    declared (run Examples.host Examples.tags Examples.vnet Examples.vm).2 !! 4 = Some d
    ∧ kind d = KSubnet
    ∧ ∃ p, Parent d = Some p
           ∧ declared_kind (declared (run Examples.host Examples.tags Examples.vnet
                                         Examples.vm).2) KVirtualNetwork p.
Proof.
  eexists.
  assert (H4 : declared (run Examples.host Examples.tags Examples.vnet Examples.vm).2 !! 4
               = Some _) by (vm_compute; reflexivity).
  split; [exact H4|]. split; [reflexivity|].
  exact (parents _ _ _ _ 4 _ H4).
Defined.

(** X11. Every handle a declaration of a run mentions, in its arguments, in
    [DependsOn] or as [Parent], is the position of an earlier declaration: the
    declared graph has no forward reference, no self reference and no
    cycle. *)
Theorem references_point_backward host tags vnet vm i d :
  declared (run host tags vnet vm).2 !! i = Some d →
  Forall (λ h, h < i) (handles d).
Proof.
  intros Hd.
  destruct (run_lookup host tags vnet vm i d Hd) as (it & Hit & Hdec & Hk & Hw & Hlt).
  apply plan_lookup_inv in Hit.
  assert (Hn : ∀ n h, nsgIndex vnet n = Some h → h < rtBase vnet).
  { intros n h H. apply (resolve_in_lt NSG.Name) in H. unfold_bases. lia. }
  assert (Hr : ∀ n h, rtIndex vnet n = Some h → h < vnetHandle vnet).
  { intros n h H. apply (resolve_in_lt RT.Name) in H. unfold_bases. lia. }
  assert (Hs : ∀ n h, snetIndex vnet n = Some h → h < pipBase vnet).
  { intros n h H. apply (resolve_in_lt SNET.Name) in H. unfold_bases. lia. }
  assert (Hp : ∀ n h, pipIndex vnet n = Some h → h < nicBase vnet).
  { intros n h H. apply (resolve_in_lt PIP.Name) in H. unfold_bases. lia. }
  assert (Hc : ∀ n h, nicIndex vnet n = Some h → h < randomHandle vnet).
  { intros n h H. apply (resolve_in_lt NIC.Name) in H. unfold_bases. lia. }
  apply Forall_forall. intros h Hh. unfold handles in Hh.
  destruct it; simpl in Hdec, Hit.
  - destruct Hdec as [_ Hres].
    destruct (wired_resource vnet d _ Hres Hw) as [Hdep Hpar].
    rewrite Hres, Hdep, Hpar in Hh. simpl in Hh. apply not_elem_of_nil in Hh. contradiction.
  - destruct Hdec as [_ Hres]. destruct Hit as (j & -> & _).
    destruct (wired_resource vnet d _ Hres Hw) as [Hdep Hpar].
    rewrite Hres, Hdep, Hpar in Hh. simpl in Hh.
    repeat (apply elem_of_cons in Hh as [->|Hh]; [unfold_bases; lia|]).
    apply not_elem_of_nil in Hh. contradiction.
  - destruct Hdec as [_ Hres]. destruct Hit as (j & -> & _).
    destruct (wired_resource vnet d _ Hres Hw) as [Hpar Hdep].
    rewrite Hres, Hpar in Hh. simpl in Hh.
    apply elem_of_cons in Hh as [->|Hh]; [unfold_bases; lia|].
    apply elem_of_app in Hh as [Hh|Hh].
    + apply Hdep in Hh as [->|(n & Hh)]; [unfold_bases; lia|].
      apply Hn in Hh. unfold_bases. lia.
    + apply list_elem_of_singleton in Hh as ->. unfold_bases. lia.
  - destruct Hdec as [_ Hres]. subst i.
    destruct (wired_resource vnet d _ Hres Hw) as [Hpar Hdep].
    rewrite Hres, Hpar in Hh. simpl in Hh.
    apply elem_of_cons in Hh as [->|Hh]; [unfold_bases; lia|].
    apply elem_of_app in Hh as [Hh|Hh].
    + apply Hdep in Hh as [(n & Hh)|(n & Hh)]; [apply Hn in Hh|apply Hr in Hh];
        unfold_bases; lia.
    + apply list_elem_of_singleton in Hh as ->. unfold_bases. lia.
  - destruct Hdec as (_ & nsgId & rtId & Hnsg & Hrt & Hres). destruct Hit as (j & -> & _).
    destruct (wired_resource vnet d _ Hres Hw) as [Hpar Hdep].
    rewrite Hres, Hpar in Hh. simpl in Hh. apply Hn in Hnsg. apply Hr in Hrt.
    repeat (apply elem_of_cons in Hh as [->|Hh]; [unfold_bases; lia|]).
    apply elem_of_app in Hh as [Hh|Hh].
    + apply Hdep in Hh as [(n & Hh)|(n & Hh)]; [apply Hn in Hh|apply Hr in Hh];
        unfold_bases; lia.
    + apply list_elem_of_singleton in Hh as ->. unfold_bases. lia.
  - destruct Hdec as [_ Hres]. destruct Hit as (j & -> & _).
    destruct (wired_resource vnet d _ Hres Hw) as [Hdep Hpar].
    rewrite Hres, Hdep, Hpar in Hh. simpl in Hh.
    apply elem_of_cons in Hh as [->|Hh]; [unfold_bases; lia|].
    apply elem_of_app in Hh as [Hh|Hh].
    + apply elem_of_seq in Hh. unfold_bases. lia.
    + apply list_elem_of_singleton in Hh as ->. unfold_bases. lia.
  - destruct Hdec as (_ & snetId & Hsnet & Hres). destruct Hit as (j & -> & _).
    destruct (wired_resource vnet d _ Hres Hw) as [Hdep Hpar].
    rewrite Hres, Hdep, Hpar in Hh. simpl in Hh. apply Hs in Hsnet.
    repeat (apply elem_of_cons in Hh as [->|Hh]; [unfold_bases; lia|]).
    rewrite app_nil_r in Hh. apply elem_of_app in Hh as [Hh|Hh].
    + destruct (pipIndex vnet (NIC.PipName x)) as [pip|] eqn:E.
      * apply list_elem_of_singleton in Hh as ->. apply Hp in E. unfold_bases. lia.
      * apply not_elem_of_nil in Hh. contradiction.
    + apply elem_of_app in Hh as [Hh|Hh].
      * apply elem_of_seq in Hh. unfold_bases. lia.
      * apply list_elem_of_singleton in Hh as ->. unfold_bases. lia.
  - destruct Hdec as [_ Hres]. subst i.
    destruct (wired_resource vnet d _ Hres Hw) as [Hdep Hpar].
    rewrite Hres, Hdep, Hpar in Hh. simpl in Hh. rewrite app_nil_r in Hh.
    apply elem_of_seq in Hh. unfold_bases. lia.
  - destruct Hdec as (_ & nic0 & nic1 & nic2 & H0 & H1 & H2 & Hres). subst i.
    destruct (wired_resource vnet d _ Hres Hw) as [Hdep Hpar].
    rewrite Hres, Hdep, Hpar in Hh. simpl in Hh.
    apply Hc in H0. apply Hc in H1. apply Hc in H2.
    repeat (apply elem_of_cons in Hh as [->|Hh]; [unfold_bases; lia|]).
    apply elem_of_app in Hh as [Hh|Hh].
    + apply elem_of_app in Hh as [Hh|Hh].
      * apply elem_of_seq in Hh. unfold_bases. lia.
      * apply list_elem_of_singleton in Hh as ->. unfold_bases. lia.
    + apply list_elem_of_singleton in Hh as ->. unfold_bases. lia.
Qed.

Lemma references_point_backward_witness :
  ∃ d,
    declared (run Examples.host Examples.tags Examples.vnet Examples.vm).2 !! 7 = Some d
    ∧ handles d = [0; 4; 5] ++ [0]
    ∧ Forall (λ h, h < 7) (handles d).
Proof.
  eexists.
  assert (H7 : declared (run Examples.host Examples.tags Examples.vnet Examples.vm).2 !! 7
               = Some _) by (vm_compute; reflexivity).
  split; [exact H7|]. split; [reflexivity|].
  exact (references_point_backward _ _ _ _ 7 _ H7).
Defined.

(* ===================================================================== *)
(** ** Declared names *)
(* ===================================================================== *)

Lemma chars_inj s1 s2 : chars s1 = chars s2 → s1 = s2.
Proof.
  revert s2. induction s1 as [|c s1 IH]; intros [|c2 s2] H; simpl in H;
    try discriminate H; [reflexivity|].
  injection H as -> H. rewrite (IH s2 H). reflexivity.
Qed.

Lemma string_app_inv_tail s1 s2 t : s1 +:+ t = s2 +:+ t → s1 = s2.
Proof.
  intros H. apply chars_inj. apply (f_equal chars) in H.
  rewrite !chars_app in H. exact (app_inv_tail _ _ _ H).
Qed.

Section Names.
Variable host : Host.
Variable tags : Tags.t.
Variable vnet : VNET.t.
Variable vm : VM.t.

Lemma declares_name it d :
  declares host tags vnet vm it d → name d = item_name host tags it.
Proof. destruct it; simpl; intros H; apply H. Qed.

(** The first characters of a declared name tell the kind. *)
Lemma item_name_kind it it' :
  item_name host tags it = item_name host tags it' → item_kind it = item_kind it'.
Proof.
  destruct it, it'; simpl; intros H; try reflexivity;
    exfalso; vm_compute in H; discriminate H.
Qed.

Lemma item_name_inj it it' :
  item_name host tags it = item_name host tags it' →
  match it, it' with
  | INSG x, INSG y => NSG.Name x = NSG.Name y
  | IRT x, IRT y => RT.Name x = RT.Name y
  | ISNET x, ISNET y => SNET.Name x = SNET.Name y
  | IPIP x, IPIP y => PIP.Name x = PIP.Name y
  | INIC x, INIC y => NIC.Name x = NIC.Name y
  | _, _ => True
  end.
Proof.
  destruct it, it'; simpl; intros H; try exact I.
  all: apply String.app_inj in H; try exact H.
  all: rewrite <- !string_app_assoc in H; do 2 apply string_app_inv_tail in H; exact H.
Qed.
End Names.

(** X12. When no two configured entries of the same kind share a logical
    name, no two declarations of a run share their declared name. *)
Theorem declared_names_unique host tags vnet vm :
  distinct_names vnet →
  NoDup (name <$> declared (run host tags vnet vm).2).
Proof.
  intros (Hnsg & Hrt & Hsnet & Hpip & Hnic).
  pose proof (run_follows_plan host tags vnet vm) as Hl.
  apply NoDup_alt. intros i i' nm Hi Hi'.
  apply list_lookup_fmap_Some in Hi as (d & -> & Hd).
  apply list_lookup_fmap_Some in Hi' as (d' & Heq & Hd').
  destruct (Hl i d Hd) as (it & Hit & Hdec).
  destruct (Hl i' d' Hd') as (it' & Hit' & Hdec').
  rewrite (declares_name _ _ _ _ _ _ Hdec), (declares_name _ _ _ _ _ _ Hdec') in Heq.
  pose proof (item_name_kind host tags it it' Heq) as Hk.
  pose proof (item_name_inj host tags it it' Heq) as Hinj.
  apply plan_lookup_inv in Hit, Hit'.
  assert (Hsame : ∀ {A} (nmf : A → string) (xs : list A) j j' x x',
             NoDup (nmf <$> xs) → xs !! j = Some x → xs !! j' = Some x' →
             nmf x = nmf x' → j = j').
  { intros A nmf xs j j' x x' Hnd Hx Hx' Hn.
    apply (NoDup_lookup (nmf <$> xs) j j' (nmf x) Hnd).
    - rewrite list_lookup_fmap, Hx. reflexivity.
    - rewrite list_lookup_fmap, Hx'. simpl. congruence. }
  destruct it, it'; try discriminate Hk; simpl in *; try congruence.
  all: destruct Hit as (j & -> & Hj); destruct Hit' as (j' & -> & Hj');
    cut (j = j'); [intros ->; reflexivity|].
  - exact (Hsame _ NSG.Name _ _ _ _ _ Hnsg Hj Hj' Hinj).
  - exact (Hsame _ RT.Name _ _ _ _ _ Hrt Hj Hj' Hinj).
  - exact (Hsame _ SNET.Name _ _ _ _ _ Hsnet Hj Hj' Hinj).
  - exact (Hsame _ PIP.Name _ _ _ _ _ Hpip Hj Hj' Hinj).
  - exact (Hsame _ NIC.Name _ _ _ _ _ Hnic Hj Hj' Hinj).
Qed.

Lemma declared_names_unique_witness :
  distinct_names Examples.vnet
  ∧ NoDup (name <$> declared (run Examples.host Examples.tags Examples.vnet
                                 Examples.vm).2).
Proof.
  assert (H : distinct_names Examples.vnet).
  { unfold distinct_names. simpl.
    repeat split; repeat constructor; intros Hin;
      repeat (apply elem_of_cons in Hin as [Hin|Hin]; [discriminate Hin|]);
      exact (not_elem_of_nil _ Hin). }
  split; [exact H|].
  exact (declared_names_unique Examples.host Examples.tags Examples.vnet Examples.vm H).
Defined.

(** X13. Conversely, on a run that returns nil, two configured entries of the
    same kind with the same logical name are declared under the same name: if
    the declared names of a completed run are pairwise distinct, so are the
    logical names within each kind. *)
Theorem declared_names_collide host tags vnet vm :
  (run host tags vnet vm).1 = Ok tt →
  NoDup (name <$> declared (run host tags vnet vm).2) →
  distinct_names vnet.
Proof.
  intros Hok Hnd.
  pose proof (run_follows_plan host tags vnet vm) as Hl.
  pose proof (run_Ok_length host tags vnet vm Hok) as Hlen.
  assert (Hkey : ∀ {A} (nmf : A → string) (item : A → Item) (xs : list A) base,
    (∀ j x, xs !! j = Some x → plan vnet !! (base + j) = Some (item x)) →
    (∀ x y, nmf x = nmf y → item_name host tags (item x) = item_name host tags (item y)) →
    NoDup (nmf <$> xs)).
  { intros A nmf item xs base Hplan Hname. apply NoDup_alt. intros j j' n Hj Hj'.
    apply list_lookup_fmap_Some in Hj as (x & -> & Hx).
    apply list_lookup_fmap_Some in Hj' as (y & Hn & Hy).
    pose proof (Hplan j x Hx) as Hp. pose proof (Hplan j' y Hy) as Hp'.
    destruct (declared_at host tags vnet vm _ Hl (base + j) (item x)) as (d & Hd & Hdec);
      [rewrite Hlen; eapply lookup_lt_Some; exact Hp|exact Hp|].
    destruct (declared_at host tags vnet vm _ Hl (base + j') (item y)) as (d' & Hd' & Hdec');
      [rewrite Hlen; eapply lookup_lt_Some; exact Hp'|exact Hp'|].
    assert (base + j = base + j'); [|lia].
    apply (NoDup_lookup _ _ _ (name d) Hnd).
    - rewrite list_lookup_fmap, Hd. reflexivity.
    - rewrite list_lookup_fmap, Hd'. simpl. f_equal.
      rewrite (declares_name _ _ _ _ _ _ Hdec), (declares_name _ _ _ _ _ _ Hdec').
      symmetry. apply Hname. exact Hn. }
  repeat split.
  - apply (Hkey _ NSG.Name INSG _ nsgBase); [apply plan_at_INSG|].
    intros x y H. simpl. rewrite H. reflexivity.
  - apply (Hkey _ RT.Name IRT _ (rtBase vnet)); [apply plan_at_IRT|].
    intros x y H. simpl. rewrite H. reflexivity.
  - apply (Hkey _ SNET.Name ISNET _ (snetBase vnet)); [apply plan_at_ISNET|].
    intros x y H. simpl. rewrite H. reflexivity.
  - apply (Hkey _ PIP.Name IPIP _ (pipBase vnet)); [apply plan_at_IPIP|].
    intros x y H. simpl. rewrite H. reflexivity.
  - apply (Hkey _ NIC.Name INIC _ (nicBase vnet)); [apply plan_at_INIC|].
    intros x y H. simpl. rewrite H. reflexivity.
Qed.

Lemma declared_names_collide_witness :
  (run Examples.host Examples.tags Examples.vnet Examples.vm).1 = Ok tt
  ∧ NoDup (name <$> declared (run Examples.host Examples.tags Examples.vnet
                                 Examples.vm).2)
  ∧ distinct_names Examples.vnet.
Proof.
  assert (Hok : (run Examples.host Examples.tags Examples.vnet Examples.vm).1 = Ok tt)
    by (vm_compute; reflexivity).
  assert (Hnd : NoDup (name <$> declared (run Examples.host Examples.tags Examples.vnet
                                             Examples.vm).2)).
  { vm_compute. repeat constructor; intros Hin;
      repeat (apply elem_of_cons in Hin as [Hin|Hin]; [discriminate Hin|]);
      exact (not_elem_of_nil _ Hin). }
  split; [exact Hok|]. split; [exact Hnd|].
  exact (declared_names_collide _ _ _ _ Hok Hnd).
Defined.

(* ===================================================================== *)
(** ** Arguments carried over from the configuration *)
(* ===================================================================== *)

(** X14. The declaration of a configured security group carries its rules
    one for one and in order: as many security rules as configured rules, and
    the rule at each position with the nine fields of the configured rule at
    that position, the priority as given. *)
Theorem security_rules_translated host tags vnet vm j x d :
  VNET.NSG vnet !! j = Some x →
  declared (run host tags vnet vm).2 !! (nsgBase + j) = Some d →
  ∃ a,
    resource d = NetworkSecurityGroup a
    ∧ length (NetworkSecurityGroupArgs.SecurityRules a) = length (NSG.Rules x)
    ∧ ∀ k rule,
        NSG.Rules x !! k = Some rule →
        ∃ r,
          NetworkSecurityGroupArgs.SecurityRules a !! k = Some r
          ∧ SecurityRuleTypeArgs.Access r = Rule.Access rule
          ∧ SecurityRuleTypeArgs.DestinationAddressPrefix r
            = Rule.DestinationAddressPrefix rule
          ∧ SecurityRuleTypeArgs.DestinationPortRange r = Rule.DestinationPortRange rule
          ∧ SecurityRuleTypeArgs.Direction r = Rule.Direction rule
          ∧ SecurityRuleTypeArgs.Name r = Rule.Name rule
          ∧ SecurityRuleTypeArgs.Priority r = Rule.Priority rule
          ∧ SecurityRuleTypeArgs.Protocol r = Rule.Protocol rule
          ∧ SecurityRuleTypeArgs.SourceAddressPrefix r = Rule.SourceAddressPrefix rule
          ∧ SecurityRuleTypeArgs.SourcePortRange r = Rule.SourcePortRange rule.
Proof.
  intros Hx Hd.
  destruct (run_follows_plan host tags vnet vm _ _ Hd) as (it & Hit & Hdec).
  rewrite (plan_at_INSG vnet j x Hx) in Hit. injection Hit as <-.
  destruct Hdec as [_ Hres]. eexists. split; [exact Hres|]. simpl.
  split; [apply length_map|].
  intros k rule Hk. exists (securityRule rule). split.
  - change (map securityRule (NSG.Rules x)) with (securityRule <$> NSG.Rules x).
    rewrite list_lookup_fmap, Hk. reflexivity.
  - repeat split.
Qed.

Lemma security_rules_translated_witness :
  ∃ d a r,
    declared (run Examples.host Examples.tags MoreExamples.vnet_two_nsg Examples.vm).2
      !! (nsgBase + 0) = Some d
    ∧ resource d = NetworkSecurityGroup a
    ∧ NetworkSecurityGroupArgs.SecurityRules a !! 1 = Some r
    ∧ SecurityRuleTypeArgs.Priority r = 4096%Z.
Proof.
  destruct (declared (run Examples.host Examples.tags MoreExamples.vnet_two_nsg
                        Examples.vm).2 !! (nsgBase + 0)) as [d|] eqn:Hd;
    [|vm_compute in Hd; discriminate Hd].
  destruct (security_rules_translated Examples.host Examples.tags
              MoreExamples.vnet_two_nsg Examples.vm 0 _ _ eq_refl Hd)
    as (a & Ha & _ & Hrules).
  destruct (Hrules 1 MoreExamples.deny_all eq_refl)
    as (r & Hr & _ & _ & _ & _ & _ & Hp & _).
  exists d, a, r. split; [reflexivity|]. split; [exact Ha|]. split; [exact Hr|exact Hp].
Defined.

(** X15. The declaration of a configured route table carries the BGP
    propagation flag as configured and the routes one for one and in order,
    each with the four fields of the configured route. *)
Theorem routes_translated host tags vnet vm j x d :
  VNET.RT vnet !! j = Some x →
  declared (run host tags vnet vm).2 !! (rtBase vnet + j) = Some d →
  ∃ a,
    resource d = RouteTable a
    ∧ RouteTableArgs.DisableBgpRoutePropagation a = RT.DisableBgpRoutePropagation x
    ∧ length (RouteTableArgs.Routes a) = length (RT.Routes x)
    ∧ ∀ k route,
        RT.Routes x !! k = Some route →
        ∃ r,
          RouteTableArgs.Routes a !! k = Some r
          ∧ RouteTypeArgs.AddressPrefix r = Route.AddressPrefix route
          ∧ RouteTypeArgs.Name r = Route.Name route
          ∧ RouteTypeArgs.NextHopType r = Route.NextHopType route
          ∧ RouteTypeArgs.NextHopIpAddress r = Route.NextHopIpAddress route.
Proof.
  intros Hx Hd.
  destruct (run_follows_plan host tags vnet vm _ _ Hd) as (it & Hit & Hdec).
  rewrite (plan_at_IRT vnet j x Hx) in Hit. injection Hit as <-.
  destruct Hdec as [_ Hres]. eexists. split; [exact Hres|]. simpl.
  split; [reflexivity|]. split; [apply length_map|].
  intros k route Hk. exists (routeArgs route). split.
  - change (map routeArgs (RT.Routes x)) with (routeArgs <$> RT.Routes x).
    rewrite list_lookup_fmap, Hk. reflexivity.
  - repeat split.
Qed.

Lemma routes_translated_witness :
  ∃ d a r,
    declared (run Examples.host Examples.tags MoreExamples.vnet_two_nsg Examples.vm).2
      !! (rtBase MoreExamples.vnet_two_nsg + 0) = Some d
    ∧ resource d = RouteTable a
    ∧ RouteTableArgs.Routes a !! 0 = Some r
    ∧ RouteTypeArgs.NextHopIpAddress r = "10.0.0.4".
Proof.
  destruct (declared (run Examples.host Examples.tags MoreExamples.vnet_two_nsg
                        Examples.vm).2 !! (rtBase MoreExamples.vnet_two_nsg + 0))
    as [d|] eqn:Hd; [|vm_compute in Hd; discriminate Hd].
  destruct (routes_translated Examples.host Examples.tags
              MoreExamples.vnet_two_nsg Examples.vm 0 _ _ eq_refl Hd)
    as (a & Ha & _ & _ & Hroutes).
  destruct (Hroutes 0 MoreExamples.default_route eq_refl) as (r & Hr & _ & _ & _ & Hip).
  exists d, a, r. split; [reflexivity|]. split; [exact Ha|]. split; [exact Hr|exact Hip].
Defined.

(** X16. A declared virtual machine has the marketplace plan of its image
    reference (plan name the SKU, product the offer, same publisher), both
    taken from the configured image, the configured size, credentials,
    computer name and storage account type, and password authentication
    left enabled. *)
Theorem vm_plan_matches_image host tags vnet vm i d a :
  declared (run host tags vnet vm).2 !! i = Some d →
  resource d = VirtualMachine a →
  let plan_ := VirtualMachineArgs.Plan a in
  let image := VirtualMachineArgs.ImageReference a in
  let profile := VirtualMachineArgs.OsProfile a in
  PlanArgs.Name plan_ = ImageReferenceArgs.Sku image
  ∧ PlanArgs.Product plan_ = ImageReferenceArgs.Offer image
  ∧ PlanArgs.Publisher plan_ = ImageReferenceArgs.Publisher image
  ∧ ImageReferenceArgs.Offer image = Image.Offer (VM.Image vm)
  ∧ ImageReferenceArgs.Publisher image = Image.Publisher (VM.Image vm)
  ∧ ImageReferenceArgs.Sku image = Image.Sku (VM.Image vm)
  ∧ ImageReferenceArgs.Version image = Image.Version (VM.Image vm)
  ∧ VirtualMachineArgs.VmSize a = VM.VmSize vm
  ∧ OSProfileArgs.AdminUsername profile = VM.AdminUsername vm
  ∧ OSProfileArgs.AdminPassword profile = VM.AdminPassword vm
  ∧ OSProfileArgs.ComputerName profile = VM.ComputerName vm
  ∧ OSProfileArgs.DisablePasswordAuthentication profile = false
  ∧ OSDiskArgs.StorageAccountType (VirtualMachineArgs.OsDisk a)
    = VM.StorageAccountType vm.
Proof.
  intros Hd Ha.
  pose proof (run_follows_plan host tags vnet vm) as Hl.
  destruct (virtual_machine_inv _ _ _ _ _ Hl i d a Hd Ha) as [_ Hdec].
  destruct Hdec as (_ & nic0 & nic1 & nic2 & _ & _ & _ & Hr).
  rewrite Ha in Hr. injection Hr as ->. simpl. repeat split.
Qed.

Lemma vm_plan_matches_image_witness :
  ∃ d a,
    declared (run Examples.host Examples.tags Examples.vnet Examples.vm).2 !! 9 = Some d
    ∧ resource d = VirtualMachine a
    ∧ PlanArgs.Name (VirtualMachineArgs.Plan a)
      = ImageReferenceArgs.Sku (VirtualMachineArgs.ImageReference a).
Proof.
  eexists _, _.
  assert (H9 : declared (run Examples.host Examples.tags Examples.vnet Examples.vm).2 !! 9
               = Some _) by (vm_compute; reflexivity).
  split; [exact H9|]. split; [reflexivity|].
  exact (proj1 (vm_plan_matches_image _ _ _ _ 9 _ _ H9 eq_refl)).
Defined.

(* ===================================================================== *)
(** ** The host runtime decides how far a run gets, not what it declares *)
(* ===================================================================== *)

Section HostIndependence.
Variable host host' : Host.
Variable tags : Tags.t.
Variable vnet : VNET.t.
Variable vm : VM.t.
Hypothesis Hstack : Stack host = Stack host'.

Lemma declares_functional it d d' :
  declares host tags vnet vm it d → declares host' tags vnet vm it d' →
  name d = name d' ∧ resource d = resource d'.
Proof.
  assert (Hs : nameSuffix host = nameSuffix host').
  { unfold nameSuffix. rewrite Hstack. reflexivity. }
  destruct it; simpl.
  all: try (intros [Hn Hr] [Hn' Hr']; rewrite Hn, Hn', Hr, Hr', ?Hs; split; reflexivity).
  - intros (Hn & a & b & Ha & Hb & Hr) (Hn' & a' & b' & Ha' & Hb' & Hr').
    rewrite Hn, Hn', Hr, Hr'. split; [reflexivity|]. congruence.
  - intros (Hn & a & Ha & Hr) (Hn' & a' & Ha' & Hr').
    rewrite Hn, Hn', Hr, Hr', Hs. split; [reflexivity|]. congruence.
  - intros (Hn & a & b & c & Ha & Hb & Hc & Hr) (Hn' & a' & b' & c' & Ha' & Hb' & Hc' & Hr').
    rewrite Hn, Hn', Hr, Hr'. split; [reflexivity|].
    assert (a = a') as -> by congruence. assert (b = b') as -> by congruence.
    assert (c = c') as -> by congruence.
    unfold virtualMachineArgs. rewrite Hs. reflexivity.
Qed.
End HostIndependence.

(** X17. What is declared at a position does not depend on the answers of the
    host runtime: on two host runtimes with the same stack name, the
    declarations the two runs make at a common position have the same name,
    arguments and parent and depend on the same handles. *)
Theorem declarations_independent_of_host host host' tags vnet vm i d d' :
  Stack host = Stack host' →
  declared (run host tags vnet vm).2 !! i = Some d →
  declared (run host' tags vnet vm).2 !! i = Some d' →
  name d = name d'
  ∧ resource d = resource d'
  ∧ Parent d = Parent d'
  ∧ ∀ h, h ∈ DependsOn d ↔ h ∈ DependsOn d'.
Proof.
  intros Hstack Hd Hd'.
  destruct (run_lookup host tags vnet vm i d Hd) as (it & Hit & Hdec & _ & Hw & _).
  destruct (run_lookup host' tags vnet vm i d' Hd') as (it' & Hit' & Hdec' & _ & Hw' & _).
  assert (it' = it) as -> by congruence.
  destruct (declares_functional host host' tags vnet vm Hstack it d d' Hdec Hdec')
    as [Hn Hr].
  split; [exact Hn|]. split; [exact Hr|].
  pose proof (wired_resource vnet d _ eq_refl Hw) as H.
  pose proof (wired_resource vnet d' _ eq_refl Hw') as H'.
  rewrite <- Hr in H'.
  destruct (resource d); destruct H as [H1 H2]; destruct H' as [H1' H2'].
  all: first
    [ split; [congruence|]; intros h; rewrite H1, H1'; reflexivity
    | split; [congruence|]; intros h; rewrite H2, H2'; reflexivity ].
Qed.

Lemma declarations_independent_of_host_witness :
  ∃ d d',
    declared (run Examples.host Examples.tags Examples.vnet Examples.vm).2 !! 2 = Some d
    ∧ declared (run MoreExamples.host_refusing_fourth Examples.tags Examples.vnet
                  Examples.vm).2 !! 2 = Some d'
    ∧ name d = name d' ∧ resource d = resource d'.
Proof.
  eexists _, _.
  assert (H : declared (run Examples.host Examples.tags Examples.vnet Examples.vm).2 !! 2
              = Some _) by (vm_compute; reflexivity).
  assert (H' : declared (run MoreExamples.host_refusing_fourth Examples.tags Examples.vnet
                           Examples.vm).2 !! 2 = Some _) by (vm_compute; reflexivity).
  split; [exact H|]. split; [exact H'|].
  destruct (declarations_independent_of_host Examples.host
              MoreExamples.host_refusing_fourth Examples.tags Examples.vnet Examples.vm
              2 _ _ eq_refl H H') as (Hn & Hr & _).
  split; [exact Hn|exact Hr].
Defined.

(* ===================================================================== *)
(** ** The whole trace, and the exports *)
(* ===================================================================== *)

(** X18. The kinds and names a run declares, in order, are those of an
    initial part of the plan: the resource group, the security groups in
    configuration order, the route tables in configuration order, the virtual
    network, then subnets, public IPs and interfaces in configuration order,
    the random string and the virtual machine. *)
Theorem trace_is_plan_prefix host tags vnet vm :
  (λ d, (kind d, name d)) <$> declared (run host tags vnet vm).2
  = (λ it, (item_kind it, item_name host tags it))
      <$> take (length (declared (run host tags vnet vm).2)) (plan vnet).
Proof.
  pose proof (run_follows_plan host tags vnet vm) as Hl.
  apply list_eq. intros i. rewrite !list_lookup_fmap.
  destruct (declared (run host tags vnet vm).2 !! i) as [d|] eqn:Hd.
  - destruct (Hl i d Hd) as (it & Hit & Hdec).
    rewrite lookup_take_lt by (eapply lookup_lt_Some; exact Hd).
    rewrite Hit. simpl.
    rewrite (declares_kind _ _ _ _ _ _ Hdec), (declares_name _ _ _ _ _ _ Hdec).
    reflexivity.
  - apply lookup_ge_None in Hd. rewrite lookup_take_ge by exact Hd. reflexivity.
Qed.

(** X19. A run exports nothing but the readme: a key of the stack exports is
    [readme], and its value is the content read from [./README.md]. *)
Theorem only_readme_exported host tags vnet vm key value :
  exports (run host tags vnet vm).2 !! key = Some value →
  key = "readme" ∧ ReadFile host "./README.md" = inl value.
Proof.
  intros H.
  destruct (ReadFile host "./README.md") as [readme|err] eqn:E.
  - rewrite (run_exports host tags vnet vm readme E) in H.
    apply lookup_insert_Some in H as [[<- <-]|[_ H]]; [split; reflexivity|].
    rewrite lookup_empty in H. discriminate H.
  - rewrite (run_unreadable host tags vnet vm err E) in H. simpl in H.
    rewrite lookup_empty in H. discriminate H.
Qed.

Lemma only_readme_exported_witness :
  exports (run Examples.host Examples.tags Examples.vnet Examples.vm).2 !! "readme"
    = Some "# panos-vm"
  ∧ ReadFile Examples.host "./README.md" = inl "# panos-vm".
Proof.
  assert (H : exports (run Examples.host Examples.tags Examples.vnet Examples.vm).2
                !! "readme" = Some "# panos-vm") by (vm_compute; reflexivity).
  split; [exact H|].
  exact (proj2 (only_readme_exported _ _ _ _ _ _ H)).
Defined.

(** X20. The network arguments come from the configuration unchanged: the
    virtual network has the configured address space as its only address
    prefix, a subnet its configured address prefix, an interface its two
    configured flags; a subnet is declared into the declared virtual network;
    a public IP is static, standard and regional, an interface of type
    standard. *)
Theorem network_arguments host tags vnet vm i d :
  declared (run host tags vnet vm).2 !! i = Some d →
  match resource d with
  | VirtualNetwork a => VirtualNetworkArgs.AddressPrefixes a = [VNET.AddressSpace vnet]
  | Subnet a =>
      ∃ j x, i = snetBase vnet + j ∧ VNET.SNET vnet !! j = Some x
             ∧ SubnetArgs.AddressPrefix a = SNET.AddressPrefix x
             ∧ declared_kind (declared (run host tags vnet vm).2) KVirtualNetwork
                 (SubnetArgs.VirtualNetworkName a)
  | PublicIPAddress a =>
      PublicIPAddressArgs.PublicIPAllocationMethod a = "Static"
      ∧ PublicIPAddressArgs.SkuName a = "Standard"
      ∧ PublicIPAddressArgs.SkuTier a = "Regional"
  | NetworkInterface a =>
      ∃ j x, i = nicBase vnet + j ∧ VNET.NIC vnet !! j = Some x
             ∧ NetworkInterfaceArgs.EnableAcceleratedNetworking a
               = NIC.EnableAcceleratedNetworking x
             ∧ NetworkInterfaceArgs.EnableIPForwarding a = NIC.EnableIPForwarding x
             ∧ NetworkInterfaceArgs.NicType a = "Standard"
  | _ => True
  end.
Proof.
  intros Hd.
  pose proof (run_follows_plan host tags vnet vm) as Hl.
  destruct (run_lookup host tags vnet vm i d Hd) as (it & Hit & Hdec & Hk & _ & Hlt).
  apply plan_lookup_inv in Hit. unfold kind in Hk.
  destruct it; simpl in Hdec, Hit.
  - destruct Hdec as [_ ->]. exact I.
  - destruct Hdec as [_ ->]. exact I.
  - destruct Hdec as [_ ->]. exact I.
  - destruct Hdec as [_ ->]. reflexivity.
  - destruct Hdec as (_ & a & b & _ & _ & ->). destruct Hit as (j & -> & Hj).
    exists j, x. repeat split; try assumption. simpl.
    apply (declared_kind_iff host tags vnet vm _ Hl). simpl. unfold_bases. lia.
  - destruct Hdec as [_ ->]. repeat split.
  - destruct Hdec as (_ & a & _ & ->). destruct Hit as (j & -> & Hj).
    exists j, x. repeat split; assumption.
  - destruct Hdec as [_ ->]. exact I.
  - destruct Hdec as (_ & a & b & c & _ & _ & _ & ->). exact I.
Qed.

Lemma network_arguments_witness :
  ∃ d a,
    declared (run Examples.host Examples.tags Examples.vnet Examples.vm).2 !! 4 = Some d
    ∧ resource d = Subnet a
    ∧ SubnetArgs.AddressPrefix a = "10.0.0.0/24".
Proof.
  destruct (declared (run Examples.host Examples.tags Examples.vnet Examples.vm).2 !! 4)
    as [d|] eqn:Hd; [|vm_compute in Hd; discriminate Hd].
  pose proof (network_arguments Examples.host Examples.tags Examples.vnet Examples.vm
                4 d Hd) as H.
  assert (Hr : ∃ a, resource d = Subnet a).
  { vm_compute in Hd. injection Hd as <-. eexists. reflexivity. }
  destruct Hr as [a Ha]. rewrite Ha in H.
  destruct H as (j & x & Hi & Hx & Hp & _).
  exists d, a. split; [reflexivity|]. split; [exact Ha|].
  rewrite Hp.
  assert (j = 0) as -> by (vm_compute in Hi; lia).
  vm_compute in Hx. injection Hx as <-. reflexivity.
Defined.
